(** * The Unity indexing and retrieval pipeline: a shallow embedding

    The development follows the TypeScript sources of the repository:

    - [JS]: the fragment of the JavaScript string library and of the
      regular expressions the sources rely on;
    - [NodePath] and [Fs]: the POSIX flavour of Node's [path] module and
      the calls of [fs/promises] the sources make;
    - [FilesystemMCPClient], [PineconeVectorDB], [UnityProjectIndexer],
      [RAGEngine] and [CodeStyleAnalyzer]: the classes of the sources, with
      the names of their members. Of the vector store client the calls
      that store and search are embedded, of the style analyser the naming
      and formatting analyses, the confidence and the transformer;
    - [UnityProject], [UserProfile] and [UserProfileStore]: the global
      types of projects and users and the actions of the profile store
      that take whole values;
    - [Route]: the [POST] handler of the indexing route.

    Texts are [string]s, a character being one code unit in the range
    0..255. Numbers that the sources treat as floating point values and
    only compare or divide (similarity scores, confidences) are rationals.

    What lies outside the sources is part of a [World]: the working
    directory and the disk, the clock, the tokens [nanoid] hands out, the
    embedding provider, the answers of Pinecone to queries and whether it
    answers at all. An asynchronous method is a computation [M] that reads
    and changes the world and may throw; [await] is sequencing. Writing to
    the console is not part of the model.

    The definitions come first, then the vocabulary of the statements and
    the sample worlds, then the lemmas and theorems. *)

From Stdlib Require Import ZArith QArith Lia Lqa List Ascii String DecimalString DecimalNat.
From stdpp Require Import gmap strings.

Local Open Scope stdpp_scope.
Set Warnings "-register-all,-clear-no-such-hyp".

(** ** JavaScript strings *)

Module JS.

Definition code (c : ascii) : N := N_of_ascii c.

Definition between (lo hi : N) (c : ascii) : bool :=
  ((lo <=? code c) && (code c <=? hi))%N.

(** [\s], restricted to the code units below 256: tab, line feed, vertical
    tab, form feed, carriage return, space and no-break space. *)
Definition isSpace (c : ascii) : bool :=
  between 9 13 c || (code c =? 32)%N || (code c =? 160)%N.

Definition isDigit (c : ascii) : bool := between 48 57 c.
Definition isUpper (c : ascii) : bool := between 65 90 c.
Definition isLower (c : ascii) : bool := between 97 122 c.

(** [\w] is [[A-Za-z0-9_]]. *)
Definition isWord (c : ascii) : bool :=
  isUpper c || isLower c || isDigit c || (code c =? 95)%N.

Definition isAlnum (c : ascii) : bool := isUpper c || isLower c || isDigit c.

Definition lowerChar (c : ascii) : ascii :=
  if isUpper c || (between 192 222 c && negb (code c =? 215)%N)
  then ascii_of_N (code c + 32) else c.

Fixpoint toLowerCase (s : string) : string :=
  match s with
  | EmptyString => EmptyString
  | String c t => String (lowerChar c) (toLowerCase t)
  end.

Definition startsWith (s p : string) : bool := String.prefix p s.

Fixpoint includes (s needle : string) : bool :=
  String.prefix needle s
  || match s with
     | EmptyString => false
     | String _ t => includes t needle
     end.

Fixpoint drop (n : nat) (s : string) : string :=
  match n, s with
  | S k, String _ t => drop k t
  | _, _ => s
  end.

Definition endsWith (s suffix : string) : bool :=
  (String.length suffix <=? String.length s)%nat
  && String.eqb (drop (String.length s - String.length suffix) s) suffix.

Fixpoint trimStart (s : string) : string :=
  match s with
  | EmptyString => EmptyString
  | String c t => if isSpace c then trimStart t else s
  end.

Fixpoint trimEnd (s : string) : string :=
  match s with
  | EmptyString => EmptyString
  | String c t =>
      match trimEnd t with
      | EmptyString => if isSpace c then EmptyString else String c EmptyString
      | t' => String c t'
      end
  end.

Definition trim (s : string) : string := trimEnd (trimStart s).

Fixpoint repeat (s : string) (n : nat) : string :=
  match n with
  | O => EmptyString
  | S k => s +:+ repeat s k
  end.

Definition join (sep : string) (l : list string) : string := String.concat sep l.

(** Puts a character in front of the first piece of a list of pieces. *)
Definition consFirst (c : ascii) (l : list string) : list string :=
  match l with
  | [] => [String c EmptyString]
  | h :: r => String c h :: r
  end.

(** [s.split(sep)] for a separator of one character. *)
Fixpoint splitChar (sep : ascii) (s : string) : list string :=
  match s with
  | EmptyString => [EmptyString]
  | String c t =>
      if Ascii.eqb c sep then EmptyString :: splitChar sep t
      else consFirst c (splitChar sep t)
  end.

(** [s.split(/\s+/)]: a run of white space separates two pieces; a run at
    either end of the text leaves an empty piece there. *)
Fixpoint splitSpacesFrom (inRun : bool) (s : string) : list string :=
  match s with
  | EmptyString => [EmptyString]
  | String c t =>
      if isSpace c
      then (if inRun then splitSpacesFrom true t
            else EmptyString :: splitSpacesFrom true t)
      else consFirst c (splitSpacesFrom false t)
  end.

Definition splitSpaces (s : string) : list string := splitSpacesFrom false s.

(** [s.split(/(?=r)/)] for a look-ahead [r] that does not accept the empty
    text: the text is cut in front of every position other than the first
    one at which [r] matches. *)
Section SplitAhead.
Variable look : string -> bool.

Fixpoint piecesAhead (s : string) : list string :=
  match s with
  | EmptyString => [EmptyString]
  | String c t =>
      if look s then EmptyString :: consFirst c (piecesAhead t)
      else consFirst c (piecesAhead t)
  end.

Definition splitAhead (s : string) : list string :=
  match s with
  | EmptyString => [EmptyString]
  | String c t => consFirst c (piecesAhead t)
  end.
End SplitAhead.

(** *** Matching at the start of a text

    A matcher consumes a prefix of the text and gives back what is left.
    The character classes of the patterns in the sources that follow one
    another are disjoint, so the greedy reading is the only one. *)

Definition lit (p s : string) : option string :=
  if String.prefix p s then Some (drop (String.length p) s) else None.

Fixpoint span (P : ascii -> bool) (s : string) : string * string :=
  match s with
  | EmptyString => (EmptyString, EmptyString)
  | String c t =>
      if P c then let '(a, r) := span P t in (String c a, r)
      else (EmptyString, s)
  end.

(** [P*] *)
Definition many (P : ascii -> bool) (s : string) : string * string := span P s.

(** [P+] *)
Definition many1 (P : ascii -> bool) (s : string) : option (string * string) :=
  match span P s with
  | (EmptyString, _) => None
  | (a, r) => Some (a, r)
  end.

Definition char (c : ascii) (s : string) : option string :=
  match s with
  | String d t => if Ascii.eqb c d then Some t else None
  | EmptyString => None
  end.

Fixpoint alt (ps : list string) (s : string) : option string :=
  match ps with
  | [] => None
  | p :: r => match lit p s with Some t => Some t | None => alt r s end
  end.

(** The length of what a matcher consumed. *)
Definition consumed (s rest : string) : nat :=
  String.length s - String.length rest.

(** *** Scanning a text with the [g] flag

    [m] tells, for the text read from some position on, whether the
    pattern matches there, with the value of the match and its length.
    After a match the scan resumes behind it. *)
Section Scan.
Context {A : Type}.
Variable m : string -> option (A * nat).

Fixpoint matchAllFrom (skip : nat) (s : string) : list A :=
  match s with
  | EmptyString => []
  | String _ t =>
      match skip with
      | S k => matchAllFrom k t
      | O =>
          match m s with
          | Some (a, len) => a :: matchAllFrom (Nat.pred len) t
          | None => matchAllFrom 0 t
          end
      end
  end.

Definition matchAll (s : string) : list A := matchAllFrom 0 s.
End Scan.

(** [s.replace(r, f)] with the [g] flag; [m] gives the replacement text. *)
Section Replace.
Variable m : string -> option (string * nat).

Fixpoint replaceFrom (skip : nat) (s : string) : string :=
  match s with
  | EmptyString => EmptyString
  | String c t =>
      match skip with
      | S k => replaceFrom k t
      | O =>
          match m s with
          | Some (r, len) => r +:+ replaceFrom (Nat.pred len) t
          | None => String c (replaceFrom 0 t)
          end
      end
  end.

Definition replaceAll (s : string) : string := replaceFrom 0 s.
End Replace.

(** [String(n)] for a natural number. *)
Definition ofNat (n : nat) : string := NilZero.string_of_uint (Nat.to_uint n).

End JS.

(** ** Node's [path] module, POSIX flavour *)

Module NodePath.

Definition isAbsolute (p : string) : bool := JS.startsWith p "/".

Definition isDots (s : string) : bool := String.eqb s "..".

(** [normalizeString]: empty and [.] segments vanish, [..] removes the
    segment before it, and is kept only where the path may climb above
    its start. [acc] is the path built so far, last segment first. *)
Fixpoint normalizeFrom (allowAboveRoot : bool) (acc segs : list string)
  : list string :=
  match segs with
  | [] => rev acc
  | s :: r =>
      if String.eqb s "" || String.eqb s "." then normalizeFrom allowAboveRoot acc r
      else if isDots s then
        match acc with
        | top :: acc' =>
            if isDots top
            then normalizeFrom allowAboveRoot
                   (if allowAboveRoot then s :: acc else acc) r
            else normalizeFrom allowAboveRoot acc' r
        | [] =>
            normalizeFrom allowAboveRoot
              (if allowAboveRoot then [s] else []) r
        end
      else normalizeFrom allowAboveRoot (s :: acc) r
  end.

Definition normalizeString (allowAboveRoot : bool) (p : string) : list string :=
  normalizeFrom allowAboveRoot [] (JS.splitChar "/" p).

(** The segments of [path.resolve(p)] in a process whose working
    directory is the absolute path [cwd]. *)
Definition resolveSegs (cwd p : string) : list string :=
  normalizeString false
    (if String.eqb p "" then cwd
     else if isAbsolute p then p
     else cwd +:+ "/" +:+ p).

Definition resolve (cwd p : string) : string :=
  "/" +:+ JS.join "/" (resolveSegs cwd p).

Definition normalize (p : string) : string :=
  if String.eqb p "" then "."
  else
    let body := JS.join "/" (normalizeString (negb (isAbsolute p)) p) in
    let trailing := JS.endsWith p "/" in
    if String.eqb body "" then
      if isAbsolute p then "/" else if trailing then "./" else "."
    else
      let body' := if trailing then body +:+ "/" else body in
      if isAbsolute p then "/" +:+ body' else body'.

Definition join (parts : list string) : string :=
  match List.filter (fun a => negb (String.eqb a "")) parts with
  | [] => "."
  | nonEmpty => normalize (JS.join "/" nonEmpty)
  end.

Definition basename (p : string) : string :=
  List.last (List.filter (fun a => negb (String.eqb a "")) (JS.splitChar "/" p)) "".

End NodePath.

(** ** The world the classes run in *)

(** A file is readable when it has a content; a directory lists its
    entries in the order [readdir] reports them. *)
Inductive Entry : Type :=
| File (name : string) (content : option string) (size : Z) (mtime : Z)
| Dir (name : string) (entries : list Entry).

Definition entryName (e : Entry) : string :=
  match e with
  | File n _ _ _ => n
  | Dir n _ => n
  end.

Inductive FileType : Type := Script | Scene | Prefab | Documentation.

Record VectorMetadata : Type := mkMetadata {
  projectId : string;
  projectName : string;
  fileType : FileType;
  filePath : string;
  language : string;
  unityVersion : string;
  className : option string;
  namespace : option string;
  methods : list string;
  dependencies : list string;
  createdAt : Z;
  updatedAt : Z
}.

Record Document : Type := mkDocument {
  docId : string;
  docContent : string;
  docMetadata : VectorMetadata
}.

(** A record of the Pinecone index. *)
Record VectorRecord : Type := mkVector {
  vecId : string;
  values : list Q;
  vecContent : string;
  vecMetadata : VectorMetadata
}.

(** What [index.query] reports for one neighbour. *)
Record Match : Type := mkMatch {
  matchId : string;
  matchScore : option Q;
  matchValues : option (list Q);
  matchContent : option string;
  matchMetadata : VectorMetadata
}.

Definition Filter : Type := list (string * string).

(** A call that reached the vector store. *)
Inductive StoreOp : Type :=
| Upsert (batch : list VectorRecord)
| Query (vector : list Q) (topK : nat) (filter : option Filter).

Inductive Error : Type :=
| AccessDenied (path : string)
| IOError (path : string)
| EmbeddingFailed
| StoreFailed
| RangeError.

Inductive Result (A : Type) : Type :=
| Ok (a : A)
| Err (e : Error).
Arguments Ok {A} a.
Arguments Err {A} e.

Record World : Type := mkWorld {
  cwd : string;                        (* [process.cwd()], absolute *)
  disk : list Entry;                   (* the entries of [/] *)
  clock : Z;                           (* [Date.now()] *)
  nanoid : nat -> string;              (* the tokens [nanoid()] hands out *)
  drawn : nat;                         (* how many of them were handed out *)
  embedContent : string -> option (list Q);   (* the embedding provider *)
  storeUp : bool;                      (* whether Pinecone answers *)
  neighbours : list Q -> nat -> option Filter -> list Match;
  index : gmap string VectorRecord;    (* the Pinecone index, by id *)
  storeLog : list StoreOp;             (* the calls made to the store, oldest first *)
  allowedPaths : list string;          (* [FilesystemMCPClient.allowedPaths] *)
  watchers : list (string * string)    (* watcher id and watched directory *)
}.

Definition withDrawn (n : nat) (w : World) : World :=
  mkWorld (cwd w) (disk w) (clock w) (nanoid w) n (embedContent w) (storeUp w)
    (neighbours w) (index w) (storeLog w) (allowedPaths w) (watchers w).

Definition withStore (i : gmap string VectorRecord) (l : list StoreOp) (w : World)
  : World :=
  mkWorld (cwd w) (disk w) (clock w) (nanoid w) (drawn w) (embedContent w)
    (storeUp w) (neighbours w) i l (allowedPaths w) (watchers w).

Definition withAllowedPaths (a : list string) (w : World) : World :=
  mkWorld (cwd w) (disk w) (clock w) (nanoid w) (drawn w) (embedContent w)
    (storeUp w) (neighbours w) (index w) (storeLog w) a (watchers w).

Definition withWatchers (ws : list (string * string)) (w : World) : World :=
  mkWorld (cwd w) (disk w) (clock w) (nanoid w) (drawn w) (embedContent w)
    (storeUp w) (neighbours w) (index w) (storeLog w) (allowedPaths w) ws.

(** *** Computations that read and change the world and may throw

    What a computation changed before it threw stays changed. *)
Definition M (A : Type) : Type := World -> Result A * World.

Definition ret {A} (a : A) : M A := fun w => (Ok a, w).
Definition throw {A} (e : Error) : M A := fun w => (Err e, w).

Definition bind {A B} (m : M A) (k : A -> M B) : M B :=
  fun w =>
    match m w with
    | (Ok a, w') => k a w'
    | (Err e, w') => (Err e, w')
    end.

Definition catch {A} (m : M A) (handler : Error -> M A) : M A :=
  fun w =>
    match m w with
    | (Ok a, w') => (Ok a, w')
    | (Err e, w') => handler e w'
    end.

Definition gets {A} (f : World -> A) : M A := fun w => (Ok (f w), w).
Definition modify (f : World -> World) : M unit := fun w => (Ok tt, f w).

Declare Scope js_scope.
Delimit Scope js_scope with js.
Notation "x <- m ;; k" := (bind m (fun x => k))
  (at level 100, m at next level, right associativity) : js_scope.
Notation "m ;;; k" := (bind m (fun _ => k))
  (at level 100, right associativity) : js_scope.
Local Open Scope js_scope.

(** [await Promise.all(xs.map(f))]: the results in order, or the first
    failure. *)
Fixpoint all {A B} (f : A -> M B) (xs : list A) : M (list B) :=
  match xs with
  | [] => ret []
  | x :: r => b <- f x ;; bs <- all f r ;; ret (b :: bs)
  end.

(** [for (const x of xs) body(x)] *)
Fixpoint forEach {A} (body : A -> M unit) (xs : list A) : M unit :=
  match xs with
  | [] => ret tt
  | x :: r => body x ;;; forEach body r
  end.

(** ** [fs/promises] on the disk of the world *)

Module Fs.

(** What the sources read of the result of [stat]. *)
Record Stats : Type := mkStats {
  size : Z;
  modified : Z;
  isDirectory : bool
}.

Definition named (name : string) (e : Entry) : bool :=
  String.eqb (entryName e) name.

Fixpoint lookup (e : Entry) (segs : list string) : option Entry :=
  match segs with
  | [] => Some e
  | s :: r =>
      match e with
      | Dir _ es =>
          match find (named s) es with
          | Some e' => lookup e' r
          | None => None
          end
      | File _ _ _ _ => None
      end
  end.

Definition entryAt (w : World) (p : string) : option Entry :=
  lookup (Dir "" (disk w)) (NodePath.resolveSegs (cwd w) p).

Definition readFile (p : string) : M string :=
  fun w =>
    match entryAt w p with
    | Some (File _ (Some content) _ _) => (Ok content, w)
    | _ => (Err (IOError p), w)
    end.

Definition readdir (p : string) : M (list Entry) :=
  fun w =>
    match entryAt w p with
    | Some (Dir _ es) => (Ok es, w)
    | _ => (Err (IOError p), w)
    end.

Definition stat (p : string) : M Stats :=
  fun w =>
    match entryAt w p with
    | Some (File _ _ sz mt) => (Ok (mkStats sz mt false), w)
    | Some (Dir _ _) => (Ok (mkStats 0 0 true), w)
    | None => (Err (IOError p), w)
    end.

End Fs.

(** ** The source accessor *)

Module FilesystemMCPClient.

Inductive FileEvent : Type := Add | Change | Unlink.

Definition isUnlink (event : FileEvent) : bool :=
  match event with
  | Unlink => true
  | _ => false
  end.

Record ScriptFile : Type := mkScript {
  path : string;
  name : string;
  content : string;
  size : Z;
  modified : Z
}.

Definition addAllowedPath (dirPath : string) : M unit :=
  modify (fun w =>
    let resolved := NodePath.resolve (cwd w) dirPath in
    if existsb (String.eqb resolved) (allowedPaths w) then w
    else withAllowedPaths (allowedPaths w ++ [resolved]) w).

Definition pathAllowedIn (w : World) (filePath : string) : bool :=
  let resolvedPath := NodePath.resolve (cwd w) filePath in
  existsb (fun allowedPath => JS.startsWith resolvedPath allowedPath)
    (allowedPaths w).

Definition isPathAllowed (filePath : string) : M bool :=
  gets (fun w => pathAllowedIn w filePath).

Definition readFile (filePath : string) : M string :=
  allowed <- isPathAllowed filePath ;;
  if negb allowed then throw (AccessDenied filePath)
  else catch (Fs.readFile filePath) (fun error => throw error).

(** The loop of [listDirectory]: what each entry adds to [files], in
    order, up to the first failure. *)
Fixpoint collect {A} (f : A -> Result (list string)) (xs : list A)
  : Result (list string) :=
  match xs with
  | [] => Ok []
  | x :: rest =>
      match f x with
      | Ok found =>
          match collect f rest with
          | Ok files => Ok (found ++ files)
          | Err e => Err e
          end
      | Err e => Err e
      end
  end.

(** One turn of that loop, for the entry [entry] of [dirPath]. The call
    for a sub-directory checks its path and reads its entries, which are
    the ones the tree holds below it. *)
Fixpoint listEntry (allowed : string -> bool) (recursive : bool)
    (filter : option (string -> bool)) (dirPath : string) (entry : Entry)
    {struct entry} : Result (list string) :=
  let fullPath := NodePath.join [dirPath; entryName entry] in
  match entry with
  | Dir _ sub =>
      if recursive then
        if allowed fullPath
        then collect (listEntry allowed recursive filter fullPath) sub
        else Err (AccessDenied fullPath)
      else Ok []
  | File entryName _ _ _ =>
      match filter with
      | None => Ok [fullPath]
      | Some f => Ok (if f entryName then [fullPath] else [])
      end
  end.

Definition listEntries (allowed : string -> bool) (recursive : bool)
    (filter : option (string -> bool)) (dirPath : string) (entries : list Entry)
  : Result (list string) :=
  collect (listEntry allowed recursive filter dirPath) entries.

Definition listDirectory (dirPath : string) (recursive : bool)
    (filter : option (string -> bool)) : M (list string) :=
  allowed <- isPathAllowed dirPath ;;
  if negb allowed then throw (AccessDenied dirPath)
  else
    entries <- Fs.readdir dirPath ;;
    fun w => (listEntries (pathAllowedIn w) recursive filter dirPath entries, w).

Definition findFiles (dirPath : string) (pattern : string -> bool) : M (list string) :=
  allowed <- isPathAllowed dirPath ;;
  if negb allowed then throw (AccessDenied dirPath)
  else
    files <- listDirectory dirPath true None ;;
    ret (List.filter (fun file => pattern file) files).

Definition getFileStats (filePath : string) : M Fs.Stats :=
  allowed <- isPathAllowed filePath ;;
  if negb allowed then throw (AccessDenied filePath)
  else Fs.stat filePath.

(** The watcher is kept under its id as the directory it watches; the
    callback of a watch is [UnityProjectIndexer.onFileEvent]. *)
Definition watchDirectory (dirPath : string) : M string :=
  allowed <- isPathAllowed dirPath ;;
  if negb allowed then throw (AccessDenied dirPath)
  else
    now <- gets clock ;;
    let watcherId := "watcher-" +:+ JS.ofNat (Z.to_nat now) in
    modify (fun w =>
      let others :=
        List.filter (fun e => negb (String.eqb (fst e) watcherId)) (watchers w) in
      withWatchers ((watcherId, dirPath) :: others) w) ;;;
    ret watcherId.

Definition stopWatching (watcherId : string) : M unit :=
  modify (fun w =>
    withWatchers
      (List.filter (fun e => negb (String.eqb (fst e) watcherId)) (watchers w)) w).

Definition getUnityScripts (dirPath : string) : M (list ScriptFile) :=
  scriptFiles <- findFiles dirPath (fun file => JS.endsWith file ".cs") ;;
  all (fun filePath =>
         content <- readFile filePath ;;
         stats <- getFileStats filePath ;;
         ret (mkScript filePath (NodePath.basename filePath) content
                (Fs.size stats) (Fs.modified stats)))
      scriptFiles.

Definition getUnityScenes (dirPath : string) : M (list string) :=
  findFiles dirPath (fun file => JS.endsWith file ".unity").

Definition getUnityPrefabs (dirPath : string) : M (list string) :=
  findFiles dirPath (fun file => JS.endsWith file ".prefab").

(** [/m_EditorVersion: (.+)/]: the rest of the line, which is not empty. *)
Definition isLineChar (c : ascii) : bool :=
  negb ((JS.code c =? 10)%N || (JS.code c =? 13)%N).

Definition editorVersion (s : string) : option (string * nat) :=
  r ← JS.lit "m_EditorVersion: " s;
  '(v, r') ← JS.many1 isLineChar r;
  Some (v, JS.consumed s r').

Definition readProjectSettings (projectPath : string) : M string :=
  let versionPath :=
    NodePath.join [projectPath; "ProjectSettings"; "ProjectVersion.txt"] in
  allowed <- isPathAllowed versionPath ;;
  if negb allowed then throw (AccessDenied versionPath)
  else
    content <- readFile versionPath ;;
    ret (match JS.matchAll editorVersion content with
         | v :: _ => JS.trim v
         | [] => "unknown"
         end).

(** [cleanup]: every watcher there is gets stopped. *)
Definition cleanup : M unit :=
  watcherIds <- gets (fun w => map fst (watchers w)) ;;
  forEach stopWatching watcherIds.

End FilesystemMCPClient.

(** ** The vector store client *)

Module PineconeVectorDB.

Inductive Relevance : Type := High | Medium | Low.

Record IndexedDocument : Type := mkIndexed {
  id : string;
  content : string;
  embedding : list Q;
  metadata : VectorMetadata
}.

Record SemanticSearchResult : Type := mkResult {
  document : IndexedDocument;
  score : Q;
  relevance : Relevance
}.

Record SearchOptions : Type := mkOptions {
  topK : option nat;
  filter : option Filter;
  minScore : option Q
}.

Definition generateEmbedding (text : string) : M (list Q) :=
  fun w =>
    match embedContent w text with
    | Some v => (Ok v, w)
    | None => (Err EmbeddingFailed, w)
    end.

(** [index.upsert(batch)]: a record replaces the one stored under its id. *)
Definition upsert (batch : list VectorRecord) : M unit :=
  fun w =>
    if storeUp w then
      (Ok tt,
       withStore (foldl (fun i v => <[vecId v := v]> i) (index w) batch)
         (storeLog w ++ [Upsert batch]) w)
    else (Err StoreFailed, withStore (index w) (storeLog w ++ [Upsert batch]) w).

(** [index.query(...)] *)
Definition query (vector : list Q) (topK : nat) (filter : option Filter)
  : M (list Match) :=
  fun w =>
    let w' := withStore (index w) (storeLog w ++ [Query vector topK filter]) w in
    if storeUp w then (Ok (neighbours w vector topK filter), w')
    else (Err StoreFailed, w').

Definition batchSize : nat := 100.

(** The slices [vectors.slice(i, i + batchSize)] for [i = 0, batchSize, ...]. *)
Fixpoint slices {A} (fuel : nat) (vectors : list A) : list (list A) :=
  match fuel, vectors with
  | S f, _ :: _ => take batchSize vectors :: slices f (drop batchSize vectors)
  | _, _ => []
  end.

Definition storeBatch (documents : list Document) : M unit :=
  catch
    (vectors <- all (fun doc =>
                       embedding <- generateEmbedding (docContent doc) ;;
                       ret (mkVector (docId doc) embedding (docContent doc)
                              (docMetadata doc)))
                    documents ;;
     forEach upsert (slices (length vectors) vectors))
    (fun error => throw error).

Definition Qltb (a b : Q) : bool := negb (Qle_bool b a).

(** [x || d] on an optional number: [undefined] and [0] give [d]. *)
Definition orElse (x : option Q) (d : Q) : Q :=
  match x with
  | Some v => if Qeq_bool v 0 then d else v
  | None => d
  end.

Definition orElseNat (x : option nat) (d : nat) : nat :=
  match x with
  | Some 0 | None => d
  | Some v => v
  end.

(** [match.score && match.score >= minScore] *)
Definition keeps (minScore : Q) (m : Match) : bool :=
  match matchScore m with
  | Some s => negb (Qeq_bool s 0) && Qle_bool minScore s
  | None => false
  end.

Definition band (score : Q) : Relevance :=
  if Qltb 0.85 score then High
  else if Qltb 0.75 score then Medium
  else Low.

Definition toResult (m : Match) : SemanticSearchResult :=
  let score := orElse (matchScore m) 0 in
  mkResult
    (mkIndexed (matchId m)
       (default "" (matchContent m))
       (default [] (matchValues m))
       (matchMetadata m))
    score (band score).

Definition search (queryText : string) (options : option SearchOptions)
  : M (list SemanticSearchResult) :=
  catch
    (let topK := orElseNat (o ← options; topK o) 5 in
     let minScore := orElse (o ← options; minScore o) 0.7 in
     queryEmbedding <- generateEmbedding queryText ;;
     matches <- query queryEmbedding topK (o ← options; filter o) ;;
     ret (map toResult (List.filter (keeps minScore) matches)))
    (fun error => throw error).

Definition searchInProject (queryText projectId : string)
    (topK : option nat) (fileType : option string) : M (list SemanticSearchResult) :=
  let filter := ("projectId", projectId)
                :: match fileType with
                   | Some t => if String.eqb t "" then [] else [("fileType", t)]
                   | None => []
                   end in
  search queryText (Some (mkOptions topK (Some filter) None)).

Definition storeDocument (document : Document) : M unit :=
  catch
    (embedding <- generateEmbedding (docContent document) ;;
     upsert [mkVector (docId document) embedding (docContent document)
               (docMetadata document)])
    (fun error => throw error).

End PineconeVectorDB.

(** ** The indexing pipeline *)

Module UnityProjectIndexer.

Import FilesystemMCPClient.

Record ProjectInfo : Type := mkInfo {
  infoName : string;
  infoVersion : string;
  infoPath : string
}.

Record ScriptMetadata : Type := mkScriptMetadata {
  metaClassName : option string;
  metaNamespace : option string;
  metaMethods : list string;
  metaDependencies : list string
}.

Record Counts : Type := mkCounts {
  total : nat;
  indexed : nat;
  errors : nat
}.

Record IndexResult : Type := mkIndexResult {
  totalFiles : nat;
  indexedFiles : nat;
  errorCount : nat
}.

Definition isWordOrDot (c : ascii) : bool := JS.isWord c || (JS.code c =? 46)%N.

Definition modifiers : list string := ["public"; "private"; "protected"].

(** [/class\s+(\w+)/] *)
Definition classDeclaration (s : string) : option (string * nat) :=
  r ← JS.lit "class" s;
  '(_, r) ← JS.many1 JS.isSpace r;
  '(name, r) ← JS.many1 JS.isWord r;
  Some (name, JS.consumed s r).

(** [/namespace\s+([\w.]+)/] *)
Definition namespaceDeclaration (s : string) : option (string * nat) :=
  r ← JS.lit "namespace" s;
  '(_, r) ← JS.many1 JS.isSpace r;
  '(name, r) ← JS.many1 isWordOrDot r;
  Some (name, JS.consumed s r).

(** [/(?:public|private|protected)\s+\w+\s+(\w+)\s*\(/] *)
Definition methodSignature (s : string) : option (string * nat) :=
  r ← JS.alt modifiers s;
  '(_, r) ← JS.many1 JS.isSpace r;
  '(_, r) ← JS.many1 JS.isWord r;
  '(_, r) ← JS.many1 JS.isSpace r;
  '(name, r) ← JS.many1 JS.isWord r;
  r ← JS.char "(" (snd (JS.many JS.isSpace r));
  Some (name, JS.consumed s r).

(** [/using\s+([\w.]+);/] *)
Definition usingStatement (s : string) : option (string * nat) :=
  r ← JS.lit "using" s;
  '(_, r) ← JS.many1 JS.isSpace r;
  '(name, r) ← JS.many1 isWordOrDot r;
  r ← JS.char ";" r;
  Some (name, JS.consumed s r).

(** [/(?:public|private|protected)\s+\w+\s+\w+\s*\(/] *)
Definition methodStart (s : string) : bool := bool_decide (is_Some (methodSignature s)).

(** [/class\s+\w+/] *)
Definition classStart (s : string) : bool := bool_decide (is_Some (classDeclaration s)).

Definition parseScript (content filePath : string) : ScriptMetadata :=
  mkScriptMetadata
    (head (JS.matchAll classDeclaration content))
    (head (JS.matchAll namespaceDeclaration content))
    (JS.matchAll methodSignature content)
    (JS.matchAll usingStatement content).

Definition textLength (s : string) : Z := Z.of_nat (String.length s).

Definition nonEmpty (s : string) : bool := negb (String.eqb s "").

(** The loop over [methodSections], with [currentChunk] and [chunks]. *)
Fixpoint accumulate (maxChunkSize : Z) (methodSections : list string)
    (currentChunk : string) (chunks : list string) : string * list string :=
  match methodSections with
  | [] => (currentChunk, chunks)
  | method :: rest =>
      if (textLength (currentChunk +:+ method) <=? maxChunkSize)%Z
      then accumulate maxChunkSize rest (currentChunk +:+ method) chunks
      else accumulate maxChunkSize rest method
             (if nonEmpty currentChunk then chunks ++ [JS.trim currentChunk]
              else chunks)
  end.

(** The body of the loop over [classSections]. *)
Definition chunkSection (maxChunkSize : Z) (chunks : list string) (section : string)
  : list string :=
  if (textLength section <=? maxChunkSize)%Z then chunks ++ [JS.trim section]
  else
    let methodSections := JS.splitAhead methodStart section in
    let '(currentChunk, chunks) := accumulate maxChunkSize methodSections "" chunks in
    if nonEmpty currentChunk then chunks ++ [JS.trim currentChunk] else chunks.

Definition chunkScript (content : string) (maxChunkSize : Z) : list string :=
  let classSections := JS.splitAhead classStart content in
  let chunks := foldl (chunkSection maxChunkSize) [] classSections in
  List.filter (fun chunk => (0 <? String.length chunk)%nat) chunks.

Definition defaultChunkSize : Z := 1000.

Definition nextToken : M string :=
  fun w => (Ok (nanoid w (drawn w)), withDrawn (S (drawn w)) w).

Definition getProjectInfo (projectPath : string) : M ProjectInfo :=
  catch
    (version <- readProjectSettings projectPath ;;
     ret (mkInfo (NodePath.basename projectPath) version projectPath))
    (fun _ => ret (mkInfo (NodePath.basename projectPath) "unknown" projectPath)).

(** The documents of the chunks of one script, numbered from [i]. *)
Fixpoint chunkDocuments (projectInfo : ProjectInfo) (baseName scriptPath : string)
    (metadata : ScriptMetadata) (updated : option Z) (i : nat) (chunks : list string)
  : M (list Document) :=
  match chunks with
  | [] => ret []
  | chunk :: rest =>
      token <- nextToken ;;
      now <- gets clock ;;
      let doc :=
        mkDocument
          (token +:+ "-" +:+ baseName +:+ "-chunk-" +:+ JS.ofNat i)
          chunk
          (mkMetadata (infoPath projectInfo) (infoName projectInfo) Script
             scriptPath "csharp" (infoVersion projectInfo)
             (metaClassName metadata) (metaNamespace metadata)
             (metaMethods metadata) (metaDependencies metadata)
             now (default now updated)) in
      docs <- chunkDocuments projectInfo baseName scriptPath metadata updated (S i) rest ;;
      ret (doc :: docs)
  end.

(** The loop of [indexScripts] over the scripts, with [documents],
    [indexed] and [errors]. *)
Fixpoint scriptLoop (projectInfo : ProjectInfo) (scripts : list ScriptFile)
    (documents : list Document) (indexed errors : nat)
  : M (list Document * nat * nat) :=
  match scripts with
  | [] => ret (documents, indexed, errors)
  | script :: rest =>
      step <- catch
                (let metadata := parseScript (content script) (path script) in
                 let chunks := chunkScript (content script) defaultChunkSize in
                 docs <- chunkDocuments projectInfo (NodePath.basename (name script))
                           (path script) metadata (Some (modified script)) 0 chunks ;;
                 ret (documents ++ docs, S indexed, errors))
                (fun _ => ret (documents, indexed, S errors)) ;;
      let '(documents', indexed', errors') := step in
      scriptLoop projectInfo rest documents' indexed' errors'
  end.

Definition indexScripts (projectPath : string) (projectInfo : ProjectInfo) : M Counts :=
  let scriptsPath := NodePath.join [projectPath; "Assets"; "Scripts"] in
  scripts <- getUnityScripts scriptsPath ;;
  state <- scriptLoop projectInfo scripts [] 0 0 ;;
  let '(documents, indexed, errors) := state in
  (if (0 <? length documents)%nat then PineconeVectorDB.storeBatch documents
   else ret tt) ;;;
  ret (mkCounts (length scripts) indexed errors).

(** The placeholder document of a scene or a prefab. *)
Definition assetDocument (projectInfo : ProjectInfo) (kind : FileType)
    (label assetPath : string) : M Document :=
  token <- nextToken ;;
  now <- gets clock ;;
  ret (mkDocument
         (token +:+ "-" +:+ NodePath.basename assetPath)
         (label +:+ NodePath.basename assetPath)
         (mkMetadata (infoPath projectInfo) (infoName projectInfo) kind
            assetPath "unity" (infoVersion projectInfo) None None [] [] now now)).

Definition indexScenes (projectPath : string) (projectInfo : ProjectInfo) : M Counts :=
  scenes <- getUnityScenes projectPath ;;
  documents <- all (assetDocument projectInfo Scene "Unity scene: ") scenes ;;
  (if (0 <? length documents)%nat then PineconeVectorDB.storeBatch documents
   else ret tt) ;;;
  ret (mkCounts (length scenes) (length scenes) 0).

Definition indexPrefabs (projectPath : string) (projectInfo : ProjectInfo) : M Counts :=
  prefabs <- getUnityPrefabs projectPath ;;
  documents <- all (assetDocument projectInfo Prefab "Unity prefab: ") prefabs ;;
  (if (0 <? length documents)%nat then PineconeVectorDB.storeBatch documents
   else ret tt) ;;;
  ret (mkCounts (length prefabs) (length prefabs) 0).

Definition indexProject (projectPath : string) : M IndexResult :=
  addAllowedPath projectPath ;;;
  projectInfo <- getProjectInfo projectPath ;;
  catch
    (scriptResult <- indexScripts projectPath projectInfo ;;
     sceneResult <- indexScenes projectPath projectInfo ;;
     prefabResult <- indexPrefabs projectPath projectInfo ;;
     ret (mkIndexResult
            (total scriptResult + total sceneResult + total prefabResult)
            (indexed scriptResult + indexed sceneResult + indexed prefabResult)
            (errors scriptResult + errors sceneResult + errors prefabResult)))
    (fun error => throw error).

(** The callback [watchProject] hands to [watchDirectory]. *)
Definition onFileEvent (projectPath : string) (onChange : option (string -> M unit))
    (filePath : string) (event : FileEvent) : M unit :=
  if JS.endsWith filePath ".cs" && negb (isUnlink event) then
    catch
      (content <- readFile filePath ;;
       projectInfo <- getProjectInfo projectPath ;;
       let metadata := parseScript content filePath in
       let chunks := chunkScript content defaultChunkSize in
       documents <- chunkDocuments projectInfo (NodePath.basename filePath)
                      filePath metadata None 0 chunks ;;
       PineconeVectorDB.storeBatch documents ;;;
       match onChange with
       | Some notify => notify filePath
       | None => ret tt
       end)
      (fun _ => ret tt)
  else if isUnlink event then ret tt
  else ret tt.

Definition watchProject (projectPath : string) : M string :=
  addAllowedPath projectPath ;;;
  watchDirectory projectPath.

Definition stopWatching (watcherId : string) : M unit :=
  FilesystemMCPClient.stopWatching watcherId.

End UnityProjectIndexer.

(** ** The global types of projects and users

    The fields are those of the declarations; the texts that TypeScript
    restricts to a few literals are texts. Of a project the two records
    of counters ([metadata], [indexingStatus]) are left out, of a user the
    [preferences]: no code embedded here reads them. *)

Module UnityProject.

Record UnityPackage : Type := mkPackage {
  packageName : string;
  version : string;
  source : string
}.

Record t : Type := mk {
  id : string;
  name : string;
  path : string;
  type : string;
  unityVersion : string;
  renderPipeline : string;
  packages : list UnityPackage;
  customPatterns : list string
}.

End UnityProject.

Module UserProfile.

Record ErrorSolution : Type := mkErrorSolution {
  error : string;
  solution : string;
  timestamp : Z;
  context : string
}.

Record NamingConventions : Type := mkNamingConventions {
  classes : list string;
  methods : list string;
  variables : list string;
  properties : list string
}.

Record Formatting : Type := mkFormatting {
  indentation : Q;
  bracesStyle : string;
  usingNewlines : bool
}.

Record CodeStyle : Type := mkCodeStyle {
  namingConventions : NamingConventions;
  formatting : Formatting;
  architecturePreferences : list string;
  commonComponents : list string;
  errorHistory : list ErrorSolution
}.

Record Gpu : Type := mkGpu {
  model : string;
  vram : Q
}.

Record Hardware : Type := mkHardware {
  os : string;
  cpu : string;
  ram : string;
  gpu : Gpu
}.

Record Stats : Type := mkStats {
  totalConversations : nat;
  commonQueries : list string;
  preferredModel : string;
  feedbackScores : list Q;
  averageFeedback : Q;
  lastUpdated : Z
}.

Record t : Type := mk {
  name : string;
  experience : string;
  unityVersion : string;
  hardware : Hardware;
  codeStyle : CodeStyle;
  projects : list UnityProject.t;
  stats : Stats
}.

End UserProfile.

(** ** The store of the user profile

    An action of the store is a function from the state to the state:
    [set] merges what the action returns into the state, so the fields
    the action does not name stay as they are. [now] is [Date.now()]. *)

Module UserProfileStore.

Import UserProfile.

Definition withProjects (ps : list UnityProject.t) (state : UserProfile.t)
  : UserProfile.t :=
  UserProfile.mk (name state) (experience state) (unityVersion state) (hardware state)
    (codeStyle state) ps (stats state).

Definition withCodeStyle (c : CodeStyle) (state : UserProfile.t) : UserProfile.t :=
  UserProfile.mk (name state) (experience state) (unityVersion state) (hardware state)
    c (projects state) (stats state).

Definition addProject (project : UnityProject.t) (state : UserProfile.t)
  : UserProfile.t :=
  withProjects (projects state ++ [project]) state.

Definition removeProject (projectId : string) (state : UserProfile.t) : UserProfile.t :=
  withProjects
    (List.filter (fun p => negb (String.eqb (UnityProject.id p) projectId))
       (projects state))
    state.

Definition getActiveProject (state : UserProfile.t) : option UnityProject.t :=
  head (projects state).

Definition addErrorSolution (error solution context : string) (now : Z)
    (state : UserProfile.t) : UserProfile.t :=
  let c := codeStyle state in
  withCodeStyle
    (mkCodeStyle (namingConventions c) (formatting c) (architecturePreferences c)
       (commonComponents c)
       (errorHistory c ++ [mkErrorSolution error solution now context]))
    state.

End UserProfileStore.

(** ** The retrieval engine: query intent *)

Module RAGEngine.

Inductive QueryType : Type :=
| CodeGeneration | Explanation | Debugging | Optimization | General.

Record Intent : Type := mkIntent {
  type : QueryType;
  keywords : list string;
  unitySpecific : bool
}.

Definition stopWords : list string :=
  ["the"; "a"; "an"; "and"; "or"; "but"; "in"; "on"; "at"; "to"; "for"; "of"; "with"].

Definition unityKeywords : list string :=
  ["unity"; "gameobject"; "monobehaviour"; "transform"; "rigidbody";
   "collider"; "prefab"; "scene"; "awake"; "start"; "update"; "fixedupdate";
   "networkbehaviour"; "rpc"; "serializefield"].

Definition has (set : list string) (w : string) : bool :=
  existsb (String.eqb w) set.

Definition analyzeQueryIntent (query : string) : Intent :=
  let lowerQuery := JS.toLowerCase query in
  let type :=
    if JS.includes lowerQuery "create"
       || JS.includes lowerQuery "implement"
       || JS.includes lowerQuery "generate"
       || JS.includes lowerQuery "write"
    then CodeGeneration
    else if JS.includes lowerQuery "explain"
            || JS.includes lowerQuery "what is"
            || JS.includes lowerQuery "how does"
            || JS.includes lowerQuery "why"
    then Explanation
    else if JS.includes lowerQuery "error"
            || JS.includes lowerQuery "bug"
            || JS.includes lowerQuery "fix"
            || JS.includes lowerQuery "debug"
            || JS.includes lowerQuery "not working"
    then Debugging
    else if JS.includes lowerQuery "optimize"
            || JS.includes lowerQuery "performance"
            || JS.includes lowerQuery "faster"
            || JS.includes lowerQuery "improve"
    then Optimization
    else General in
  let words := JS.splitSpaces query in
  let keywords :=
    List.filter (fun word => negb (has stopWords (JS.toLowerCase word))
                        && (2 <? String.length word)%nat) words in
  let unitySpecific :=
    existsb (fun keyword => JS.includes lowerQuery keyword) unityKeywords in
  mkIntent type keywords unitySpecific.

(** The classification as the specification words it: keyword buckets in
    priority order, the first bucket with a keyword in the lowered query
    wins, and [General] is the answer when none has one. *)
Definition intentBuckets : list (QueryType * list string) :=
  [ (CodeGeneration, ["create"; "implement"; "generate"; "write"]);
    (Explanation, ["explain"; "what is"; "how does"; "why"]);
    (Debugging, ["error"; "bug"; "fix"; "debug"; "not working"]);
    (Optimization, ["optimize"; "performance"; "faster"; "improve"]) ].

Fixpoint firstBucket (buckets : list (QueryType * list string)) (lowerQuery : string)
  : QueryType :=
  match buckets with
  | [] => General
  | (t, kws) :: rest =>
      if existsb (JS.includes lowerQuery) kws then t
      else firstBucket rest lowerQuery
  end.

(** *** Retrieval

    An optional argument object is given by its optional fields: a field
    of an object that is absent is absent. *)

Definition documentationOnly : PineconeVectorDB.SearchOptions :=
  PineconeVectorDB.mkOptions (Some 3) (Some [("fileType", "documentation")]) None.

Definition retrieveRelevantDocs (query : string) (projectContext : option UnityProject.t)
    (topK : option nat) (fileType : option string)
  : M (list PineconeVectorDB.SemanticSearchResult) :=
  let topK := PineconeVectorDB.orElseNat topK 5 in
  match projectContext with
  | Some project =>
      PineconeVectorDB.searchInProject query (UnityProject.id project) (Some topK) fileType
  | None =>
      PineconeVectorDB.search query
        (Some (PineconeVectorDB.mkOptions (Some topK)
                 match fileType with
                 | Some t => if String.eqb t "" then None else Some [("fileType", t)]
                 | None => None
                 end
                 None))
  end.

(** [topK] has the default 3 of the parameter when it is not given. *)
Definition findSimilarCode (codeSnippet : string) (projectContext : option UnityProject.t)
    (topK : option nat) : M (list PineconeVectorDB.SemanticSearchResult) :=
  retrieveRelevantDocs ("Find similar code: " +:+ codeSnippet) projectContext
    (Some (default 3 topK)) (Some "script").

Definition getUnityAPIDocumentation (apiName : string)
  : M (list PineconeVectorDB.SemanticSearchResult) :=
  PineconeVectorDB.search ("Unity API documentation for " +:+ apiName)
    (Some documentationOnly).

Definition similarTo (errorMessage : string) (err : UserProfile.ErrorSolution) : bool :=
  JS.includes (JS.toLowerCase errorMessage) (JS.toLowerCase (UserProfile.error err)).

Definition findErrorSolution (errorMessage : string) (userProfile : option UserProfile.t)
  : M (list PineconeVectorDB.SemanticSearchResult) :=
  let fromHistory :=
    match userProfile with
    | Some profile =>
        match
          List.find (similarTo errorMessage)
            (UserProfile.errorHistory (UserProfile.codeStyle profile))
        with
        | Some similarError =>
            Some
              [PineconeVectorDB.mkResult
                 (PineconeVectorDB.mkIndexed "user-error-history"
                    (UserProfile.solution similarError) []
                    (mkMetadata "user-profile" "Error History" Documentation
                       "error-history" "text" (UserProfile.unityVersion profile)
                       None None [] []
                       (UserProfile.timestamp similarError)
                       (UserProfile.timestamp similarError)))
                 1 PineconeVectorDB.High]
        | None => None
        end
    | None => None
    end in
  match fromHistory with
  | Some results => ret results
  | None =>
      PineconeVectorDB.search ("Unity error solution: " +:+ errorMessage)
        (Some documentationOnly)
  end.

(** *** The prompt

    How [JSON.stringify] writes a list of texts and the naming
    conventions, and how a template writes a number, is left open; so is
    what a message of the conversation is. *)

Definition nl : string := String "010" "".

Definition relevanceName (r : PineconeVectorDB.Relevance) : string :=
  match r with
  | PineconeVectorDB.High => "high"
  | PineconeVectorDB.Medium => "medium"
  | PineconeVectorDB.Low => "low"
  end.

(** What the loop over [retrievedDocs] appends, from [index] on. *)
Fixpoint retrievedCode (index : nat) (retrievedDocs : list PineconeVectorDB.SemanticSearchResult)
  : string :=
  match retrievedDocs with
  | [] => ""
  | result :: rest =>
      let doc := PineconeVectorDB.document result in
      "[" +:+ JS.ofNat (index + 1) +:+ "] "
      +:+ filePath (PineconeVectorDB.metadata doc)
      +:+ " (relevance: " +:+ relevanceName (PineconeVectorDB.relevance result) +:+ ")" +:+ nl
      +:+ PineconeVectorDB.content doc +:+ nl +:+ nl
      +:+ "---" +:+ nl +:+ nl
      +:+ retrievedCode (S index) rest
  end.

Section Prompt.
Variable Message : Type.
Variable stringify : list string -> string.
Variable stringifyNaming : UserProfile.NamingConventions -> string.
Variable showNumber : Q -> string.

Record RAGContext : Type := mkRAGContext {
  query : string;
  retrievedDocuments : list PineconeVectorDB.SemanticSearchResult;
  conversationHistory : list Message;
  projectContext : option UnityProject.t;
  userProfile : option UserProfile.t;
  enhancedPrompt : string
}.

Definition buildEnhancedContext (query : string)
    (retrievedDocs : list PineconeVectorDB.SemanticSearchResult)
    (projectContext : option UnityProject.t) (userProfile : option UserProfile.t)
  : string :=
  let context := "" in
  let context :=
    match userProfile with
    | Some userProfile =>
        let gpu := UserProfile.gpu (UserProfile.hardware userProfile) in
        context
        +:+ "USER PROFILE:" +:+ nl
        +:+ "- Experience: " +:+ UserProfile.experience userProfile +:+ nl
        +:+ "- Unity Version: " +:+ UserProfile.unityVersion userProfile +:+ nl
        +:+ "- Hardware: " +:+ UserProfile.model gpu
        +:+ " (" +:+ showNumber (UserProfile.vram gpu) +:+ "GB VRAM)" +:+ nl
        +:+ "- Preferred Style: "
        +:+ stringify (UserProfile.architecturePreferences
                         (UserProfile.codeStyle userProfile))
        +:+ nl +:+ nl
    | None => context
    end in
  let context :=
    match projectContext with
    | Some projectContext =>
        context
        +:+ "PROJECT CONTEXT:" +:+ nl
        +:+ "- Project: " +:+ UnityProject.name projectContext +:+ nl
        +:+ "- Unity Version: " +:+ UnityProject.unityVersion projectContext +:+ nl
        +:+ "- Render Pipeline: " +:+ UnityProject.renderPipeline projectContext +:+ nl
        +:+ "- Type: " +:+ UnityProject.type projectContext +:+ nl
        +:+ "- Packages: "
        +:+ JS.join ", " (map UnityProject.packageName (UnityProject.packages projectContext))
        +:+ nl +:+ nl
    | None => context
    end in
  if (0 <? length retrievedDocs)%nat
  then context +:+ "RELEVANT CODE FROM YOUR PROJECT:" +:+ nl +:+ nl
       +:+ retrievedCode 0 retrievedDocs
  else context.

Definition isCodeGeneration (t : QueryType) : bool :=
  match t with
  | CodeGeneration => true
  | _ => false
  end.

Definition enhance (query : string) (conversationHistory : option (list Message))
    (projectContext : option UnityProject.t) (userProfile : option UserProfile.t)
    (topK : option nat) : M RAGContext :=
  let intent := analyzeQueryIntent query in
  retrievedDocs <- retrieveRelevantDocs query projectContext
                     (Some (PineconeVectorDB.orElseNat topK 5)) None ;;
  let enhancedContext :=
    buildEnhancedContext query retrievedDocs projectContext userProfile in
  let enhancedPrompt := enhancedContext +:+ nl in
  let enhancedPrompt :=
    if unitySpecific intent then
      enhancedPrompt
      +:+ "This is a Unity-specific query. Provide Unity "
      +:+ match projectContext with
          | Some p => if String.eqb (UnityProject.unityVersion p) "" then "6"
                      else UnityProject.unityVersion p
          | None => "6"
          end
      +:+ " best practices." +:+ nl +:+ nl
    else enhancedPrompt in
  let enhancedPrompt :=
    match userProfile with
    | Some u =>
        let gpu := UserProfile.gpu (UserProfile.hardware u) in
        enhancedPrompt
        +:+ "IMPORTANT: Optimize recommendations for " +:+ UserProfile.model gpu
        +:+ " with " +:+ showNumber (UserProfile.vram gpu) +:+ "GB VRAM." +:+ nl +:+ nl
    | None => enhancedPrompt
    end in
  let enhancedPrompt := enhancedPrompt +:+ "USER QUERY:" +:+ nl +:+ query +:+ nl +:+ nl in
  let enhancedPrompt :=
    match userProfile with
    | Some u =>
        if isCodeGeneration (type intent) then
          enhancedPrompt
          +:+ "Generate code matching the user's style:" +:+ nl
          +:+ "- Naming: "
          +:+ stringifyNaming (UserProfile.namingConventions (UserProfile.codeStyle u))
          +:+ nl
          +:+ "- Formatting: "
          +:+ UserProfile.bracesStyle (UserProfile.formatting (UserProfile.codeStyle u))
          +:+ " braces" +:+ nl +:+ nl
        else enhancedPrompt
    | None => enhancedPrompt
    end in
  ret (mkRAGContext query retrievedDocs (default [] conversationHistory)
         projectContext userProfile enhancedPrompt).

End Prompt.

Arguments query {Message} _.
Arguments retrievedDocuments {Message} _.
Arguments conversationHistory {Message} _.
Arguments projectContext {Message} _.
Arguments userProfile {Message} _.
Arguments enhancedPrompt {Message} _.

End RAGEngine.

(** ** The style analyser: naming, formatting and the transformer

    Proportions are rationals; the sources compute them in double
    precision, which can differ from the exact quotient in the last bit. *)

Module CodeStyleAnalyzer.

Inductive PatternType : Type := Naming | Formatting | Architecture | Component.

Record CodePattern : Type := mkPattern {
  type : PatternType;
  pattern : string;
  frequency : nat;
  confidence : Q;
  examples : list string
}.

Record CodeStyleProfile : Type := mkProfile {
  patterns : list CodePattern;
  lastAnalyzed : Z;
  fileCount : nat;
  profileConfidence : Q
}.

Definition isNaming (p : CodePattern) : bool :=
  match type p with Naming => true | _ => false end.

Definition isFormatting (p : CodePattern) : bool :=
  match type p with Formatting => true | _ => false end.

Definition ratio (a b : nat) : Q :=
  (inject_Z (Z.of_nat a) / inject_Z (Z.of_nat b))%Q.

Definition allChars (P : ascii -> bool) (s : string) : bool :=
  String.eqb (snd (JS.span P s)) "".

(** [/^[A-Z][a-zA-Z0-9]*$/] *)
Definition isPascalCase (name : string) : bool :=
  match name with
  | String c t => JS.isUpper c && allChars JS.isAlnum t
  | EmptyString => false
  end.

(** [/^[a-z][a-zA-Z0-9]*$/] *)
Definition isCamelCase (name : string) : bool :=
  match name with
  | String c t => JS.isLower c && allChars JS.isAlnum t
  | EmptyString => false
  end.

(** [/^_[a-z][a-zA-Z0-9]*$/] *)
Definition isUnderscoreCase (name : string) : bool :=
  match name with
  | String c t => (JS.code c =? 95)%N && isCamelCase t
  | EmptyString => false
  end.

Definition startsUpper (n : string) : bool :=
  match n with String c _ => JS.isUpper c | EmptyString => false end.

Definition startsLower (n : string) : bool :=
  match n with String c _ => JS.isLower c | EmptyString => false end.

(** [/(?:private|public|protected)\s+\w+\s+(\w+)\s*[;=]/] *)
Definition fieldDeclaration (s : string) : option (string * nat) :=
  r ← JS.alt ["private"; "public"; "protected"] s;
  '(_, r) ← JS.many1 JS.isSpace r;
  '(_, r) ← JS.many1 JS.isWord r;
  '(_, r) ← JS.many1 JS.isSpace r;
  '(name, r) ← JS.many1 JS.isWord r;
  match snd (JS.many JS.isSpace r) with
  | String c r =>
      if (JS.code c =? 59)%N || (JS.code c =? 61)%N
      then Some (name, JS.consumed s r) else None
  | EmptyString => None
  end.

Definition count {A} (P : A -> bool) (l : list A) : nat := length (List.filter P l).

Definition analyzeNaming (scripts : list string) : list CodePattern :=
  let classNames :=
    flat_map (JS.matchAll UnityProjectIndexer.classDeclaration) scripts in
  let classPatterns :=
    if (0 <? length classNames)%nat then
      let pascalCase := count isPascalCase classNames in
      let percentPascal := (ratio pascalCase (length classNames) * 100)%Q in
      if PineconeVectorDB.Qltb 80 percentPascal
      then [mkPattern Naming "PascalCase for classes" pascalCase
              (percentPascal / 100)%Q (take 3 classNames)]
      else []
    else [] in
  let methodNames :=
    flat_map (JS.matchAll UnityProjectIndexer.methodSignature) scripts in
  let methodPatterns :=
    if (0 <? length methodNames)%nat then
      let pascalCase := count isPascalCase methodNames in
      let camelCase := count isCamelCase methodNames in
      if (camelCase <? pascalCase)%nat
      then [mkPattern Naming "PascalCase for methods" pascalCase
              (ratio pascalCase (length methodNames))
              (take 3 (List.filter startsUpper methodNames))]
      else if (pascalCase <? camelCase)%nat
      then [mkPattern Naming "camelCase for methods" camelCase
              (ratio camelCase (length methodNames))
              (take 3 (List.filter startsLower methodNames))]
      else []
    else [] in
  let variableNames := flat_map (JS.matchAll fieldDeclaration) scripts in
  let variablePatterns :=
    if (0 <? length variableNames)%nat then
      let camelCase := count isCamelCase variableNames in
      let underscore := count isUnderscoreCase variableNames in
      if PineconeVectorDB.Qltb (inject_Z (Z.of_nat camelCase) * 0.5)%Q
           (inject_Z (Z.of_nat underscore))
      then [mkPattern Naming "Underscore prefix for private fields" underscore
              (ratio underscore (length variableNames))
              (take 3 (List.filter (fun n => JS.startsWith n "_") variableNames))]
      else []
    else [] in
  classPatterns ++ methodPatterns ++ variablePatterns.

(** [/\)\s*{/] *)
Definition sameLineBrace (s : string) : option (string * nat) :=
  r ← JS.char ")" s;
  r ← JS.char "{" (snd (JS.many JS.isSpace r));
  Some (String.substring 0 (JS.consumed s r) s, JS.consumed s r).

Definition isNewline (c : ascii) : bool := (JS.code c =? 10)%N.

Definition hasNewline (s : string) : bool :=
  negb (allChars (fun c => negb (isNewline c)) s).

(** [/\)\s*\n\s*{/]: the white space between the parenthesis and the
    brace holds a line feed. *)
Definition newLineBrace (s : string) : option (string * nat) :=
  r ← JS.char ")" s;
  let '(gap, r) := JS.many JS.isSpace r in
  r ← JS.char "{" r;
  if hasNewline gap
  then Some (String.substring 0 (JS.consumed s r) s, JS.consumed s r)
  else None.

(** [/^(\s+)/] *)
Definition leadingSpaces (line : string) : option string :=
  fst <$> JS.many1 JS.isSpace line.

Definition findMostCommon (arr : list nat) : nat :=
  snd (foldl
         (fun '(frequency, maxFreq, mostCommon) value =>
            let freq := default 0 ((frequency : gmap nat nat) !! value) + 1 in
            let frequency := <[value := freq]> frequency in
            if (maxFreq <? freq)%nat then (frequency, freq, value)
            else (frequency, maxFreq, mostCommon))
         (∅, 0, 0) arr).

Definition analyzeFormatting (scripts : list string) : list CodePattern :=
  let sameLine := length (flat_map (JS.matchAll sameLineBrace) scripts) in
  let newLine := length (flat_map (JS.matchAll newLineBrace) scripts) in
  let bracePatterns :=
    if (newLine <? sameLine)%nat
    then [mkPattern Formatting "Same-line braces" sameLine
            (ratio sameLine (sameLine + newLine))
            ["method() {"; "if (condition) {"]]
    else if (sameLine <? newLine)%nat
    then [mkPattern Formatting "New-line braces" newLine
            (ratio newLine (sameLine + newLine))
            ["method()\n{"; "if (condition)\n{"]]
    else [] in
  let indentationSizes :=
    flat_map (fun script =>
                omap (fun line => String.length <$> leadingSpaces line)
                  (JS.splitChar "010" script))
      scripts in
  let indentationPatterns :=
    if (0 <? length indentationSizes)%nat then
      let mostCommon := findMostCommon indentationSizes in
      [mkPattern Formatting (JS.ofNat mostCommon +:+ "-space indentation")
         (count (Nat.eqb mostCommon) indentationSizes)
         0.9
         [JS.repeat " " mostCommon +:+ "code"]]
    else [] in
  bracePatterns ++ indentationPatterns.

(** [/private\s+(\w+)\s+([a-z]\w+)/] and its replacement
    [private ${type} _${name}]. *)
Definition privateField (s : string) : option (string * nat) :=
  r ← JS.lit "private" s;
  '(_, r) ← JS.many1 JS.isSpace r;
  '(type, r) ← JS.many1 JS.isWord r;
  '(_, r) ← JS.many1 JS.isSpace r;
  match r with
  | String c r =>
      if JS.isLower c then
        '(name, r) ← JS.many1 JS.isWord r;
        Some ("private " +:+ type +:+ " _" +:+ String c name, JS.consumed s r)
      else None
  | EmptyString => None
  end.

(** [/\)\s*{/g] replaced by a parenthesis, a line feed and a brace. *)
Definition toNewLine (s : string) : option (string * nat) :=
  '(_, len) ← sameLineBrace s;
  Some (String ")" (String "010" "{"), len).

(** [/\)\s*\n\s*{/g] replaced by [") {"]. *)
Definition toSameLine (s : string) : option (string * nat) :=
  '(_, len) ← newLineBrace s;
  Some (") {", len).

(** [/\d+/] *)
Definition digits (s : string) : option (string * nat) :=
  '(d, r) ← JS.many1 JS.isDigit s;
  Some (d, JS.consumed s r).

(** [parseInt] on a text of decimal digits. *)
Definition parseInt (d : string) : Z :=
  foldl (fun n c => (10 * n + Z.of_N (JS.code c - 48))%Z) 0%Z
    (String.list_ascii_of_string d).

(** The loop of [reindent] over the lines, with [indentLevel]. A negative
    count makes [repeat] throw. *)
Fixpoint reindentLines (spaces indentLevel : Z) (lines : list string)
  : Result (list string) :=
  match lines with
  | [] => Ok []
  | line :: rest =>
      let trimmed := JS.trim line in
      let indentLevel :=
        if JS.endsWith trimmed "}" then Z.max 0 (indentLevel - 1) else indentLevel in
      if (indentLevel * spaces <? 0)%Z then Err RangeError
      else
        let indent := JS.repeat " " (Z.to_nat (indentLevel * spaces)) in
        let indentLevel' :=
          if JS.endsWith trimmed "{" then (indentLevel + 1)%Z else indentLevel in
        match reindentLines spaces indentLevel' rest with
        | Ok indentedLines => Ok ((indent +:+ trimmed) :: indentedLines)
        | Err e => Err e
        end
  end.

Definition newline : string := String "010" "".

Definition reindent (code : string) (spaces : Z) : Result string :=
  match reindentLines spaces 0 (JS.splitChar "010" code) with
  | Ok indentedLines => Ok (JS.join newline indentedLines)
  | Err e => Err e
  end.

(** The first loop of [applyStyle], over the naming patterns. *)
Definition applyNaming (styledCode : string) (namingPatterns : list CodePattern)
  : string :=
  foldl (fun styledCode p =>
           if JS.includes (pattern p) "underscore prefix"
           then JS.replaceAll privateField styledCode
           else styledCode)
    styledCode namingPatterns.

(** The second loop of [applyStyle], over the formatting patterns. *)
Fixpoint applyFormatting (styledCode : string) (formattingPatterns : list CodePattern)
  : Result string :=
  match formattingPatterns with
  | [] => Ok styledCode
  | p :: rest =>
      let styledCode :=
        if JS.includes (pattern p) "new-line braces"
        then JS.replaceAll toNewLine styledCode
        else if JS.includes (pattern p) "same-line braces"
        then JS.replaceAll toSameLine styledCode
        else styledCode in
      if JS.includes (pattern p) "indentation" then
        let spaces := parseInt (default "4" (head (JS.matchAll digits (pattern p)))) in
        match reindent styledCode spaces with
        | Ok styledCode => applyFormatting styledCode rest
        | Err e => Err e
        end
      else applyFormatting styledCode rest
  end.

Definition applyStyle (code : string) (styleProfile : CodeStyleProfile)
  : Result string :=
  let styledCode := applyNaming code (List.filter isNaming (patterns styleProfile)) in
  applyFormatting styledCode (List.filter isFormatting (patterns styleProfile)).

(** [Math.min] *)
Definition minQ (a b : Q) : Q := if Qle_bool a b then a else b.

Definition calculateConfidence (patterns : list CodePattern) (fileCount : nat) : Q :=
  if (length patterns =? 0)%nat then 0%Q
  else
    let totalConfidence :=
      fold_left (fun sum p => (sum + confidence p)%Q) patterns 0%Q in
    let avgConfidence := (totalConfidence / inject_Z (Z.of_nat (length patterns)))%Q in
    let fileCountFactor := minQ (ratio fileCount 10) 1 in
    (avgConfidence * fileCountFactor)%Q.

End CodeStyleAnalyzer.

(** ** The indexing route

    [POST] of [api/unity/index]. The body is the parsed one, and its
    fields, where present, are texts. A response built by [handleError] is
    given by the message it is built from, the message of an error that
    was thrown by the error. *)

Module Route.

Record Body : Type := mkBody {
  projectPath : option string;
  action : option string;
  watcherId : option string
}.

Inductive Message : Type :=
| ProjectPathRequired
| WatchIdRequired
| UnknownAction (action : string)
| Thrown (error : Error).

Inductive Response : Type :=
| Indexed (totalFiles indexed errors : nat) (projectPath : string)
| Watching (watcherId projectPath : string)
| Stopped
| Failed (message : Message).

(** A text in a condition: absent or empty counts as false. *)
Definition given (x : option string) : option string :=
  match x with
  | Some s => if String.eqb s "" then None else Some s
  | None => None
  end.

Definition POST (body : Body) : M Response :=
  catch
    (let action := default "index" (action body) in
     match given (projectPath body) with
     | None => ret (Failed ProjectPathRequired)
     | Some projectPath =>
         if String.eqb action "index" then
           result <- UnityProjectIndexer.indexProject projectPath ;;
           ret (Indexed (UnityProjectIndexer.totalFiles result)
                  (UnityProjectIndexer.indexedFiles result)
                  (UnityProjectIndexer.errorCount result) projectPath)
         else if String.eqb action "watch" then
           watcherId <- UnityProjectIndexer.watchProject projectPath ;;
           ret (Watching watcherId projectPath)
         else if String.eqb action "stop-watch" then
           match given (watcherId body) with
           | None => ret (Failed WatchIdRequired)
           | Some watcherId =>
               UnityProjectIndexer.stopWatching watcherId ;;;
               ret Stopped
           end
         else ret (Failed (UnknownAction action))
     end)
    (fun error => ret (Failed (Thrown error))).

End Route.

(** * The vocabulary of the statements *)

Local Open Scope js_scope.

(** The text does not start with white space. *)
Definition headSolid (s : string) : Prop :=
  match s with
  | EmptyString => True
  | String c _ => JS.isSpace c = false
  end.

(** The character [sep] does not occur in the text. *)
Fixpoint freeOf (sep : ascii) (s : string) : bool :=
  match s with
  | EmptyString => true
  | String c t => negb (Ascii.eqb c sep) && freeOf sep t
  end.

(** All characters of the text satisfy [P]. *)
Fixpoint every (P : ascii -> bool) (s : string) : bool :=
  match s with
  | EmptyString => true
  | String c t => P c && every P t
  end.

(** None of the first [k] characters of the text is a closing parenthesis. *)
Fixpoint parenFree (k : nat) (s : string) : Prop :=
  match k, s with
  | S k', String c t => Ascii.eqb ")" c = false /\ parenFree k' t
  | _, _ => True
  end.

(** How a line of the result relates to the line it comes from. *)
Definition reindented (spaces : Z) (line outLine : string) : Prop :=
  exists depth : Z,
    (0 <= depth)%Z
    /\ outLine = JS.repeat " " (Z.to_nat (depth * spaces)) +:+ JS.trim line
    /\ JS.trim outLine = JS.trim line.

(** A piece the chunker does not cut further: a method section of a class
    section of the text; a class section without a method boundary is its
    own and only method section. *)
Definition structuralPiece (content piece : string) : Prop :=
  exists section,
    In section (JS.splitAhead UnityProjectIndexer.classStart content)
    /\ In piece (JS.splitAhead UnityProjectIndexer.methodStart section).

(** What the chunker may emit for the bound [maxChunkSize]: the trimmed
    form of a buffer that is within the bound, or of a buffer that is one
    structural piece above it. *)
Definition chunkWithin (content : string) (maxChunkSize : Z) (chunk : string) : Prop :=
  exists buffer,
    chunk = JS.trim buffer
    /\ (((UnityProjectIndexer.textLength buffer <= maxChunkSize)%Z
         /\ (UnityProjectIndexer.textLength chunk <= maxChunkSize)%Z)
        \/ (structuralPiece content buffer
            /\ (maxChunkSize < UnityProjectIndexer.textLength buffer)%Z)).

(** What the buffer of the accumulation loop holds: nothing, a text within
    the bound, or a single structural piece. *)
Definition bufferOk (content : string) (maxChunkSize : Z) (currentChunk : string)
  : Prop :=
  currentChunk = ""
  \/ (UnityProjectIndexer.textLength currentChunk <= maxChunkSize)%Z
  \/ structuralPiece content currentChunk.

(** Two worlds that differ at most in the tokens handed out, the index and
    the record of the calls to the store. *)
Definition sameEnv (w1 w2 : World) : Prop :=
  cwd w1 = cwd w2 /\ disk w1 = disk w2 /\ clock w1 = clock w2
  /\ nanoid w1 = nanoid w2 /\ embedContent w1 = embedContent w2
  /\ storeUp w1 = storeUp w2 /\ neighbours w1 = neighbours w2
  /\ allowedPaths w1 = allowedPaths w2 /\ watchers w1 = watchers w2.

(** A computation that changes nothing, and whose outcome is the same in
    worlds of the same environment. *)
Definition reader {A} (m : M A) : Prop :=
  forall w, snd (m w) = w /\ forall w', sameEnv w w' -> fst (m w') = fst (m w).

(** The ids of the records the calls to the store upserted, in order. *)
Definition storedIds (ops : list StoreOp) : list string :=
  flat_map (fun op => match op with
                      | Upsert batch => map vecId batch
                      | Query _ _ _ => []
                      end) ops.

(** The index after upserting the records [vs] one after the other. *)
Definition insertAll (i : gmap string VectorRecord) (vs : list VectorRecord)
  : gmap string VectorRecord :=
  foldl (fun i v => <[vecId v := v]> i) i vs.

(** The ids start with the tokens number [d], [d + 1], ... in this order. *)
Definition tokened (tok : nat -> string) (d : nat) (ids : list string) : Prop :=
  forall k id, ids !! k = Some id -> exists suffix, id = tok (d + k) +:+ suffix.

(** Between [w] and [w'] tokens were drawn for the ids [ids], one each, and
    records were upserted under exactly these ids. *)
Definition stored (w w' : World) (ids : list string) : Prop :=
  sameEnv w w'
  /\ drawn w' = drawn w + length ids
  /\ tokened (nanoid w) (drawn w) ids
  /\ storedIds (storeLog w') = storedIds (storeLog w) ++ ids
  /\ dom (index w') = dom (index w) ∪ (list_to_set ids : gset string)
  /\ (forall id, id ∉ ids -> index w' !! id = index w !! id).

(** Between [w] and [w'] the next [n] tokens were drawn and nothing else
    happened. *)
Definition drew (w w' : World) (n : nat) : Prop :=
  sameEnv w w' /\ drawn w' = drawn w + n
  /\ index w' = index w /\ storeLog w' = storeLog w.

(** The number of chunks of the scripts. *)
Definition chunkTotal (scripts : list FilesystemMCPClient.ScriptFile) : nat :=
  length (flat_map (fun script =>
                      UnityProjectIndexer.chunkScript
                        (FilesystemMCPClient.content script)
                        UnityProjectIndexer.defaultChunkSize)
            scripts).

(** The world in which [indexProject] works: the one it is called in, with
    the project path allowed. *)
Definition allowing (projectPath : string) (w : World) : World :=
  snd (FilesystemMCPClient.addAllowedPath projectPath w).

(** The scripts, scenes and prefabs a run finds. *)
Definition found (projectPath : string) (w : World)
    (scripts : list FilesystemMCPClient.ScriptFile) (scenes prefabs : list string)
  : Prop :=
  fst (FilesystemMCPClient.getUnityScripts
         (NodePath.join [projectPath; "Assets"; "Scripts"]) w) = Ok scripts
  /\ fst (FilesystemMCPClient.getUnityScenes projectPath w) = Ok scenes
  /\ fst (FilesystemMCPClient.getUnityPrefabs projectPath w) = Ok prefabs.

(** The resolved path [filePath] lies in the directory [root] or below it:
    its segments continue those of [root]. *)
Definition underRoot (w : World) (root filePath : string) : Prop :=
  NodePath.resolveSegs (cwd w) root `prefix_of` NodePath.resolveSegs (cwd w) filePath.

Definition outsideEveryRoot (w : World) (filePath : string) : Prop :=
  Forall (fun root => ~ underRoot w root filePath) (allowedPaths w).

(** ** Sample worlds and texts *)

Module Scenario.

Definition nl : string := String "010" "".

(** Tokens of 21 characters; the first ten differ in the last one. *)
Definition token (i : nat) : string :=
  "V1StGXR8_Z5jdHi6B-my" +:+ String (ascii_of_nat (48 + i)) "".

Definition script (className : string) : string :=
  "using UnityEngine;" +:+ nl
  +:+ "public class " +:+ className +:+ " : MonoBehaviour" +:+ nl
  +:+ "{" +:+ nl
  +:+ "    private int health;" +:+ nl
  +:+ "    public void Tick()" +:+ nl
  +:+ "    {" +:+ nl
  +:+ "    }" +:+ nl
  +:+ "}" +:+ nl.

Definition readable (className : string) : Entry :=
  File (className +:+ ".cs") (Some (script className))
    (Z.of_nat (String.length (script className))) 1700000000000.

Definition unreadable (name : string) : Entry := File name None 120 1700000000000.

Definition tenScripts : list Entry :=
  map readable
    ["Enemy"; "Player"; "Door"; "Coin"; "Hud"; "Menu"; "Boss"; "Pet"; "Shop"; "Save"].

(** The disk with the project [/home/dev/game] and, next to it, the
    directory [/home/dev/game-keys]. *)
Definition disk (scripts : list Entry) : list Entry :=
  [Dir "home"
     [Dir "dev"
        [Dir "game"
           [Dir "Assets" [Dir "Scripts" scripts];
            Dir "ProjectSettings"
              [File "ProjectVersion.txt"
                 (Some ("m_EditorVersion: 6000.0.23f1" +:+ nl)) 30 1700000000000]];
         Dir "game-keys"
           [File "secret.txt" (Some "api-key") 7 1700000000000]]]].

Definition matchOf (id : string) (score : option Q) : Match :=
  mkMatch id score None (Some "void Tick() { }")
    (mkMetadata "/home/dev/game" "game" Script "/home/dev/game/Assets/Scripts/Enemy.cs"
       "csharp" "6000.0.23f1" (Some "Enemy") None ["Tick"] [] 0 0).

Definition matches : list Match :=
  [matchOf "a" (Some 0.9%Q); matchOf "b" (Some 0.8%Q); matchOf "c" (Some 0.72%Q);
   matchOf "d" (Some 0.5%Q); matchOf "e" None].

Definition world (scripts : list Entry) (allowed : list string) : World :=
  mkWorld "/home/dev" (disk scripts) 1700000000000 token 0
    (fun text => Some [inject_Z (Z.of_nat (String.length text))]) true
    (fun _ _ _ => matches) ∅ [] allowed [].

(** Scenario B: ten readable scripts and one that cannot be read. *)
Definition scenarioB : World := world (tenScripts ++ [unreadable "Broken.cs"]) [].

(** The same tree with the eleventh script readable. *)
Definition elevenReadable : World := world (tenScripts ++ [readable "Broken"]) [].

Definition twoScripts : World := world [readable "Enemy"; readable "Player"] [].

Definition afterFirstRun : World :=
  snd (UnityProjectIndexer.indexProject "/home/dev/game" twoScripts).

Definition afterSecondRun : World :=
  snd (UnityProjectIndexer.indexProject "/home/dev/game" afterFirstRun).

(** A client whose only allowed root is the project. *)
Definition sandbox : World := world tenScripts ["/home/dev/game"].

(** Two methods, both with the brace on the line after the parenthesis. *)
Definition newLineCorpus : list string :=
  ["void Start()" +:+ nl +:+ "{" +:+ nl +:+ "}";
   "void Update()" +:+ nl +:+ "{" +:+ nl +:+ "}"].

(** The same with a third method that has its brace on the same line. *)
Definition mixedCorpus : list string :=
  newLineCorpus ++ ["void Stop() {" +:+ nl +:+ "}"].

(** What [analyzeProject] returns for the one script [private int _hp;]. *)
Definition underscoreProfile : CodeStyleAnalyzer.CodeStyleProfile :=
  CodeStyleAnalyzer.mkProfile
    (CodeStyleAnalyzer.analyzeNaming ["private int _hp;"]
     ++ CodeStyleAnalyzer.analyzeFormatting ["private int _hp;"])
    1700000000000%Z 1%nat 0.1%Q.

End Scenario.

(** ** More vocabulary *)

(** The text without its white space. *)
Fixpoint squeeze (s : string) : string :=
  match s with
  | EmptyString => EmptyString
  | String c t => if JS.isSpace c then squeeze t else String c (squeeze t)
  end.

(** The texts of a list one after the other. *)
Definition glue (l : list string) : string := foldr String.append "" l.

(** The nesting depth of a line, as the specification words it: the depth
    is 0 at the start; a line whose trimmed text ends with a closing
    brace lowers the depth by one, for itself and the lines after it, but
    never below zero; a line whose trimmed text ends with an opening brace
    raises the depth of the lines after it by one. [depthAfter before] is
    the depth behind the lines [before], [nestingDepth before line] the
    depth of [line] when it follows the lines [before]. *)
Definition closes (line : string) : bool := JS.endsWith (JS.trim line) "}".

Definition opens (line : string) : bool := JS.endsWith (JS.trim line) "{".

Definition depthAfter (before : list string) : Z :=
  fold_left (fun depth line =>
               let depth := if closes line then Z.max 0 (depth - 1) else depth in
               if opens line then (depth + 1)%Z else depth)
    before 0%Z.

Definition nestingDepth (before : list string) (line : string) : Z :=
  if closes line then Z.max 0 (depthAfter before - 1) else depthAfter before.

(** The widths of the leading white space of the lines of the scripts that
    start with white space, as [analyzeFormatting] collects them. *)
Definition indentationSizes (scripts : list string) : list nat :=
  flat_map (fun script =>
              omap (fun line => String.length <$> CodeStyleAnalyzer.leadingSpaces line)
                (JS.splitChar "010" script))
    scripts.

(** What every pattern of an analysis should be: seen at least once, with a
    confidence between 0 and 1 and at most three examples. *)
Definition soundPattern (p : CodeStyleAnalyzer.CodePattern) : Prop :=
  0 < CodeStyleAnalyzer.frequency p
  /\ (0 <= CodeStyleAnalyzer.confidence p <= 1)%Q
  /\ length (CodeStyleAnalyzer.examples p) <= 3.

(** The records the calls to the store upserted, in order. *)
Definition storedRecords (ops : list StoreOp) : list VectorRecord :=
  flat_map (fun op => match op with
                      | Upsert batch => batch
                      | Query _ _ _ => []
                      end) ops.

(** The metadata names the project by the path and the name of
    [projectInfo]. *)
Definition taggedWith (projectInfo : UnityProjectIndexer.ProjectInfo)
    (m : VectorMetadata) : Prop :=
  projectId m = UnityProjectIndexer.infoPath projectInfo
  /\ projectName m = UnityProjectIndexer.infoName projectInfo
  /\ unityVersion m = UnityProjectIndexer.infoVersion projectInfo.

(** A call to the store that is a query. *)
Definition isQuery (op : StoreOp) : Prop :=
  match op with
  | Query _ _ _ => True
  | Upsert _ => False
  end.

(** A computation that reads the index at most once and changes nothing:
    what it adds to the record of the calls to the store is at most one
    query; the index, the tokens and the environment stay as they are. *)
Definition readsIndex {A} (m : M A) : Prop :=
  forall w,
    (exists queries,
        storeLog (snd (m w)) = storeLog w ++ queries
        /\ length queries <= 1
        /\ Forall isQuery queries)
    /\ index (snd (m w)) = index w
    /\ drawn (snd (m w)) = drawn w
    /\ sameEnv w (snd (m w)).

(** The record of a document is the document with an embedding of its
    content. *)
Definition recordOf (w : World) (doc : Document) (v : VectorRecord) : Prop :=
  vecId v = docId doc
  /\ vecContent v = docContent doc
  /\ vecMetadata v = docMetadata doc
  /\ embedContent w (docContent doc) = Some (values v).

(** ** More sample worlds and values *)

Module Samples.

(** The sandbox with an embedding provider that rejects the empty text. *)
Definition strict : World :=
  mkWorld "/home/dev" (Scenario.disk Scenario.tenScripts) 1700000000000
    Scenario.token 0
    (fun text => if String.eqb text "" then None
                 else Some [inject_Z (Z.of_nat (String.length text))])
    true (fun _ _ _ => Scenario.matches) ∅ [] ["/home/dev/game"] [].

Definition metadata : VectorMetadata :=
  mkMetadata "/home/dev/game" "game" Script "/home/dev/game/Assets/Scripts/Enemy.cs"
    "csharp" "6000.0.23f1" (Some "Enemy") None ["Tick"] [] 0 0.

Definition document (i : nat) : Document :=
  mkDocument ("doc-" +:+ JS.ofNat i) ("chunk " +:+ JS.ofNat i) metadata.

Definition documents (n : nat) : list Document := map document (seq 0 n).

Definition project : UnityProject.t :=
  UnityProject.mk "game-1" "game" "/home/dev/game" "singleplayer" "6000.0.23f1" "URP"
    [UnityProject.mkPackage "com.unity.netcode.gameobjects" "2.0.0" "registry"] [].

Definition history : list UserProfile.ErrorSolution :=
  [UserProfile.mkErrorSolution "NullReferenceException"
     "Assign the reference in Awake." 1690000000000 "Enemy.cs";
   UserProfile.mkErrorSolution "nullreference"
     "Check the inspector." 1695000000000 "Player.cs"].

Definition profile : UserProfile.t :=
  UserProfile.mk "dev" "intermediate" "6.0"
    (UserProfile.mkHardware "Windows 11" "13th Gen Intel Core" "32GB"
       (UserProfile.mkGpu "RTX 3060" 6))
    (UserProfile.mkCodeStyle (UserProfile.mkNamingConventions [] [] [] [])
       (UserProfile.mkFormatting 4 "new-line" true) [] [] history)
    [project]
    (UserProfile.mkStats 0 [] "gemini" [] 0 1700000000000).

(** The same user before any error was recorded. *)
Definition newcomer : UserProfile.t :=
  UserProfileStore.withCodeStyle
    (UserProfile.mkCodeStyle (UserProfile.mkNamingConventions [] [] [] [])
       (UserProfile.mkFormatting 4 "new-line" true) [] [] [])
    profile.

End Samples.

(** * Properties *)

(** ** The definitions at work *)

Section Examples.
Import Scenario.

Example resolve_relative :
  NodePath.resolve "/home/dev" "game/../game/./Assets/" = "/home/dev/game/Assets".
Proof. reflexivity. Qed.

Example join_scripts :
  NodePath.join ["/home/dev/game"; "Assets"; "Scripts"] = "/home/dev/game/Assets/Scripts".
Proof. reflexivity. Qed.

Example basename_script :
  NodePath.basename "/home/dev/game/Assets/Scripts/Enemy.cs" = "Enemy.cs".
Proof. reflexivity. Qed.

Example split_spaces : JS.splitSpaces " new  enemy " = [""; "new"; "enemy"; ""].
Proof. reflexivity. Qed.

Example intent_keywords :
  RAGEngine.keywords (RAGEngine.analyzeQueryIntent "Fix the bug in my Rigidbody code")
  = ["Fix"; "bug"; "Rigidbody"; "code"]
  /\ RAGEngine.type (RAGEngine.analyzeQueryIntent "Fix the bug in my Rigidbody code")
     = RAGEngine.Debugging
  /\ RAGEngine.unitySpecific
       (RAGEngine.analyzeQueryIntent "Fix the bug in my Rigidbody code") = true.
Proof. repeat split; reflexivity. Qed.

(** With a bound of 30 the method [Qux], 39 characters long, is a chunk of
    its own; the other chunks are within the bound. *)
Example chunk_oversized_method :
  UnityProjectIndexer.chunkScript
    ("using System;" +:+ nl
     +:+ "public class Foo { public void Bar() { } private int Qux (int a) { return 1; } }"
     +:+ nl +:+ "  class Baz { }") 30
  = ["using System;" +:+ nl +:+ "public"; "class Foo {"; "public void Bar() { }";
     "private int Qux (int a) { return 1; } }"; "class Baz { }"].
Proof. vm_compute. reflexivity. Qed.

Example metadata_of_script :
  UnityProjectIndexer.parseScript (script "Enemy") "Enemy.cs"
  = UnityProjectIndexer.mkScriptMetadata (Some "Enemy") None ["Tick"] ["UnityEngine"].
Proof. vm_compute. reflexivity. Qed.

Example reindent_block :
  CodeStyleAnalyzer.reindent ("if (x) {" +:+ nl +:+ "y();" +:+ nl +:+ "  }") 4
  = Ok ("if (x) {" +:+ nl +:+ "    y();" +:+ nl +:+ "}").
Proof. vm_compute. reflexivity. Qed.

Example rewrite_private_fields :
  JS.replaceAll CodeStyleAnalyzer.privateField "private int health; private  float x;"
  = "private int _health; private  float x;".
Proof. vm_compute. reflexivity. Qed.

End Examples.

(** ** Query intent *)

Section Intent.
Import RAGEngine.

Lemma firstBucket_intentBuckets (lowerQuery : string) :
  (if JS.includes lowerQuery "create"
      || JS.includes lowerQuery "implement"
      || JS.includes lowerQuery "generate"
      || JS.includes lowerQuery "write"
   then CodeGeneration
   else if JS.includes lowerQuery "explain"
           || JS.includes lowerQuery "what is"
           || JS.includes lowerQuery "how does"
           || JS.includes lowerQuery "why"
   then Explanation
   else if JS.includes lowerQuery "error"
           || JS.includes lowerQuery "bug"
           || JS.includes lowerQuery "fix"
           || JS.includes lowerQuery "debug"
           || JS.includes lowerQuery "not working"
   then Debugging
   else if JS.includes lowerQuery "optimize"
           || JS.includes lowerQuery "performance"
           || JS.includes lowerQuery "faster"
           || JS.includes lowerQuery "improve"
   then Optimization
   else General)
  = firstBucket intentBuckets lowerQuery.
Proof.
  unfold intentBuckets, firstBucket, existsb.
  repeat match goal with
         | |- context [JS.includes lowerQuery ?k] =>
             destruct (JS.includes lowerQuery k); cbn [orb]; try reflexivity
         end.
Qed.

(** C5. Intent classification is defined on every query, answers one of
    the five intents, tries the keyword buckets in the order
    code-generation, explanation, debugging, optimization and takes the
    first that has a keyword in the lowered query, [General] otherwise;
    "Create a new enemy AI script" is a code-generation query. *)
Theorem analyzeQueryIntent_first_bucket_wins :
  (forall query : string,
      type (analyzeQueryIntent query)
      = firstBucket intentBuckets (JS.toLowerCase query)
      /\ In (type (analyzeQueryIntent query))
           [CodeGeneration; Explanation; Debugging; Optimization; General])
  /\ type (analyzeQueryIntent "Create a new enemy AI script") = CodeGeneration.
Proof.
  split; [| reflexivity].
  intros query. split.
  - unfold analyzeQueryIntent. cbn [type].
    apply firstBucket_intentBuckets.
  - destruct (type (analyzeQueryIntent query)); cbn; tauto.
Qed.
End Intent.

(** ** The watch callback *)

(** C6. An [unlink] event makes no call to the vector store: the callback
    returns normally and the world, in particular the index and the record
    of the calls to the store, is the one before the event. *)
Theorem onFileEvent_unlink_no_store_call
    (projectPath : string) (onChange : option (string -> M unit))
    (filePath : string) (w : World) :
  UnityProjectIndexer.onFileEvent projectPath onChange filePath
    FilesystemMCPClient.Unlink w = (Ok tt, w)
  /\ storeLog (snd (UnityProjectIndexer.onFileEvent projectPath onChange filePath
                     FilesystemMCPClient.Unlink w)) = storeLog w
  /\ index (snd (UnityProjectIndexer.onFileEvent projectPath onChange filePath
                   FilesystemMCPClient.Unlink w)) = index w.
Proof.
  assert (E : UnityProjectIndexer.onFileEvent projectPath onChange filePath
                FilesystemMCPClient.Unlink w = (Ok tt, w)).
  { unfold UnityProjectIndexer.onFileEvent. cbn [FilesystemMCPClient.isUnlink negb].
    rewrite andb_false_r. reflexivity. }
  rewrite E. auto.
Qed.

(** ** Search: threshold and relevance bands *)

Section Search.
Import PineconeVectorDB.

Lemma Qltb_true (a b : Q) : Qltb a b = true <-> (a < b)%Q.
Proof.
  unfold Qltb. rewrite negb_true_iff. split.
  - intros H. apply Qnot_le_lt. intros L.
    apply Qle_bool_iff in L. congruence.
  - intros H. destruct (Qle_bool b a) eqn:E; [| reflexivity].
    apply Qle_bool_iff in E. exfalso. exact (Qlt_not_le _ _ H E).
Qed.

Lemma Qltb_false (a b : Q) : Qltb a b = false <-> (b <= a)%Q.
Proof.
  unfold Qltb. rewrite negb_false_iff. apply Qle_bool_iff.
Qed.

Lemma band_high (s : Q) : (0.85 < s)%Q -> band s = High.
Proof.
  intros H. unfold band. apply Qltb_true in H. rewrite H. reflexivity.
Qed.

Lemma band_medium (s : Q) : (0.75 < s)%Q -> (s <= 0.85)%Q -> band s = Medium.
Proof.
  intros H1 H2. unfold band.
  apply Qltb_true in H1. apply Qltb_false in H2. rewrite H2, H1. reflexivity.
Qed.

Lemma band_low (s : Q) : (s <= 0.75)%Q -> band s = Low.
Proof.
  intros H. unfold band.
  assert (H' : (s <= 0.85)%Q) by (eapply Qle_trans; [exact H | discriminate]).
  apply Qltb_false in H, H'. rewrite H', H. reflexivity.
Qed.

(** A match that passes the filter has a score, and it is the score of its
    result. *)
Lemma keeps_score (minScore : Q) (m : Match) :
  keeps minScore m = true ->
  matchScore m = Some (score (toResult m))
  /\ Qeq_bool (score (toResult m)) 0 = false
  /\ (minScore <= score (toResult m))%Q.
Proof.
  unfold keeps, toResult. cbn [score].
  destruct (matchScore m) as [s |]; [| discriminate].
  intros H. apply andb_true_iff in H as [H1 H2].
  apply negb_true_iff in H1. unfold orElse. rewrite H1.
  apply Qle_bool_iff in H2. auto.
Qed.

Lemma search_runs (w : World) (queryText : string)
    (options : option SearchOptions) (vector : list Q) :
  embedContent w queryText = Some vector ->
  storeUp w = true ->
  let topK := orElseNat (options ≫= topK) 5 in
  search queryText options w
  = (Ok (map toResult
           (List.filter (keeps (orElse (options ≫= minScore) 0.7))
              (neighbours w vector topK (options ≫= filter)))),
     withStore (index w)
       (storeLog w ++ [Query vector topK (options ≫= filter)]) w).
Proof.
  intros He Hs. unfold search, catch, bind, generateEmbedding, query, ret.
  rewrite He. cbn. rewrite Hs. reflexivity.
Qed.

(** C3. With the default threshold, a search that the embedding provider
    and the store answer drops every match scored below 0.7, and every
    result it keeps is scored at least 0.7 and banded high above 0.85,
    medium above 0.75 and up to 0.85, and low up to 0.75. *)
Theorem search_default_threshold_and_bands
    (w : World) (queryText : string) (options : option SearchOptions)
    (vector : list Q) :
  options ≫= minScore = None ->
  embedContent w queryText = Some vector ->
  storeUp w = true ->
  exists results w',
    search queryText options w = (Ok results, w')
    /\ (forall m s,
           In m (neighbours w vector (orElseNat (options ≫= topK) 5)
                   (options ≫= filter)) ->
           matchScore m = Some s -> (s < 0.7)%Q ->
           ~ In (toResult m) results)
    /\ (forall r, In r results ->
          (0.7 <= score r)%Q
          /\ ((0.85 < score r)%Q -> relevance r = High)
          /\ ((0.75 < score r)%Q -> (score r <= 0.85)%Q -> relevance r = Medium)
          /\ ((score r <= 0.75)%Q -> relevance r = Low)).
Proof.
  intros Hdef He Hs.
  eexists _, _. split; [apply (search_runs w queryText options vector He Hs) |].
  rewrite Hdef. cbn [orElse].
  split.
  - intros m s _ Hm Hlt Hin.
    apply in_map_iff in Hin as (m' & Heq & Hin').
    apply filter_In in Hin' as [_ Hk].
    apply keeps_score in Hk as (_ & Hnz & Hle).
    rewrite Heq in Hnz, Hle.
    unfold toResult in Hnz, Hle. cbn [score] in Hnz, Hle.
    rewrite Hm in Hnz, Hle. unfold orElse in Hnz, Hle.
    destruct (Qeq_bool s 0); [discriminate |].
    exact (Qlt_not_le _ _ Hlt Hle).
  - intros r Hin.
    apply in_map_iff in Hin as (m & <- & Hin).
    apply filter_In in Hin as [_ Hk].
    apply keeps_score in Hk as (_ & _ & Hle).
    split; [exact Hle |].
    unfold toResult. cbn [score relevance].
    split; [apply band_high |]. split; [apply band_medium | apply band_low].
Qed.
End Search.

(** ** Facts on texts *)

Section TextFacts.

Lemma app_cons (c : ascii) (a b : string) : String c a +:+ b = String c (a +:+ b).
Proof. reflexivity. Qed.

Lemma app_empty_l (b : string) : "" +:+ b = b.
Proof. reflexivity. Qed.

Lemma length_append (a b : string) :
  String.length (a +:+ b) = String.length a + String.length b.
Proof.
  induction a as [| c a IH]; [reflexivity |].
  rewrite app_cons. cbn [String.length]. rewrite IH. reflexivity.
Qed.

Lemma trimStart_length (s : string) :
  String.length (JS.trimStart s) <= String.length s.
Proof.
  induction s as [| c s IH]; cbn; [lia |].
  destruct (JS.isSpace c); cbn; lia.
Qed.

Lemma trimEnd_length (s : string) :
  String.length (JS.trimEnd s) <= String.length s.
Proof.
  induction s as [| c s IH]; cbn [JS.trimEnd String.length]; [lia |].
  destruct (JS.trimEnd s) as [| d t'].
  - destruct (JS.isSpace c); cbn; lia.
  - cbn [String.length] in *. lia.
Qed.

Lemma trim_length (s : string) : String.length (JS.trim s) <= String.length s.
Proof.
  unfold JS.trim.
  pose proof (trimEnd_length (JS.trimStart s)). pose proof (trimStart_length s). lia.
Qed.

Lemma trimStart_headSolid (s : string) : headSolid (JS.trimStart s).
Proof.
  induction s as [| c s IH]; cbn; [exact I |].
  destruct (JS.isSpace c) eqn:E; [exact IH | exact E].
Qed.

Lemma trimStart_solid (s : string) : headSolid s -> JS.trimStart s = s.
Proof.
  destruct s as [| c s]; cbn; [reflexivity |]. intros ->. reflexivity.
Qed.

Lemma trimEnd_headSolid (s : string) : headSolid s -> headSolid (JS.trimEnd s).
Proof.
  destruct s as [| c s]; cbn [JS.trimEnd headSolid]; [auto |].
  intros E. destruct (JS.trimEnd s); [rewrite E |]; exact E.
Qed.

Lemma trimEnd_idem (s : string) : JS.trimEnd (JS.trimEnd s) = JS.trimEnd s.
Proof.
  induction s as [| c s IH]; [reflexivity |].
  cbn [JS.trimEnd].
  destruct (JS.trimEnd s) as [| d t'] eqn:E.
  - destruct (JS.isSpace c) eqn:Ec; cbn; [reflexivity |]. rewrite Ec. reflexivity.
  - cbn [JS.trimEnd]. cbn [JS.trimEnd] in IH. rewrite IH. reflexivity.
Qed.

Lemma trim_idem (s : string) : JS.trim (JS.trim s) = JS.trim s.
Proof.
  unfold JS.trim at 1.
  rewrite (trimStart_solid (JS.trim s)).
  - unfold JS.trim. apply trimEnd_idem.
  - unfold JS.trim. apply trimEnd_headSolid, trimStart_headSolid.
Qed.

Lemma trimStart_indent (n : nat) (s : string) :
  JS.trimStart (JS.repeat " " n +:+ s) = JS.trimStart s.
Proof.
  induction n as [| n IH]; [reflexivity |].
  cbn [JS.repeat]. rewrite app_cons, app_empty_l, app_cons. cbn [JS.trimStart].
  exact IH.
Qed.

Lemma trim_indent (n : nat) (s : string) :
  JS.trim (JS.repeat " " n +:+ JS.trim s) = JS.trim s.
Proof.
  unfold JS.trim at 1. rewrite trimStart_indent. apply trim_idem.
Qed.

Lemma freeOf_app (sep : ascii) (a b : string) :
  freeOf sep (a +:+ b) = freeOf sep a && freeOf sep b.
Proof.
  induction a as [| c a IH]; [reflexivity |].
  rewrite app_cons. cbn [freeOf]. rewrite IH. apply andb_assoc.
Qed.

Lemma freeOf_trimStart (sep : ascii) (s : string) :
  freeOf sep s = true -> freeOf sep (JS.trimStart s) = true.
Proof.
  induction s as [| c s IH]; cbn [JS.trimStart]; [auto |].
  intros H. destruct (JS.isSpace c); [| exact H].
  cbn [freeOf] in H. apply andb_true_iff in H as [_ H]. auto.
Qed.

Lemma freeOf_trimEnd (sep : ascii) (s : string) :
  freeOf sep s = true -> freeOf sep (JS.trimEnd s) = true.
Proof.
  induction s as [| c s IH]; cbn [JS.trimEnd]; [auto |].
  cbn [freeOf]. intros H. apply andb_true_iff in H as [Hc H].
  specialize (IH H).
  destruct (JS.trimEnd s).
  - destruct (JS.isSpace c); cbn [freeOf]; [reflexivity |]. rewrite Hc. reflexivity.
  - cbn [freeOf] in *. rewrite Hc. exact IH.
Qed.

Lemma freeOf_trim (sep : ascii) (s : string) :
  freeOf sep s = true -> freeOf sep (JS.trim s) = true.
Proof. intros H. apply freeOf_trimEnd, freeOf_trimStart, H. Qed.

Lemma freeOf_repeat (sep c : ascii) (n : nat) :
  Ascii.eqb c sep = false -> freeOf sep (JS.repeat (String c "") n) = true.
Proof.
  intros H. induction n as [| n IH]; [reflexivity |].
  cbn [JS.repeat]. rewrite app_cons, app_empty_l. cbn [freeOf]. rewrite H. exact IH.
Qed.

Lemma splitChar_not_nil (sep : ascii) (s : string) : JS.splitChar sep s <> [].
Proof.
  induction s as [| c s IH]; cbn [JS.splitChar]; [discriminate |].
  destruct (Ascii.eqb c sep); [discriminate |].
  destruct (JS.splitChar sep s); [contradiction | discriminate].
Qed.

Lemma splitChar_pieces_free (sep : ascii) (s : string) :
  Forall (fun piece => freeOf sep piece = true) (JS.splitChar sep s).
Proof.
  induction s as [| c s IH]; cbn [JS.splitChar].
  - constructor; [reflexivity | constructor].
  - destruct (Ascii.eqb c sep) eqn:E.
    + constructor; [reflexivity | exact IH].
    + pose proof (splitChar_not_nil sep s) as Hn.
      destruct (JS.splitChar sep s) as [| h r]; [contradiction |].
      cbn [JS.consFirst]. inversion IH; subst.
      constructor; [| assumption]. cbn [freeOf]. rewrite E. assumption.
Qed.

Lemma splitChar_free (sep : ascii) (s : string) :
  freeOf sep s = true -> JS.splitChar sep s = [s].
Proof.
  induction s as [| c s IH]; [reflexivity |].
  cbn [freeOf JS.splitChar]. intros H. apply andb_true_iff in H as [Hc H].
  apply negb_true_iff in Hc. rewrite Hc, (IH H). reflexivity.
Qed.

Lemma splitChar_app_free (sep : ascii) (h rest : string) :
  freeOf sep h = true ->
  JS.splitChar sep (h +:+ String sep rest) = h :: JS.splitChar sep rest.
Proof.
  induction h as [| c h IH].
  - intros _. rewrite app_empty_l. cbn [JS.splitChar].
    rewrite Ascii.eqb_refl. reflexivity.
  - cbn [freeOf]. intros H. apply andb_true_iff in H as [Hc H].
    apply negb_true_iff in Hc.
    rewrite app_cons. cbn [JS.splitChar]. rewrite Hc, (IH H). reflexivity.
Qed.

(** Splitting at [sep] undoes joining with [sep] pieces that are free of it. *)
Lemma splitChar_join (sep : ascii) (h : string) (pieces : list string) :
  Forall (fun piece => freeOf sep piece = true) (h :: pieces) ->
  JS.splitChar sep (JS.join (String sep "") (h :: pieces)) = h :: pieces.
Proof.
  revert h. induction pieces as [| p pieces IH]; intros h H.
  - cbn. apply splitChar_free. inversion H; assumption.
  - inversion H as [| ? ? Hh Hrest]; subst.
    change (JS.join (String sep "") (h :: p :: pieces))
      with (h +:+ String sep "" +:+ JS.join (String sep "") (p :: pieces)).
    rewrite app_cons, app_empty_l.
    rewrite (splitChar_app_free sep h _ Hh). f_equal. apply IH, Hrest.
Qed.

End TextFacts.

(** ** Re-indentation *)

Section Reindent.
Import CodeStyleAnalyzer.

Variable spaces : Z.
Hypothesis spaces_positive : (0 < spaces)%Z.

Lemma reindentLines_lines (lines : list string) (indentLevel : Z) :
  (0 <= indentLevel)%Z ->
  exists indentedLines,
    reindentLines spaces indentLevel lines = Ok indentedLines
    /\ Forall2 (reindented spaces) lines indentedLines.
Proof.
  revert indentLevel.
  induction lines as [| line rest IH]; intros indentLevel Hlevel.
  - exists []. split; [reflexivity | constructor].
  - cbn [reindentLines].
    set (level := if JS.endsWith (JS.trim line) "}"
                  then Z.max 0 (indentLevel - 1) else indentLevel).
    assert (Hl : (0 <= level)%Z) by (subst level; destruct (JS.endsWith _ _); lia).
    assert (Hn : (level * spaces <? 0)%Z = false) by (apply Z.ltb_ge; nia).
    rewrite Hn. clearbody level.
    destruct (IH (if JS.endsWith (JS.trim line) "{" then (level + 1)%Z else level))
      as (outs & -> & Hall).
    { destruct (JS.endsWith _ _); lia. }
    eexists. split; [reflexivity |].
    constructor; [| exact Hall].
    exists level. split; [exact Hl |]. split; [reflexivity |]. apply trim_indent.
Qed.

Lemma reindented_free (line outLine : string) :
  reindented spaces line outLine ->
  freeOf "010" line = true -> freeOf "010" outLine = true.
Proof.
  intros (depth & _ & -> & _) H.
  rewrite freeOf_app, freeOf_repeat by reflexivity.
  apply freeOf_trim, H.
Qed.

End Reindent.

(** For a positive width, [reindent] returns a text with as many lines
    as the one it was given, and each of its lines is the trimmed line it
    comes from behind [depth * spaces] spaces, for some depth that is not
    negative. *)
Lemma reindent_lines_reindented (code : string) (spaces : Z) :
  (0 < spaces)%Z ->
  exists out,
    CodeStyleAnalyzer.reindent code spaces = Ok out
    /\ Forall2 (reindented spaces) (JS.splitChar "010" code) (JS.splitChar "010" out).
Proof.
  intros Hpos. unfold CodeStyleAnalyzer.reindent.
  destruct (reindentLines_lines spaces Hpos (JS.splitChar "010" code) 0 ltac:(lia))
    as (outs & -> & Hall).
  eexists. split; [reflexivity |].
  assert (Hfree : Forall (fun piece => freeOf "010" piece = true) outs).
  { pose proof (splitChar_pieces_free "010" code) as Hin.
    induction Hall as [| line outLine ? ? Hr _ IH]; [constructor |].
    inversion Hin; subst.
    constructor; [eapply reindented_free; eassumption | apply IH; assumption]. }
  destruct outs as [| h outs].
  - inversion Hall as [E |]. symmetry in E. apply splitChar_not_nil in E. contradiction.
  - unfold CodeStyleAnalyzer.newline. rewrite (splitChar_join "010" h outs Hfree).
    exact Hall.
Qed.

Section Depth.
Import CodeStyleAnalyzer.

Variable spaces : Z.
Hypothesis spaces_positive : (0 < spaces)%Z.

Lemma depthAfter_snoc (before : list string) (line : string) :
  depthAfter (before ++ [line])
  = if opens line then (nestingDepth before line + 1)%Z else nestingDepth before line.
Proof. unfold depthAfter, nestingDepth. rewrite fold_left_app. reflexivity. Qed.

Lemma depthAfter_nonneg (before : list string) : (0 <= depthAfter before)%Z.
Proof.
  induction before as [| line before IH] using rev_ind; [reflexivity |].
  rewrite depthAfter_snoc. unfold nestingDepth.
  destruct (opens line), (closes line); lia.
Qed.

Lemma nestingDepth_nonneg (before : list string) (line : string) :
  (0 <= nestingDepth before line)%Z.
Proof.
  unfold nestingDepth. pose proof (depthAfter_nonneg before).
  destruct (closes line); lia.
Qed.

(** The loop of [reindent], started behind the lines [before]. *)
Lemma reindentLines_depth (rest : list string) :
  forall before,
  exists indentedLines,
    reindentLines spaces (depthAfter before) rest = Ok indentedLines
    /\ length indentedLines = length rest
    /\ forall i line,
         rest !! i = Some line ->
         indentedLines !! i
         = Some (JS.repeat " "
                   (Z.to_nat (nestingDepth (before ++ take i rest) line * spaces))
                 +:+ JS.trim line).
Proof.
  induction rest as [| line rest IH]; intros before.
  - exists []. split; [reflexivity |]. split; [reflexivity |]. intros i l H.
    rewrite lookup_nil in H. discriminate H.
  - cbn [reindentLines].
    change (if JS.endsWith (JS.trim line) "}"
            then Z.max 0 (depthAfter before - 1) else depthAfter before)
      with (nestingDepth before line).
    pose proof (nestingDepth_nonneg before line) as Hd.
    assert (Hn : (nestingDepth before line * spaces <? 0)%Z = false)
      by (apply Z.ltb_ge; nia).
    rewrite Hn.
    change (if JS.endsWith (JS.trim line) "{"
            then (nestingDepth before line + 1)%Z else nestingDepth before line)
      with (if opens line
            then (nestingDepth before line + 1)%Z else nestingDepth before line).
    rewrite <- depthAfter_snoc.
    destruct (IH (before ++ [line])) as (outs & -> & Hlen & Hall).
    eexists. split; [reflexivity |]. split; [cbn [length]; rewrite Hlen; reflexivity |].
    intros [| i] l H; rewrite lookup_cons in H; rewrite lookup_cons; cbv iota in *.
    + injection H as <-. cbn [take]. rewrite app_nil_r. reflexivity.
    + cbn [take]. rewrite (Hall i l H), <- List.app_assoc. reflexivity.
Qed.

End Depth.

(** C10. For a positive width, [reindent] returns a text with as many
    lines as the one it was given, and line for line the result is the
    trimmed input line behind [depth * spaces] spaces, where [depth] is the
    nesting depth of the line among the lines before it and is never
    negative; the trimmed content of the line is the same. White space is
    removed at both ends of a line, not at its start only. *)
Theorem reindent_indents_by_nesting_depth (code : string) (spaces : Z) :
  (0 < spaces)%Z ->
  exists out,
    CodeStyleAnalyzer.reindent code spaces = Ok out
    /\ length (JS.splitChar "010" out) = length (JS.splitChar "010" code)
    /\ forall i line,
         JS.splitChar "010" code !! i = Some line ->
         exists outLine,
           JS.splitChar "010" out !! i = Some outLine
           /\ (0 <= nestingDepth (take i (JS.splitChar "010" code)) line)%Z
           /\ outLine
              = JS.repeat " "
                  (Z.to_nat (nestingDepth (take i (JS.splitChar "010" code)) line
                             * spaces))
                +:+ JS.trim line
           /\ JS.trim outLine = JS.trim line.
Proof.
  intros Hpos. unfold CodeStyleAnalyzer.reindent.
  destruct (reindentLines_depth spaces Hpos (JS.splitChar "010" code) [])
    as (outs & Hrun & Hlen & Hall).
  change (depthAfter []) with 0%Z in Hrun. rewrite Hrun.
  eexists. split; [reflexivity |].
  assert (Hfree : Forall (fun piece => freeOf "010" piece = true) outs).
  { apply List.Forall_forall. intros outLine Hin.
    apply list_elem_of_In, list_elem_of_lookup in Hin as (i & Hi).
    destruct (lookup_lt_is_Some_2 (JS.splitChar "010" code) i) as (line & Hline).
    { rewrite <- Hlen. eapply lookup_lt_Some, Hi. }
    rewrite (Hall i line Hline) in Hi. injection Hi as <-.
    rewrite freeOf_app, freeOf_repeat by reflexivity. apply freeOf_trim.
    pose proof (splitChar_pieces_free "010" code) as Hpieces.
    rewrite List.Forall_forall in Hpieces. apply Hpieces.
    apply list_elem_of_In. eapply list_elem_of_lookup_2, Hline. }
  assert (Hsplit : JS.splitChar "010" (JS.join CodeStyleAnalyzer.newline outs) = outs).
  { destruct outs as [| h outs].
    - pose proof (splitChar_not_nil "010" code) as Hne.
      destruct (JS.splitChar "010" code); [contradiction | discriminate Hlen].
    - unfold CodeStyleAnalyzer.newline. apply splitChar_join, Hfree. }
  rewrite Hsplit. split; [exact Hlen |].
  intros i line Hline. eexists. split; [exact (Hall i line Hline) |].
  split; [apply nestingDepth_nonneg |]. split; [reflexivity |]. apply trim_indent.
Qed.

(** ** The chunker *)

Section Chunker.
Import UnityProjectIndexer.

Variable content : string.
Variable maxChunkSize : Z.

Lemma textLength_trim (s : string) : (textLength (JS.trim s) <= textLength s)%Z.
Proof. unfold textLength. pose proof (trim_length s). lia. Qed.

Lemma chunkWithin_small (buffer : string) :
  (textLength buffer <= maxChunkSize)%Z ->
  chunkWithin content maxChunkSize (JS.trim buffer).
Proof.
  intros H. exists buffer. split; [reflexivity |]. left.
  pose proof (textLength_trim buffer). lia.
Qed.

Lemma chunkWithin_piece (buffer : string) :
  structuralPiece content buffer ->
  chunkWithin content maxChunkSize (JS.trim buffer).
Proof.
  intros H.
  destruct (Z_le_gt_dec (textLength buffer) maxChunkSize) as [Hle | Hgt].
  - apply chunkWithin_small, Hle.
  - exists buffer. split; [reflexivity |]. right. split; [exact H | lia].
Qed.

Lemma flush_ok (currentChunk : string) (chunks : list string) :
  bufferOk content maxChunkSize currentChunk ->
  Forall (chunkWithin content maxChunkSize) chunks ->
  Forall (chunkWithin content maxChunkSize)
    (if nonEmpty currentChunk then chunks ++ [JS.trim currentChunk] else chunks).
Proof.
  intros Hb Hc. destruct (nonEmpty currentChunk) eqn:E; [| exact Hc].
  apply Forall_app. split; [exact Hc |]. constructor; [| constructor].
  destruct Hb as [-> | [Hle | Hp]].
  - discriminate E.
  - apply chunkWithin_small, Hle.
  - apply chunkWithin_piece, Hp.
Qed.

Lemma accumulate_ok (section : string) (methodSections : list string) :
  In section (JS.splitAhead classStart content) ->
  forall currentChunk chunks,
    (forall piece, In piece methodSections ->
                   In piece (JS.splitAhead methodStart section)) ->
    bufferOk content maxChunkSize currentChunk ->
    Forall (chunkWithin content maxChunkSize) chunks ->
    bufferOk content maxChunkSize
      (fst (accumulate maxChunkSize methodSections currentChunk chunks))
    /\ Forall (chunkWithin content maxChunkSize)
         (snd (accumulate maxChunkSize methodSections currentChunk chunks)).
Proof.
  intros Hsec.
  induction methodSections as [| method rest IH]; intros currentChunk chunks Hin Hb Hc.
  - cbn. auto.
  - cbn [accumulate].
    assert (Hrest : forall piece, In piece rest ->
                                  In piece (JS.splitAhead methodStart section)).
    { intros piece Hp. apply Hin. right. exact Hp. }
    destruct (textLength (currentChunk +:+ method) <=? maxChunkSize)%Z eqn:E.
    + apply IH; [exact Hrest | | exact Hc].
      right. left. apply Z.leb_le, E.
    + apply IH; [exact Hrest | | apply flush_ok; assumption].
      right. right. exists section. split; [exact Hsec |]. apply Hin. left. reflexivity.
Qed.

Lemma chunkSection_ok (chunks : list string) (section : string) :
  In section (JS.splitAhead classStart content) ->
  Forall (chunkWithin content maxChunkSize) chunks ->
  Forall (chunkWithin content maxChunkSize) (chunkSection maxChunkSize chunks section).
Proof.
  intros Hsec Hc. unfold chunkSection.
  destruct (textLength section <=? maxChunkSize)%Z eqn:E.
  - apply Forall_app. split; [exact Hc |]. constructor; [| constructor].
    apply chunkWithin_small, Z.leb_le, E.
  - pose proof (accumulate_ok section (JS.splitAhead methodStart section) Hsec
                  "" chunks (fun _ H => H) (or_introl eq_refl) Hc) as [Hb Hc'].
    destruct (accumulate maxChunkSize (JS.splitAhead methodStart section) "" chunks)
      as [currentChunk chunks'].
    apply flush_ok; assumption.
Qed.

Lemma chunkSections_ok (sections : list string) :
  forall chunks,
    (forall section, In section sections ->
                     In section (JS.splitAhead classStart content)) ->
    Forall (chunkWithin content maxChunkSize) chunks ->
    Forall (chunkWithin content maxChunkSize)
      (foldl (chunkSection maxChunkSize) chunks sections).
Proof.
  induction sections as [| section rest IH]; intros chunks Hin Hc; [exact Hc |].
  cbn [foldl]. apply IH.
  - intros s Hs. apply Hin. right. exact Hs.
  - apply chunkSection_ok; [apply Hin; left; reflexivity | exact Hc].
Qed.

End Chunker.

(** C2. Every chunk the chunker emits is the trimmed form of a buffer that
    is no longer than [maxChunkSize], and then so is the chunk, or of a
    buffer that is a single structural piece longer than [maxChunkSize]:
    only a single piece is ever emitted above the bound. *)
Theorem chunkScript_within_bound (content : string) (maxChunkSize : Z) :
  Forall (chunkWithin content maxChunkSize)
    (UnityProjectIndexer.chunkScript content maxChunkSize).
Proof.
  unfold UnityProjectIndexer.chunkScript.
  apply List.Forall_forall. intros chunk Hin. apply filter_In in Hin as [Hin _].
  revert chunk Hin. apply List.Forall_forall.
  apply chunkSections_ok; [auto | constructor].
Qed.

(** ** The style analyser *)

Section Braces.
Import CodeStyleAnalyzer.

Lemma span_spec (P : ascii -> bool) (s a r : string) :
  JS.span P s = (a, r) -> s = a +:+ r /\ every P a = true.
Proof.
  revert a r. induction s as [| c s IH]; intros a r; cbn [JS.span].
  - intros [= <- <-]. auto.
  - destruct (P c) eqn:E.
    + destruct (JS.span P s) as [a' r'] eqn:Es. intros [= <- <-].
      destruct (IH a' r' eq_refl) as [-> H]. cbn [every]. rewrite E. auto.
    + intros [= <- <-]. auto.
Qed.

Lemma parenFree_gap (gap rest : string) :
  every JS.isSpace gap = true ->
  parenFree (String.length gap + 1) (gap +:+ String "{" rest).
Proof.
  induction gap as [| c gap IH]; cbn [every]; intros H.
  - rewrite app_empty_l. cbn. auto.
  - apply andb_true_iff in H as [Hc H]. rewrite app_cons.
    cbn [String.length Nat.add parenFree].
    split; [| apply IH, H].
    destruct (Ascii.eqb ")" c) eqn:E; [| reflexivity].
    apply Ascii.eqb_eq in E. subst c. discriminate Hc.
Qed.

Lemma char_spec (c : ascii) (s r : string) : JS.char c s = Some r -> s = String c r.
Proof.
  destruct s as [| d t]; cbn; [discriminate |].
  destruct (Ascii.eqb c d) eqn:E; [| discriminate].
  apply Ascii.eqb_eq in E. intros [= ->]. subst. reflexivity.
Qed.

(** A same-line match starts at a parenthesis, and the rest of it holds none. *)
Lemma sameLineBrace_spec (s x : string) (len : nat) :
  sameLineBrace s = Some (x, len) ->
  exists t, s = String ")" t /\ parenFree (Nat.pred len) t.
Proof.
  unfold sameLineBrace, JS.many. intros H.
  destruct (JS.char ")" s) as [r |] eqn:E1; [| discriminate]. cbn in H.
  destruct (JS.span JS.isSpace r) as [gap r1] eqn:E2. cbn in H.
  destruct (JS.char "{" r1) as [r2 |] eqn:E3; [| discriminate]. cbn in H.
  injection H as _ <-.
  apply char_spec in E1, E3. apply span_spec in E2 as [E2 Hgap]. subst.
  eexists. split; [reflexivity |].
  unfold JS.consumed. cbn [String.length]. rewrite length_append. cbn [String.length].
  replace (Nat.pred (S (String.length gap + S (String.length r2)) - String.length r2))
    with (String.length gap + 1) by lia.
  apply parenFree_gap, Hgap.
Qed.

(** Where the new-line pattern matches, the same-line pattern matches the
    same text. *)
Lemma newLineBrace_sameLineBrace (s x : string) (len : nat) :
  newLineBrace s = Some (x, len) -> sameLineBrace s = Some (x, len).
Proof.
  unfold newLineBrace, sameLineBrace, JS.many.
  destruct (JS.char ")" s) as [r |]; [| discriminate]. cbn.
  destruct (JS.span JS.isSpace r) as [gap r1]. cbn.
  destruct (JS.char "{" r1) as [r2 |]; [| discriminate]. cbn.
  destruct (hasNewline gap); [auto | discriminate].
Qed.

Lemma newLineBrace_paren (c : ascii) (t : string) :
  Ascii.eqb ")" c = false -> newLineBrace (String c t) = None.
Proof. intros E. unfold newLineBrace, JS.char. rewrite E. reflexivity. Qed.

Lemma newLine_scan_skip (s : string) :
  forall k, parenFree k s ->
            JS.matchAllFrom newLineBrace k s = JS.matchAllFrom newLineBrace 0 s.
Proof.
  induction s as [| c t IH]; intros k H; [reflexivity |].
  destruct k as [| k]; [reflexivity |].
  cbn [parenFree] in H. destruct H as [Hc H].
  cbn [JS.matchAllFrom]. rewrite (newLineBrace_paren c t Hc).
  apply IH, H.
Qed.

Lemma newLine_scan_le (s : string) :
  forall k, parenFree k s ->
            length (JS.matchAllFrom newLineBrace 0 s)
            <= length (JS.matchAllFrom sameLineBrace k s).
Proof.
  induction s as [| c t IH]; intros k H; [cbn; lia |].
  destruct k as [| k].
  - cbn [JS.matchAllFrom].
    destruct (sameLineBrace (String c t)) as [[x len] |] eqn:Es.
    + destruct (sameLineBrace_spec _ _ _ Es) as (t' & [= -> ->] & Hfree).
      destruct (newLineBrace (String ")" t')) as [[y len'] |] eqn:En.
      * apply newLineBrace_sameLineBrace in En. rewrite Es in En.
        injection En as <- <-.
        rewrite (newLine_scan_skip t' _ Hfree). cbn [length].
        specialize (IH _ Hfree). lia.
      * cbn [length]. specialize (IH _ Hfree). lia.
    + destruct (newLineBrace (String c t)) as [[y len'] |] eqn:En.
      * apply newLineBrace_sameLineBrace in En. congruence.
      * apply (IH 0). destruct t; exact I.
  - cbn [parenFree] in H. destruct H as [Hc H].
    cbn [JS.matchAllFrom]. rewrite (newLineBrace_paren c t Hc).
    apply IH, H.
Qed.

(** The analyser never counts more new-line placements than same-line
    ones: the same-line pattern also accepts a line feed before the brace. *)
Lemma newLine_count_le_sameLine (scripts : list string) :
  length (flat_map (JS.matchAll newLineBrace) scripts)
  <= length (flat_map (JS.matchAll sameLineBrace) scripts).
Proof.
  induction scripts as [| script rest IH]; [cbn; lia |].
  cbn [flat_map]. rewrite !List.length_app.
  pose proof (newLine_scan_le script 0) as H. unfold JS.matchAll in *.
  assert (parenFree 0 script) by (destruct script; exact I).
  specialize (H ltac:(assumption)). lia.
Qed.

(** The ["New-line braces"] pattern is never part of the brace analysis. *)
Lemma analyzeFormatting_no_new_line_pattern (scripts : list string) (p : CodePattern) :
  In p (analyzeFormatting scripts) ->
  pattern p = "Same-line braces"
  \/ exists n, pattern p = JS.ofNat n +:+ "-space indentation".
Proof.
  unfold analyzeFormatting.
  pose proof (newLine_count_le_sameLine scripts) as Hle.
  set (sameLine := length (flat_map (JS.matchAll sameLineBrace) scripts)) in *.
  set (newLine := length (flat_map (JS.matchAll newLineBrace) scripts)) in *.
  assert (E : (sameLine <? newLine) = false) by (apply Nat.ltb_ge; lia).
  rewrite E. intros Hin. apply in_app_or in Hin as [Hin | Hin].
  - destruct (newLine <? sameLine); [| contradiction].
    destruct Hin as [<- | []]. left. reflexivity.
  - match type of Hin with
    | In _ (if ?b then _ else _) => destruct b; [| contradiction]
    end.
    destruct Hin as [<- | []]. right. eexists. reflexivity.
Qed.

End Braces.

(** ** Computations in the world *)

Section Computations.

Lemma bind_Ok {A B} (m : M A) (k : A -> M B) (w w' : World) (b : B) :
  bind m k w = (Ok b, w') ->
  exists a w1, m w = (Ok a, w1) /\ k a w1 = (Ok b, w').
Proof.
  unfold bind. destruct (m w) as [[a | e] w1]; [eauto | discriminate].
Qed.

Lemma catch_rethrow {A} (m : M A) (w : World) :
  catch m (fun error => throw error) w = m w.
Proof. unfold catch, throw. destruct (m w) as [[a | e] w1]; reflexivity. Qed.

Lemma sameEnv_refl (w : World) : sameEnv w w.
Proof. unfold sameEnv. tauto. Qed.

Lemma sameEnv_sym (w1 w2 : World) : sameEnv w1 w2 -> sameEnv w2 w1.
Proof. unfold sameEnv. intuition congruence. Qed.

Lemma sameEnv_trans (w1 w2 w3 : World) :
  sameEnv w1 w2 -> sameEnv w2 w3 -> sameEnv w1 w3.
Proof. unfold sameEnv. intuition congruence. Qed.

Lemma sameEnv_withDrawn (n : nat) (w : World) : sameEnv w (withDrawn n w).
Proof. unfold sameEnv. cbn. tauto. Qed.

Lemma sameEnv_withStore (i : gmap string VectorRecord) (l : list StoreOp) (w : World) :
  sameEnv w (withStore i l w).
Proof. unfold sameEnv. cbn. tauto. Qed.

Lemma reader_run {A} (m : M A) (w : World) : reader m -> m w = (fst (m w), w).
Proof. intros H. destruct (H w) as [E _]. destruct (m w); cbn in *. congruence. Qed.

Lemma reader_ret {A} (a : A) : reader (ret a).
Proof. intros w. cbn. auto. Qed.

Lemma reader_throw {A} (e : Error) : reader (@throw A e).
Proof. intros w. cbn. auto. Qed.

Lemma reader_bind {A B} (m : M A) (k : A -> M B) :
  reader m -> (forall a, reader (k a)) -> reader (bind m k).
Proof.
  intros Hm Hk w. unfold bind.
  rewrite (reader_run m w Hm).
  split.
  - destruct (fst (m w)); [apply Hk | reflexivity].
  - intros w' Hs. rewrite (reader_run m w' Hm).
    destruct (Hm w) as [_ ->]; [| exact Hs].
    destruct (fst (m w)); [apply Hk, Hs | reflexivity].
Qed.

Lemma reader_catch {A} (m : M A) (handler : Error -> M A) :
  reader m -> (forall e, reader (handler e)) -> reader (catch m handler).
Proof.
  intros Hm Hh w. unfold catch.
  rewrite (reader_run m w Hm).
  split.
  - destruct (fst (m w)); [reflexivity | apply Hh].
  - intros w' Hs. rewrite (reader_run m w' Hm).
    destruct (Hm w) as [_ ->]; [| exact Hs].
    destruct (fst (m w)); [reflexivity | apply Hh, Hs].
Qed.

Lemma reader_all {A B} (f : A -> M B) (xs : list A) :
  (forall x, reader (f x)) -> reader (all f xs).
Proof.
  intros Hf. induction xs as [| x xs IH]; cbn [all].
  - apply reader_ret.
  - apply reader_bind; [apply Hf |]. intros b.
    apply reader_bind; [apply IH |]. intros bs. apply reader_ret.
Qed.

Lemma reader_if {A} (b : bool) (m1 m2 : M A) :
  reader m1 -> reader m2 -> reader (if b then m1 else m2).
Proof. destruct b; auto. Qed.

Lemma reader_gets {A} (f : World -> A) :
  (forall w w', sameEnv w w' -> f w' = f w) -> reader (gets f).
Proof.
  intros Hf w. cbn. split; [reflexivity |]. intros w' Hs. f_equal. apply Hf, Hs.
Qed.

Lemma sameEnv_pathAllowedIn (w w' : World) (p : string) :
  sameEnv w w' ->
  FilesystemMCPClient.pathAllowedIn w' p = FilesystemMCPClient.pathAllowedIn w p.
Proof.
  intros (Hc & _ & _ & _ & _ & _ & _ & Ha & _).
  unfold FilesystemMCPClient.pathAllowedIn. rewrite Hc, Ha. reflexivity.
Qed.

Lemma sameEnv_entryAt (w w' : World) (p : string) :
  sameEnv w w' -> Fs.entryAt w' p = Fs.entryAt w p.
Proof.
  intros (Hc & Hd & _). unfold Fs.entryAt. rewrite Hc, Hd. reflexivity.
Qed.

Lemma reader_isPathAllowed (p : string) : reader (FilesystemMCPClient.isPathAllowed p).
Proof. apply reader_gets. intros w w' H. apply sameEnv_pathAllowedIn, H. Qed.

Lemma reader_fs_readFile (p : string) : reader (Fs.readFile p).
Proof.
  intros w. unfold Fs.readFile. split.
  - destruct (Fs.entryAt w p) as [[? [?|] ? ? | ? ?] |]; reflexivity.
  - intros w' Hs. rewrite (sameEnv_entryAt w w' p Hs).
    destruct (Fs.entryAt w p) as [[? [?|] ? ? | ? ?] |]; reflexivity.
Qed.

Lemma reader_fs_readdir (p : string) : reader (Fs.readdir p).
Proof.
  intros w. unfold Fs.readdir. split.
  - destruct (Fs.entryAt w p) as [[? ? ? ? | ? ?] |]; reflexivity.
  - intros w' Hs. rewrite (sameEnv_entryAt w w' p Hs).
    destruct (Fs.entryAt w p) as [[? ? ? ? | ? ?] |]; reflexivity.
Qed.

Lemma reader_fs_stat (p : string) : reader (Fs.stat p).
Proof.
  intros w. unfold Fs.stat. split.
  - destruct (Fs.entryAt w p) as [[? ? ? ? | ? ?] |]; reflexivity.
  - intros w' Hs. rewrite (sameEnv_entryAt w w' p Hs).
    destruct (Fs.entryAt w p) as [[? ? ? ? | ? ?] |]; reflexivity.
Qed.

Lemma collect_ext {A} (f g : A -> Result (list string)) (xs : list A) :
  (forall x, f x = g x) ->
  FilesystemMCPClient.collect f xs = FilesystemMCPClient.collect g xs.
Proof.
  intros H. induction xs as [| x xs IH]; cbn; [reflexivity |].
  rewrite H, IH. reflexivity.
Qed.

(** Induction on a tree of entries. *)
Lemma Entry_tree_ind (P : Entry -> Prop) :
  (forall n c sz mt, P (File n c sz mt)) ->
  (forall n sub, Forall P sub -> P (Dir n sub)) ->
  forall e, P e.
Proof.
  intros Hf Hd.
  exact (fix IH (e : Entry) : P e :=
           match e with
           | File n c sz mt => Hf n c sz mt
           | Dir n sub =>
               Hd n sub
                 ((fix go (l : list Entry) : Forall P l :=
                     match l with
                     | [] => List.Forall_nil P
                     | x :: r => @List.Forall_cons _ P x r (IH x) (go r)
                     end) sub)
           end).
Qed.

Lemma collect_ext_in {A} (f g : A -> Result (list string)) (xs : list A) :
  Forall (fun x => f x = g x) xs ->
  FilesystemMCPClient.collect f xs = FilesystemMCPClient.collect g xs.
Proof.
  induction 1 as [| x xs H _ IH]; cbn; [reflexivity |].
  rewrite H, IH. reflexivity.
Qed.

Lemma listEntry_ext (allowed allowed' : string -> bool) (recursive : bool)
    (filter : option (string -> bool)) (entry : Entry) :
  (forall p, allowed' p = allowed p) ->
  forall dirPath,
    FilesystemMCPClient.listEntry allowed' recursive filter dirPath entry
    = FilesystemMCPClient.listEntry allowed recursive filter dirPath entry.
Proof.
  intros Ha. induction entry as [n c sz mt | n sub IH] using Entry_tree_ind;
    intros dirPath; cbn [FilesystemMCPClient.listEntry].
  - reflexivity.
  - rewrite Ha. destruct recursive; [| reflexivity].
    destruct (allowed _); [| reflexivity].
    apply collect_ext_in. eapply Forall_impl; [exact IH |].
    intros e He. apply He.
Qed.

Lemma reader_listDirectory (dirPath : string) (recursive : bool)
    (filter : option (string -> bool)) :
  reader (FilesystemMCPClient.listDirectory dirPath recursive filter).
Proof.
  unfold FilesystemMCPClient.listDirectory.
  apply reader_bind; [apply reader_isPathAllowed |]. intros allowed.
  apply reader_if; [apply reader_throw |].
  apply reader_bind; [apply reader_fs_readdir |]. intros entries w.
  cbn. split; [reflexivity |]. intros w' Hs.
  unfold FilesystemMCPClient.listEntries. apply collect_ext. intros entry.
  apply listEntry_ext. intros p. apply sameEnv_pathAllowedIn, Hs.
Qed.

Lemma reader_findFiles (dirPath : string) (pattern : string -> bool) :
  reader (FilesystemMCPClient.findFiles dirPath pattern).
Proof.
  unfold FilesystemMCPClient.findFiles.
  apply reader_bind; [apply reader_isPathAllowed |]. intros allowed.
  apply reader_if; [apply reader_throw |].
  apply reader_bind; [apply reader_listDirectory |]. intros files. apply reader_ret.
Qed.

Lemma reader_readFile (filePath : string) : reader (FilesystemMCPClient.readFile filePath).
Proof.
  unfold FilesystemMCPClient.readFile.
  apply reader_bind; [apply reader_isPathAllowed |]. intros allowed.
  apply reader_if; [apply reader_throw |].
  apply reader_catch; [apply reader_fs_readFile | intros e; apply reader_throw].
Qed.

Lemma reader_getFileStats (filePath : string) :
  reader (FilesystemMCPClient.getFileStats filePath).
Proof.
  unfold FilesystemMCPClient.getFileStats.
  apply reader_bind; [apply reader_isPathAllowed |]. intros allowed.
  apply reader_if; [apply reader_throw | apply reader_fs_stat].
Qed.

Lemma reader_getUnityScripts (dirPath : string) :
  reader (FilesystemMCPClient.getUnityScripts dirPath).
Proof.
  unfold FilesystemMCPClient.getUnityScripts.
  apply reader_bind; [apply reader_findFiles |]. intros scriptFiles.
  apply reader_all. intros filePath.
  apply reader_bind; [apply reader_readFile |]. intros content.
  apply reader_bind; [apply reader_getFileStats |]. intros stats. apply reader_ret.
Qed.

Lemma reader_readProjectSettings (projectPath : string) :
  reader (FilesystemMCPClient.readProjectSettings projectPath).
Proof.
  unfold FilesystemMCPClient.readProjectSettings.
  apply reader_bind; [apply reader_isPathAllowed |]. intros allowed.
  apply reader_if; [apply reader_throw |].
  apply reader_bind; [apply reader_readFile |]. intros content. apply reader_ret.
Qed.

Lemma reader_getProjectInfo (projectPath : string) :
  reader (UnityProjectIndexer.getProjectInfo projectPath).
Proof.
  unfold UnityProjectIndexer.getProjectInfo.
  apply reader_catch.
  - apply reader_bind; [apply reader_readProjectSettings |]. intros v. apply reader_ret.
  - intros e. apply reader_ret.
Qed.

Lemma getProjectInfo_runs (projectPath : string) (w : World) :
  exists projectInfo,
    UnityProjectIndexer.getProjectInfo projectPath w = (Ok projectInfo, w).
Proof.
  rewrite (reader_run _ w (reader_getProjectInfo projectPath)).
  unfold UnityProjectIndexer.getProjectInfo, catch.
  destruct (bind _ _ w) as [[info | e] w1]; cbn; eauto.
Qed.

End Computations.

(** ** What a run stores *)

Section Storing.
Import PineconeVectorDB.

Lemma storedIds_app (a b : list StoreOp) : storedIds (a ++ b) = storedIds a ++ storedIds b.
Proof. apply flat_map_app. Qed.

Lemma storedIds_upserts (batches : list (list VectorRecord)) :
  storedIds (map Upsert batches) = map vecId (concat batches).
Proof.
  induction batches as [| b bs IH]; [reflexivity |].
  cbn. rewrite map_app. f_equal. exact IH.
Qed.

Lemma dom_insertAll (vs : list VectorRecord) (i : gmap string VectorRecord) :
  dom (insertAll i vs) = dom i ∪ (list_to_set (map vecId vs) : gset string).
Proof.
  revert i. induction vs as [| v vs IH]; intros i; cbn.
  - set_solver.
  - unfold insertAll in IH. rewrite IH, dom_insert_L. set_solver.
Qed.

Lemma lookup_insertAll (vs : list VectorRecord) (i : gmap string VectorRecord)
    (id : string) :
  id ∉ map vecId vs -> insertAll i vs !! id = i !! id.
Proof.
  revert i. induction vs as [| v vs IH]; intros i Hid; cbn; [reflexivity |].
  cbn in Hid. apply not_elem_of_cons in Hid as [Hne Hid].
  unfold insertAll in IH. rewrite IH by exact Hid.
  apply lookup_insert_ne. congruence.
Qed.

Lemma insertAll_app (a b : list VectorRecord) (i : gmap string VectorRecord) :
  insertAll i (a ++ b) = insertAll (insertAll i a) b.
Proof. apply foldl_app. Qed.

Lemma concat_slices {A} (fuel : nat) (vectors : list A) :
  length vectors <= fuel -> concat (slices fuel vectors) = vectors.
Proof.
  revert vectors. induction fuel as [| fuel IH]; intros vectors Hlen.
  - destruct vectors; [reflexivity | cbn in Hlen; lia].
  - destruct vectors as [| v vectors]; [reflexivity |].
    cbn [slices concat]. rewrite IH.
    + apply take_drop.
    + rewrite length_drop. unfold batchSize. cbn [length] in *. lia.
Qed.

Lemma embedAll_run (documents : list Document) (w w1 : World)
    (vectors : list VectorRecord) :
  all (fun doc =>
         embedding <- generateEmbedding (docContent doc) ;;
         ret (mkVector (docId doc) embedding (docContent doc) (docMetadata doc)))
    documents w = (Ok vectors, w1) ->
  w1 = w /\ map vecId vectors = map docId documents.
Proof.
  revert vectors. induction documents as [| doc documents IH]; intros vectors; cbn [all].
  - intros [= <- <-]. auto.
  - intros H. apply bind_Ok in H as (v & w2 & Hv & H).
    apply bind_Ok in H as (vs & w3 & Hvs & H).
    injection H as <- <-.
    apply bind_Ok in Hv as (e & w4 & He & Hv). injection Hv as <- <-.
    unfold generateEmbedding in He.
    destruct (embedContent w (docContent doc)); [| discriminate].
    injection He as _ <-.
    destruct (IH _ Hvs) as [-> Hids]. split; [reflexivity |].
    cbn. f_equal. exact Hids.
Qed.

Lemma upsertAll_run (batches : list (list VectorRecord)) (w w' : World) :
  forEach upsert batches w = (Ok tt, w') ->
  sameEnv w w' /\ drawn w' = drawn w
  /\ storeLog w' = storeLog w ++ map Upsert batches
  /\ index w' = insertAll (index w) (concat batches).
Proof.
  revert w. induction batches as [| batch batches IH]; intros w; cbn [forEach].
  - intros [= <-]. rewrite app_nil_r. auto using sameEnv_refl.
  - intros H. apply bind_Ok in H as ([] & w1 & Hu & H).
    unfold upsert in Hu. destruct (storeUp w); [| discriminate].
    injection Hu as <-.
    destruct (IH _ H) as (He & Hd & Hl & Hi). cbn in He, Hd, Hl, Hi.
    split; [eapply sameEnv_trans; [apply sameEnv_withStore | exact He] |].
    split; [exact Hd |].
    split; [rewrite Hl, <- app_assoc; reflexivity |].
    rewrite Hi. cbn [concat]. rewrite insertAll_app. reflexivity.
Qed.

Lemma storeBatch_run (documents : list Document) (w w' : World) :
  storeBatch documents w = (Ok tt, w') ->
  sameEnv w w' /\ drawn w' = drawn w
  /\ storedIds (storeLog w') = storedIds (storeLog w) ++ map docId documents
  /\ dom (index w') = dom (index w) ∪ (list_to_set (map docId documents) : gset string)
  /\ (forall id, id ∉ map docId documents -> index w' !! id = index w !! id).
Proof.
  unfold storeBatch. rewrite catch_rethrow. intros H.
  apply bind_Ok in H as (vectors & w1 & Hv & H).
  apply embedAll_run in Hv as [-> Hids].
  apply upsertAll_run in H as (He & Hd & Hl & Hi).
  rewrite concat_slices in Hi by lia.
  split; [exact He |]. split; [exact Hd |].
  split.
  { rewrite Hl, storedIds_app, storedIds_upserts, concat_slices by lia.
    rewrite Hids. reflexivity. }
  rewrite Hi, <- Hids.
  split; [apply dom_insertAll | intros id; apply lookup_insertAll].
Qed.

Lemma stored_nothing (w : World) : stored w w [].
Proof.
  unfold stored. cbn [length]. rewrite Nat.add_0_r, app_nil_r.
  split; [apply sameEnv_refl |]. split; [reflexivity |].
  split; [intros k id H; rewrite lookup_nil in H; discriminate |].
  split; [reflexivity |]. split; [set_solver | auto].
Qed.

Lemma stored_then (w w1 w2 : World) (ids1 ids2 : list string) :
  stored w w1 ids1 -> stored w1 w2 ids2 -> stored w w2 (ids1 ++ ids2).
Proof.
  intros (He1 & Hd1 & Ht1 & Hl1 & Hi1 & Hk1) (He2 & Hd2 & Ht2 & Hl2 & Hi2 & Hk2).
  assert (Hn : nanoid w1 = nanoid w) by (destruct He1 as (_ & _ & _ & E & _); congruence).
  split; [eapply sameEnv_trans; eassumption |].
  split; [rewrite Hd2, Hd1, List.length_app; lia |].
  split.
  { intros k id Hk. destruct (decide (k < length ids1)) as [Hlt | Hge].
    - rewrite lookup_app_l in Hk by exact Hlt. apply Ht1, Hk.
    - rewrite lookup_app_r in Hk by lia.
      destruct (Ht2 _ _ Hk) as (suffix & ->). exists suffix.
      rewrite Hn, Hd1. do 2 f_equal. lia. }
  split; [rewrite Hl2, Hl1, app_assoc; reflexivity |].
  split; [rewrite Hi2, Hi1, list_to_set_app_L; set_solver |].
  intros id Hid. apply not_elem_of_app in Hid as [Hid1 Hid2].
  rewrite Hk2, Hk1; auto.
Qed.

End Storing.

(** ** The stages of a run *)

Section Runs.
Import FilesystemMCPClient UnityProjectIndexer.

Lemma drew_nothing (w : World) : drew w w 0.
Proof. unfold drew. auto using sameEnv_refl. Qed.

Lemma drew_then (w w1 w2 : World) (n m : nat) :
  drew w w1 n -> drew w1 w2 m -> drew w w2 (n + m).
Proof.
  intros (He1 & Hd1 & Hi1 & Hl1) (He2 & Hd2 & Hi2 & Hl2).
  split; [eapply sameEnv_trans; eassumption |].
  repeat split; [lia | congruence | congruence].
Qed.

Lemma drew_token (w : World) : drew w (withDrawn (S (drawn w)) w) 1.
Proof. split; [apply sameEnv_withDrawn |]. cbn. repeat split. lia. Qed.

Lemma tokened_nil (tok : nat -> string) (d : nat) : tokened tok d [].
Proof. intros k id H. rewrite lookup_nil in H. discriminate. Qed.

Lemma tokened_cons (tok : nat -> string) (d : nat) (suffix : string) (ids : list string) :
  tokened tok (S d) ids -> tokened tok d ((tok d +:+ suffix) :: ids).
Proof.
  intros H [| k] id Hk.
  - injection Hk as <-. exists suffix. rewrite Nat.add_0_r. reflexivity.
  - destruct (H k id Hk) as (s & ->). exists s. do 2 f_equal. lia.
Qed.

Lemma tokened_app (tok : nat -> string) (d : nat) (ids1 ids2 : list string) :
  tokened tok d ids1 -> tokened tok (d + length ids1) ids2 ->
  tokened tok d (ids1 ++ ids2).
Proof.
  intros H1 H2 k id Hk. destruct (decide (k < length ids1)) as [Hlt | Hge].
  - rewrite lookup_app_l in Hk by exact Hlt. apply H1, Hk.
  - rewrite lookup_app_r in Hk by lia.
    destruct (H2 _ _ Hk) as (s & ->). exists s. do 2 f_equal. lia.
Qed.

Lemma chunkDocuments_run (projectInfo : ProjectInfo) (baseName scriptPath : string)
    (metadata : ScriptMetadata) (updated : option Z) (chunks : list string) :
  forall (i : nat) (w : World),
  exists docs w',
    chunkDocuments projectInfo baseName scriptPath metadata updated i chunks w
    = (Ok docs, w')
    /\ drew w w' (length docs)
    /\ length docs = length chunks
    /\ tokened (nanoid w) (drawn w) (map docId docs).
Proof.
  induction chunks as [| chunk rest IH]; intros i w; cbn [chunkDocuments].
  - exists [], w. split; [reflexivity |]. split; [apply drew_nothing |].
    split; [reflexivity |]. apply tokened_nil.
  - destruct (IH (S i) (withDrawn (S (drawn w)) w)) as (docs & w' & Hrun & Hd & Hl & Ht).
    unfold bind at 1. unfold nextToken at 1. unfold bind at 1. unfold gets at 1.
    unfold bind at 1. rewrite Hrun. unfold ret.
    eexists _, w'. split; [reflexivity |].
    split; [apply (drew_then w _ w' 1 _ (drew_token w) Hd) |].
    split; [cbn; congruence |].
    cbn [map docId]. apply tokened_cons. exact Ht.
Qed.

Lemma scriptLoop_run (projectInfo : ProjectInfo) (scripts : list ScriptFile) :
  forall (documents : list Document) (indexed errors : nat) (w : World),
  exists new w',
    scriptLoop projectInfo scripts documents indexed errors w
    = (Ok (documents ++ new, indexed + length scripts, errors), w')
    /\ drew w w' (length new)
    /\ length new = chunkTotal scripts
    /\ tokened (nanoid w) (drawn w) (map docId new).
Proof.
  induction scripts as [| script rest IH]; intros documents indexed errors w;
    cbn [scriptLoop].
  - exists [], w. rewrite app_nil_r, Nat.add_0_r.
    split; [reflexivity |]. split; [apply drew_nothing |].
    split; [reflexivity |]. apply tokened_nil.
  - destruct (chunkDocuments_run projectInfo (NodePath.basename (name script))
                (path script) (parseScript (content script) (path script))
                (Some (modified script))
                (chunkScript (content script) defaultChunkSize) 0 w)
      as (docs & w1 & Hrun & Hd1 & Hl1 & Ht1).
    destruct (IH (documents ++ docs) (S indexed) errors w1)
      as (new & w' & Hloop & Hd2 & Hl2 & Ht2).
    unfold bind at 1. unfold catch at 1. unfold bind at 1. rewrite Hrun.
    unfold ret at 1. rewrite Hloop.
    exists (docs ++ new), w'.
    split.
    { rewrite (List.app_assoc documents docs new).
      replace (indexed + length (script :: rest)) with (S indexed + length rest)
        by (cbn [length]; lia).
      reflexivity. }
    split; [rewrite List.length_app; eapply drew_then; eassumption |].
    split.
    { unfold chunkTotal in *. cbn [flat_map]. rewrite !List.length_app. lia. }
    rewrite map_app. apply tokened_app; [exact Ht1 |].
    rewrite length_map.
    destruct Hd1 as ((_ & _ & _ & En & _) & Ed & _).
    rewrite <- En, Ed in Ht2. exact Ht2.
Qed.

Lemma assetDocuments_run (projectInfo : ProjectInfo) (kind : FileType)
    (label : string) (assets : list string) :
  forall w : World,
  exists docs w',
    all (assetDocument projectInfo kind label) assets w = (Ok docs, w')
    /\ drew w w' (length docs)
    /\ length docs = length assets
    /\ tokened (nanoid w) (drawn w) (map docId docs).
Proof.
  induction assets as [| asset rest IH]; intros w; cbn [all].
  - exists [], w. split; [reflexivity |]. split; [apply drew_nothing |].
    split; [reflexivity |]. apply tokened_nil.
  - destruct (IH (withDrawn (S (drawn w)) w)) as (docs & w' & Hrun & Hd & Hl & Ht).
    unfold bind at 1. unfold assetDocument at 1. unfold bind at 1.
    unfold nextToken at 1. unfold bind at 1. unfold gets at 1. unfold ret at 1.
    unfold bind at 1. rewrite Hrun. unfold ret.
    eexists _, w'. split; [reflexivity |].
    split; [apply (drew_then w _ w' 1 _ (drew_token w) Hd) |].
    split; [cbn; congruence |].
    cbn [map docId]. apply tokened_cons. exact Ht.
Qed.

(** Storing the documents for which the tokens were just drawn. *)
Lemma store_documents_run (documents : list Document) (w w1 w' : World) :
  drew w w1 (length documents) ->
  tokened (nanoid w) (drawn w) (map docId documents) ->
  (if (0 <? length documents)%nat then PineconeVectorDB.storeBatch documents
   else ret tt) w1 = (Ok tt, w') ->
  stored w w' (map docId documents).
Proof.
  intros (He & Hd & Hi & Hl) Ht Hrun.
  assert (Hs : sameEnv w1 w' /\ drawn w' = drawn w1
               /\ storedIds (storeLog w') = storedIds (storeLog w1) ++ map docId documents
               /\ dom (index w')
                  = dom (index w1) ∪ (list_to_set (map docId documents) : gset string)
               /\ (forall id, id ∉ map docId documents ->
                               index w' !! id = index w1 !! id)).
  { destruct documents as [| doc documents].
    - cbn in Hrun. injection Hrun as <-. cbn. rewrite app_nil_r.
      split; [apply sameEnv_refl |]. split; [reflexivity |].
      split; [reflexivity |]. split; [set_solver | auto].
    - cbn [length Nat.ltb Nat.leb] in Hrun. apply storeBatch_run, Hrun. }
  destruct Hs as (He' & Hd' & Hl' & Hi' & Hk').
  split; [eapply sameEnv_trans; eassumption |].
  split; [rewrite length_map; lia |].
  split; [exact Ht |].
  split; [rewrite Hl', Hl; reflexivity |].
  split; [rewrite Hi', Hi; reflexivity |].
  intros id Hid. rewrite Hk', Hi; auto.
Qed.

Lemma indexScripts_run (projectPath : string) (projectInfo : ProjectInfo)
    (w w' : World) (c : Counts) :
  indexScripts projectPath projectInfo w = (Ok c, w') ->
  exists ids scripts,
    stored w w' ids
    /\ fst (getUnityScripts (NodePath.join [projectPath; "Assets"; "Scripts"]) w)
       = Ok scripts
    /\ length ids = chunkTotal scripts
    /\ c = mkCounts (length scripts) (length scripts) 0.
Proof.
  unfold indexScripts. intros H.
  apply bind_Ok in H as (scripts & w1 & Hs & H).
  rewrite (reader_run _ w (reader_getUnityScripts _)) in Hs.
  injection Hs as Hs <-.
  destruct (scriptLoop_run projectInfo scripts [] 0 0 w)
    as (new & w2 & Hloop & Hd & Hl & Ht).
  unfold bind at 1 in H. rewrite Hloop in H. cbn [app] in H.
  apply bind_Ok in H as ([] & w3 & Hstore & H). injection H as <- <-.
  exists (map docId new), scripts.
  split; [eapply store_documents_run; eassumption |].
  split; [exact Hs |]. split; [rewrite length_map; exact Hl | reflexivity].
Qed.

Lemma indexAssets_run (projectInfo : ProjectInfo) (kind : FileType) (label : string)
    (find : M (list string)) (w w' : World) (c : Counts) :
  reader find ->
  (assets <- find ;;
   documents <- all (assetDocument projectInfo kind label) assets ;;
   (if (0 <? length documents)%nat then PineconeVectorDB.storeBatch documents
    else ret tt) ;;;
   ret (mkCounts (length assets) (length assets) 0)) w = (Ok c, w') ->
  exists ids assets,
    stored w w' ids
    /\ fst (find w) = Ok assets
    /\ length ids = length assets
    /\ c = mkCounts (length assets) (length assets) 0.
Proof.
  intros Hfind H.
  apply bind_Ok in H as (assets & w1 & Hs & H).
  rewrite (reader_run _ w Hfind) in Hs. injection Hs as Hs <-.
  destruct (assetDocuments_run projectInfo kind label assets w)
    as (docs & w2 & Hall & Hd & Hl & Ht).
  unfold bind at 1 in H. rewrite Hall in H.
  apply bind_Ok in H as ([] & w3 & Hstore & H). injection H as <- <-.
  exists (map docId docs), assets.
  split; [eapply store_documents_run; eassumption |].
  split; [exact Hs |]. split; [rewrite length_map; exact Hl | reflexivity].
Qed.

Lemma reader_getUnityScenes (dirPath : string) : reader (getUnityScenes dirPath).
Proof. exact (reader_findFiles dirPath (fun file => JS.endsWith file ".unity")). Qed.

Lemma reader_getUnityPrefabs (dirPath : string) : reader (getUnityPrefabs dirPath).
Proof. exact (reader_findFiles dirPath (fun file => JS.endsWith file ".prefab")). Qed.

Lemma found_sameEnv (projectPath : string) (w w' : World)
    (scripts : list ScriptFile) (scenes prefabs : list string) :
  sameEnv w w' ->
  found projectPath w scripts scenes prefabs ->
  found projectPath w' scripts scenes prefabs.
Proof.
  intros Hs (H1 & H2 & H3). unfold found.
  destruct (reader_getUnityScripts (NodePath.join [projectPath; "Assets"; "Scripts"]) w)
    as [_ E1].
  destruct (reader_getUnityScenes projectPath w) as [_ E2].
  destruct (reader_getUnityPrefabs projectPath w) as [_ E3].
  rewrite (E1 _ Hs), (E2 _ Hs), (E3 _ Hs). auto.
Qed.

(** A run that returns found scripts, scenes and prefabs, stored one record
    per chunk of a script and one per scene and prefab under ids built from
    the next tokens, and reports every file as indexed and none as failed. *)
Lemma indexProject_run (projectPath : string) (w w' : World) (r : IndexResult) :
  indexProject projectPath w = (Ok r, w') ->
  exists ids scripts scenes prefabs,
    stored (allowing projectPath w) w' ids
    /\ found projectPath (allowing projectPath w) scripts scenes prefabs
    /\ length ids = chunkTotal scripts + length scenes + length prefabs
    /\ r = mkIndexResult
             (length scripts + length scenes + length prefabs)
             (length scripts + length scenes + length prefabs) 0.
Proof.
  unfold indexProject. intros H.
  apply bind_Ok in H as ([] & wa & Ha & H).
  assert (Ewa : wa = allowing projectPath w) by (unfold allowing; rewrite Ha; reflexivity).
  rewrite <- Ewa. clear Ewa Ha.
  apply bind_Ok in H as (projectInfo & w0 & Hinfo & H).
  rewrite (reader_run _ wa (reader_getProjectInfo _)) in Hinfo.
  injection Hinfo as _ <-.
  rewrite catch_rethrow in H.
  apply bind_Ok in H as (c1 & w1 & H1 & H).
  apply bind_Ok in H as (c2 & w2 & H2 & H).
  apply bind_Ok in H as (c3 & w3 & H3 & H).
  injection H as <- <-.
  apply indexScripts_run in H1 as (ids1 & scripts & S1 & F1 & L1 & ->).
  apply (indexAssets_run _ _ _ _ _ _ _ (reader_getUnityScenes projectPath)) in H2
    as (ids2 & scenes & S2 & F2 & L2 & ->).
  apply (indexAssets_run _ _ _ _ _ _ _ (reader_getUnityPrefabs projectPath)) in H3
    as (ids3 & prefabs & S3 & F3 & L3 & ->).
  exists (ids1 ++ ids2 ++ ids3), scripts, scenes, prefabs.
  split; [eapply stored_then; [exact S1 | eapply stored_then; eassumption] |].
  split.
  { split; [exact F1 |].
    destruct S1 as (E1 & _). destruct S2 as (E2 & _).
    destruct (reader_getUnityScenes projectPath wa) as [_ G2].
    destruct (reader_getUnityPrefabs projectPath wa) as [_ G3].
    rewrite <- (G2 _ E1), <- (G3 _ (sameEnv_trans _ _ _ E1 E2)). auto. }
  split; [rewrite !List.length_app; lia |].
  cbn. f_equal; lia.
Qed.

End Runs.

(** ** Indexing twice *)

Section Twice.
Import FilesystemMCPClient UnityProjectIndexer.

Lemma app_inj_length (a b c d : string) :
  String.length a = String.length c -> a +:+ b = c +:+ d -> a = c.
Proof.
  revert c. induction a as [| x a IH]; intros [| y c] Hlen H; try discriminate.
  - reflexivity.
  - rewrite !app_cons in H. injection H as -> H. cbn in Hlen.
    f_equal. apply IH; [lia | exact H].
Qed.

(** Ids built from tokens of one length that do not repeat do not repeat. *)
Lemma tokened_NoDup (tok : nat -> string) (n d : nat) (ids : list string) :
  (forall i, String.length (tok i) = n) ->
  (forall i j, i < d + length ids -> j < d + length ids -> tok i = tok j -> i = j) ->
  tokened tok d ids -> NoDup ids.
Proof.
  intros Hlen Hfresh Ht. apply NoDup_alt. intros i j id Hi Hj.
  destruct (Ht _ _ Hi) as (s1 & E1). destruct (Ht _ _ Hj) as (s2 & E2).
  apply lookup_lt_Some in Hi, Hj.
  assert (E : tok (d + i) = tok (d + j)).
  { apply (app_inj_length _ s1 _ s2); [rewrite !Hlen; reflexivity | congruence]. }
  apply Hfresh in E; lia.
Qed.

Lemma allowing_fields (projectPath : string) (w : World) :
  cwd (allowing projectPath w) = cwd w
  /\ drawn (allowing projectPath w) = drawn w
  /\ nanoid (allowing projectPath w) = nanoid w
  /\ index (allowing projectPath w) = index w
  /\ storeLog (allowing projectPath w) = storeLog w
  /\ existsb (String.eqb (NodePath.resolve (cwd w) projectPath))
       (allowedPaths (allowing projectPath w)) = true.
Proof.
  unfold allowing, addAllowedPath, modify. cbn [snd].
  destruct (existsb _ (allowedPaths w)) eqn:E; cbn.
  - rewrite E. tauto.
  - rewrite existsb_app. cbn. rewrite String.eqb_refl, orb_true_r. tauto.
Qed.

(** Allowing the project path a second time changes nothing. *)
Lemma allowing_again (projectPath : string) (w w1 : World) :
  sameEnv (allowing projectPath w) w1 -> allowing projectPath w1 = w1.
Proof.
  intros (Hc & _ & _ & _ & _ & _ & _ & Ha & _).
  destruct (allowing_fields projectPath w) as (Ec & _ & _ & _ & _ & Ex).
  unfold allowing at 1. unfold addAllowedPath, modify. cbn [snd].
  rewrite <- Hc, Ec, <- Ha, Ex. reflexivity.
Qed.

Lemma indexProject_reports_no_error (projectPath : string) (w w' : World)
    (r : IndexResult) :
  indexProject projectPath w = (Ok r, w') ->
  errorCount r = 0 /\ indexedFiles r = totalFiles r.
Proof.
  intros H.
  apply indexProject_run in H as (ids & scripts & scenes & prefabs & _ & _ & _ & ->).
  auto.
Qed.

(** A script that cannot be read makes the whole run fail. *)
Lemma indexProject_rejects_with_getUnityScripts (projectPath : string) (w : World)
    (e : Error) :
  fst (getUnityScripts (NodePath.join [projectPath; "Assets"; "Scripts"])
         (allowing projectPath w)) = Err e ->
  fst (indexProject projectPath w) = Err e.
Proof.
  intros H. unfold indexProject.
  unfold bind at 1.
  change (addAllowedPath projectPath w) with (Ok tt, allowing projectPath w).
  unfold bind at 1.
  destruct (getProjectInfo_runs projectPath (allowing projectPath w)) as (info & ->).
  rewrite catch_rethrow. unfold bind at 1. unfold indexScripts at 1. unfold bind at 1.
  rewrite (reader_run _ _ (reader_getUnityScripts _)), H. reflexivity.
Qed.

End Twice.

(** ** Re-indexing on a file event *)

Section Watch.
Import FilesystemMCPClient UnityProjectIndexer.

Lemma chunkDocuments_contents (projectInfo : ProjectInfo) (baseName scriptPath : string)
    (metadata : ScriptMetadata) (updated : option Z) (chunks : list string) :
  forall (i : nat) (w w' : World) (docs : list Document),
    chunkDocuments projectInfo baseName scriptPath metadata updated i chunks w
    = (Ok docs, w') ->
    map docContent docs = chunks.
Proof.
  induction chunks as [| chunk rest IH]; intros i w w' docs; cbn [chunkDocuments].
  - intros [= <- _]. reflexivity.
  - intros H. apply bind_Ok in H as (token & w1 & _ & H).
    apply bind_Ok in H as (now & w2 & _ & H).
    apply bind_Ok in H as (docs' & w3 & Hrest & H).
    injection H as <- _. cbn. f_equal. eapply IH, Hrest.
Qed.

Lemma embedAll_succeeds (documents : list Document) (w : World) :
  Forall (fun doc => is_Some (embedContent w (docContent doc))) documents ->
  exists vectors,
    all (fun doc =>
           embedding <- PineconeVectorDB.generateEmbedding (docContent doc) ;;
           ret (mkVector (docId doc) embedding (docContent doc) (docMetadata doc)))
      documents w = (Ok vectors, w).
Proof.
  set (embed := fun doc => bind _ _).
  induction 1 as [| doc documents [v Hv] _ (vectors & IH)]; cbn [all].
  - eexists. reflexivity.
  - assert (Hdoc : embed doc w
                   = (Ok (mkVector (docId doc) v (docContent doc) (docMetadata doc)), w)).
    { subst embed. unfold bind, PineconeVectorDB.generateEmbedding, ret.
      rewrite Hv. reflexivity. }
    unfold bind at 1. rewrite Hdoc. unfold bind at 1. rewrite IH.
    eexists. reflexivity.
Qed.

Lemma upsertAll_succeeds (batches : list (list VectorRecord)) :
  forall w : World,
    storeUp w = true ->
    exists w', forEach PineconeVectorDB.upsert batches w = (Ok tt, w').
Proof.
  induction batches as [| batch batches IH]; intros w Hup; cbn [forEach].
  - eexists. reflexivity.
  - unfold bind, PineconeVectorDB.upsert. rewrite Hup. apply IH. exact Hup.
Qed.

Lemma storeBatch_succeeds (documents : list Document) (w : World) :
  Forall (fun doc => is_Some (embedContent w (docContent doc))) documents ->
  storeUp w = true ->
  exists w', PineconeVectorDB.storeBatch documents w = (Ok tt, w').
Proof.
  intros He Hup. unfold PineconeVectorDB.storeBatch. rewrite catch_rethrow.
  destruct (embedAll_succeeds documents w He) as (vectors & Hv).
  unfold bind at 1. rewrite Hv. apply upsertAll_succeeds, Hup.
Qed.

(** An [add] or [change] event for a script that can be read and whose
    chunks can be embedded stores one record per chunk of the file, under
    ids built from the next tokens, whatever the index already holds. *)
Lemma onFileEvent_reindex_stores (projectPath filePath content : string)
    (event : FileEvent) (w : World) :
  JS.endsWith filePath ".cs" = true ->
  isUnlink event = false ->
  fst (readFile filePath w) = Ok content ->
  Forall (fun chunk => is_Some (embedContent w chunk))
    (chunkScript content defaultChunkSize) ->
  storeUp w = true ->
  exists ids,
    stored w (snd (onFileEvent projectPath None filePath event w)) ids
    /\ length ids = length (chunkScript content defaultChunkSize).
Proof.
  intros Hcs Hev Hread Hembed Hup.
  unfold onFileEvent. rewrite Hcs, Hev. cbn [negb andb].
  unfold catch, bind.
  rewrite (reader_run _ w (reader_readFile filePath)), Hread.
  destruct (getProjectInfo_runs projectPath w) as (info & ->).
  destruct (chunkDocuments_run info (NodePath.basename filePath) filePath
              (parseScript content filePath) None
              (chunkScript content defaultChunkSize) 0 w)
    as (docs & w1 & Hrun & Hd & Hl & Ht).
  rewrite Hrun.
  pose proof (chunkDocuments_contents _ _ _ _ _ _ _ _ _ _ Hrun) as Hc.
  destruct Hd as (He & Hd & Hi & Hlog).
  assert (Hemb : Forall (fun doc => is_Some (embedContent w1 (docContent doc))) docs).
  { destruct He as (_ & _ & _ & _ & <- & _).
    apply List.Forall_forall. intros doc Hin.
    rewrite List.Forall_forall in Hembed. apply Hembed.
    rewrite <- Hc. apply in_map, Hin. }
  assert (Hup1 : storeUp w1 = true).
  { destruct He as (_ & _ & _ & _ & _ & <- & _). exact Hup. }
  destruct (storeBatch_succeeds docs w1 Hemb Hup1) as (w2 & Hstore).
  rewrite Hstore. unfold ret. cbn [snd].
  apply storeBatch_run in Hstore as (He' & Hd' & Hl' & Hi' & Hk').
  exists (map docId docs). split; [| rewrite length_map; exact Hl].
  split; [eapply sameEnv_trans; eassumption |].
  split; [rewrite length_map; lia |].
  split; [exact Ht |].
  split; [rewrite Hl', Hlog; reflexivity |].
  split; [rewrite Hi', Hi; reflexivity |].
  intros id Hid. rewrite Hk', Hi; auto.
Qed.

End Watch.

(** Records stored under ids that are new to the index add to it. *)
Lemma stored_fresh_size (w w' : World) (ids : list string) :
  stored w w' ids ->
  NoDup ids ->
  (forall id, id ∈ ids -> index w !! id = None) ->
  size (index w') = size (index w) + length ids
  /\ (forall id v, index w !! id = Some v -> index w' !! id = Some v).
Proof.
  intros (_ & _ & _ & _ & Hi & Hk) Hnd Hnew. split.
  - rewrite <- !size_dom, Hi, size_union.
    + rewrite size_list_to_set by exact Hnd. reflexivity.
    + intros id Hin Hin'. apply elem_of_list_to_set, Hnew in Hin'.
      apply elem_of_dom in Hin as [v Hv]. congruence.
  - intros id v Hv. rewrite Hk; [exact Hv |].
    intros Hin. apply Hnew in Hin. congruence.
Qed.

(** ** Indexing the same files again *)

Section Reruns.
Import FilesystemMCPClient UnityProjectIndexer.

Lemma findFiles_pattern (dirPath : string) (pattern : string -> bool)
    (w w' : World) (files : list string) :
  findFiles dirPath pattern w = (Ok files, w') ->
  Forall (fun file => pattern file = true) files.
Proof.
  unfold findFiles. intros H.
  apply bind_Ok in H as (allowed & w1 & _ & H).
  destruct (negb allowed); [discriminate H |].
  apply bind_Ok in H as (listed & w2 & _ & H).
  injection H as <- _. apply List.Forall_forall. intros file Hin.
  apply filter_In in Hin as [_ Hp]. exact Hp.
Qed.

(** What [getUnityScripts] returns for a file is what [readFile] reads. *)
Lemma readAll_scripts (files : list string) :
  forall (w w' : World) (scripts : list ScriptFile),
    all (fun filePath =>
           content <- readFile filePath ;;
           stats <- getFileStats filePath ;;
           ret (mkScript filePath (NodePath.basename filePath) content
                  (Fs.size stats) (Fs.modified stats)))
      files w = (Ok scripts, w') ->
    map path scripts = files
    /\ Forall (fun script => fst (readFile (path script) w) = Ok (content script))
         scripts.
Proof.
  induction files as [| file rest IH]; intros w w' scripts H; cbn [all] in H.
  - injection H as <- _. split; [reflexivity | constructor].
  - apply bind_Ok in H as (script & w1 & Hs & H).
    apply bind_Ok in H as (scripts' & w2 & Hrest & H).
    injection H as <- _.
    apply bind_Ok in Hs as (text & wa & Hread & Hs).
    apply bind_Ok in Hs as (stats & wb & Hstat & Hs).
    injection Hs as <- <-.
    destruct (reader_readFile file w) as [Ha _]. rewrite Hread in Ha. cbn in Ha.
    subst wa.
    destruct (reader_getFileStats file w) as [Hb _]. rewrite Hstat in Hb. cbn in Hb.
    subst wb.
    destruct (IH _ _ _ Hrest) as [Hpaths Hall].
    split; [cbn; rewrite Hpaths; reflexivity |].
    constructor; [cbn [path content]; rewrite Hread; reflexivity | exact Hall].
Qed.

Lemma getUnityScripts_scripts (dirPath : string) (w : World)
    (scripts : list ScriptFile) :
  fst (getUnityScripts dirPath w) = Ok scripts ->
  Forall (fun script =>
            JS.endsWith (path script) ".cs" = true
            /\ fst (readFile (path script) w) = Ok (content script))
    scripts.
Proof.
  intros H.
  assert (E : getUnityScripts dirPath w = (Ok scripts, w))
    by (rewrite (reader_run _ w (reader_getUnityScripts dirPath)), H; reflexivity).
  unfold getUnityScripts in E.
  apply bind_Ok in E as (files & w1 & Hfind & Hall).
  pose proof (findFiles_pattern _ _ _ _ _ Hfind) as Hcs.
  destruct (reader_findFiles dirPath (fun file => JS.endsWith file ".cs") w) as [Hw _].
  rewrite Hfind in Hw. cbn in Hw. subst w1.
  destruct (readAll_scripts _ _ _ _ Hall) as [Hpaths Hread].
  rewrite <- Hpaths in Hcs. clear - Hcs Hread.
  induction Hread as [| script rest Hr _ IH]; [constructor |].
  inversion Hcs as [| ? ? Hc Hcs']; subst.
  constructor; [split; assumption | exact (IH Hcs')].
Qed.

Lemma scriptLoop_contents (projectInfo : ProjectInfo) (scripts : list ScriptFile) :
  forall (documents : list Document) (indexed errors : nat) (w w' : World)
         (state : list Document * nat * nat),
    scriptLoop projectInfo scripts documents indexed errors w = (Ok state, w') ->
    map docContent (fst (fst state))
    = map docContent documents
      ++ flat_map (fun script => chunkScript (content script) defaultChunkSize) scripts.
Proof.
  induction scripts as [| script rest IH];
    intros documents indexed errors w w' state H; cbn [scriptLoop] in H.
  - injection H as <- _. cbn. rewrite app_nil_r. reflexivity.
  - destruct (chunkDocuments_run projectInfo (NodePath.basename (name script))
                (path script) (parseScript (content script) (path script))
                (Some (modified script))
                (chunkScript (content script) defaultChunkSize) 0 w)
      as (docs & w1 & Hrun & _).
    unfold bind at 1 in H. unfold catch at 1 in H. unfold bind at 1 in H.
    rewrite Hrun in H. unfold ret at 1 in H.
    rewrite (IH _ _ _ _ _ _ H), map_app.
    rewrite (chunkDocuments_contents _ _ _ _ _ _ _ _ _ _ Hrun).
    cbn [flat_map]. rewrite <- List.app_assoc. reflexivity.
Qed.

Lemma upsertAll_storeUp (batch : list VectorRecord) (batches : list (list VectorRecord))
    (w w' : World) :
  forEach PineconeVectorDB.upsert (batch :: batches) w = (Ok tt, w') ->
  storeUp w = true.
Proof.
  cbn [forEach]. unfold bind at 1. unfold PineconeVectorDB.upsert at 1.
  destruct (storeUp w); [reflexivity | discriminate].
Qed.

Lemma embedAll_embeddable (documents : list Document) :
  forall (w w1 : World) (vectors : list VectorRecord),
    all (fun doc =>
           embedding <- PineconeVectorDB.generateEmbedding (docContent doc) ;;
           ret (mkVector (docId doc) embedding (docContent doc) (docMetadata doc)))
      documents w = (Ok vectors, w1) ->
    Forall (fun doc => is_Some (embedContent w (docContent doc))) documents
    /\ length vectors = length documents.
Proof.
  induction documents as [| doc rest IH]; intros w w1 vectors H; cbn [all] in H.
  - injection H as <- _. split; [constructor | reflexivity].
  - apply bind_Ok in H as (v & w2 & Hv & H).
    apply bind_Ok in H as (vs & w3 & Hvs & H).
    injection H as <- _.
    apply bind_Ok in Hv as (e & w4 & He & Hv). injection Hv as _ <-.
    unfold PineconeVectorDB.generateEmbedding in He.
    destruct (embedContent w (docContent doc)) as [embedding |] eqn:Hdoc;
      [| discriminate He].
    injection He as _ <-.
    destruct (IH _ _ _ Hvs) as [Hrest Hlen].
    split; [constructor; [rewrite Hdoc; eexists; reflexivity | exact Hrest] |].
    cbn [length]. rewrite Hlen. reflexivity.
Qed.

(** A batch that was stored could be embedded, and the store answered. *)
Lemma storeBatch_ready (doc : Document) (documents : list Document) (w w' : World) :
  PineconeVectorDB.storeBatch (doc :: documents) w = (Ok tt, w') ->
  Forall (fun d => is_Some (embedContent w (docContent d))) (doc :: documents)
  /\ storeUp w = true.
Proof.
  intros H. unfold PineconeVectorDB.storeBatch in H. rewrite catch_rethrow in H.
  apply bind_Ok in H as (vectors & w1 & Hembed & Hupsert).
  destruct (embedAll_embeddable _ _ _ _ Hembed) as [Hall Hlen].
  destruct (embedAll_run _ _ _ _ Hembed) as [-> _].
  split; [exact Hall |].
  destruct vectors as [| v vectors]; [discriminate Hlen |].
  cbn [length PineconeVectorDB.slices] in Hupsert.
  exact (upsertAll_storeUp _ _ _ _ Hupsert).
Qed.

Lemma storeBatch_succeeds_when (documents : list Document) (w : World) :
  Forall (fun doc => is_Some (embedContent w (docContent doc))) documents ->
  (documents <> [] -> storeUp w = true) ->
  exists w', PineconeVectorDB.storeBatch documents w = (Ok tt, w').
Proof.
  intros He Hup. destruct documents as [| doc documents].
  - eexists. reflexivity.
  - apply storeBatch_succeeds; [exact He | apply Hup; discriminate].
Qed.

Lemma chunks_le_chunkTotal (script : ScriptFile) (scripts : list ScriptFile) :
  In script scripts ->
  length (chunkScript (content script) defaultChunkSize) <= chunkTotal scripts.
Proof.
  unfold chunkTotal. induction scripts as [| s rest IH]; intros Hin; [destruct Hin |].
  cbn [flat_map]. rewrite List.length_app. destruct Hin as [-> | Hin]; [lia |].
  specialize (IH Hin). lia.
Qed.

(** The scripts a run of [indexScripts] that returned has stored can be
    read, chunked, embedded and stored again. *)
Lemma indexScripts_ready (projectPath : string) (projectInfo : ProjectInfo)
    (w w' : World) (c : Counts) (scripts : list ScriptFile) :
  indexScripts projectPath projectInfo w = (Ok c, w') ->
  fst (getUnityScripts (NodePath.join [projectPath; "Assets"; "Scripts"]) w)
  = Ok scripts ->
  Forall (fun script =>
            Forall (fun chunk => is_Some (embedContent w chunk))
              (chunkScript (content script) defaultChunkSize))
    scripts
  /\ (0 < chunkTotal scripts -> storeUp w = true).
Proof.
  unfold indexScripts. intros H Hfound.
  apply bind_Ok in H as (scripts' & w1 & Hs & H).
  rewrite (reader_run _ w (reader_getUnityScripts _)) in Hs.
  injection Hs as Hs <-. rewrite Hfound in Hs. injection Hs as <-.
  destruct (scriptLoop_run projectInfo scripts [] 0 0 w)
    as (new & w2 & Hloop & Hd & Hl & _).
  pose proof (scriptLoop_contents _ _ _ _ _ _ _ _ Hloop) as Hc.
  cbn [fst app map] in Hc.
  unfold bind at 1 in H. rewrite Hloop in H. cbn [app] in H.
  apply bind_Ok in H as ([] & w3 & Hstore & _).
  destruct Hd as ((_ & _ & _ & _ & Ee & Eu & _) & _).
  destruct new as [| doc new].
  - split.
    + apply List.Forall_forall. intros script Hin.
      apply List.Forall_forall. intros chunk Hchunk. exfalso.
      assert (Hall : In chunk (flat_map (fun s => chunkScript (content s) defaultChunkSize)
                                 scripts))
        by (apply in_flat_map; eauto).
      rewrite <- Hc in Hall. exact Hall.
    + intros Hpos. cbn [length] in Hl. lia.
  - cbn [length Nat.ltb Nat.leb] in Hstore.
    destruct (storeBatch_ready _ _ _ _ Hstore) as [Hembed Hup].
    rewrite <- Ee in Hembed. rewrite <- Eu in Hup. split; [| intros _; exact Hup].
    apply List.Forall_forall. intros script Hin.
    apply List.Forall_forall. intros chunk Hchunk.
    assert (Hall : In chunk (flat_map (fun s => chunkScript (content s) defaultChunkSize)
                               scripts))
      by (apply in_flat_map; eauto).
    rewrite <- Hc in Hall. apply in_map_iff in Hall as (d & <- & Hd).
    rewrite List.Forall_forall in Hembed. exact (Hembed d Hd).
Qed.

Lemma indexProject_ready (projectPath : string) (w w' : World) (r : IndexResult)
    (scripts : list ScriptFile) :
  indexProject projectPath w = (Ok r, w') ->
  fst (getUnityScripts (NodePath.join [projectPath; "Assets"; "Scripts"])
         (allowing projectPath w)) = Ok scripts ->
  Forall (fun script =>
            Forall (fun chunk => is_Some (embedContent (allowing projectPath w) chunk))
              (chunkScript (content script) defaultChunkSize))
    scripts
  /\ (0 < chunkTotal scripts -> storeUp (allowing projectPath w) = true).
Proof.
  unfold indexProject. intros H Hfound.
  apply bind_Ok in H as ([] & wa & Ha & H).
  assert (Ewa : wa = allowing projectPath w) by (unfold allowing; rewrite Ha; reflexivity).
  subst wa.
  apply bind_Ok in H as (projectInfo & w0 & Hinfo & H).
  rewrite (reader_run _ _ (reader_getProjectInfo _)) in Hinfo.
  injection Hinfo as _ <-.
  rewrite catch_rethrow in H.
  apply bind_Ok in H as (c1 & w1 & H1 & _).
  exact (indexScripts_ready _ _ _ _ _ _ H1 Hfound).
Qed.

(** An [add] or [change] event for a script that can be read and whose
    chunks can be embedded, with the store answering when there is a chunk
    to store. *)
Lemma onFileEvent_reindex_stores_when (projectPath filePath content : string)
    (event : FileEvent) (w : World) :
  JS.endsWith filePath ".cs" = true ->
  isUnlink event = false ->
  fst (readFile filePath w) = Ok content ->
  Forall (fun chunk => is_Some (embedContent w chunk))
    (chunkScript content defaultChunkSize) ->
  (0 < length (chunkScript content defaultChunkSize) -> storeUp w = true) ->
  exists ids,
    stored w (snd (onFileEvent projectPath None filePath event w)) ids
    /\ length ids = length (chunkScript content defaultChunkSize).
Proof.
  intros Hcs Hev Hread Hembed Hup.
  unfold onFileEvent. rewrite Hcs, Hev. cbn [negb andb].
  unfold catch, bind.
  rewrite (reader_run _ w (reader_readFile filePath)), Hread.
  destruct (getProjectInfo_runs projectPath w) as (info & ->).
  destruct (chunkDocuments_run info (NodePath.basename filePath) filePath
              (parseScript content filePath) None
              (chunkScript content defaultChunkSize) 0 w)
    as (docs & w1 & Hrun & Hd & Hl & Ht).
  rewrite Hrun.
  pose proof (chunkDocuments_contents _ _ _ _ _ _ _ _ _ _ Hrun) as Hc.
  destruct Hd as (He & Hd & Hi & Hlog).
  assert (Hemb : Forall (fun doc => is_Some (embedContent w1 (docContent doc))) docs).
  { destruct He as (_ & _ & _ & _ & <- & _).
    apply List.Forall_forall. intros doc Hin.
    rewrite List.Forall_forall in Hembed. apply Hembed.
    rewrite <- Hc. apply in_map, Hin. }
  assert (Hup1 : docs <> [] -> storeUp w1 = true).
  { destruct He as (_ & _ & _ & _ & _ & <- & _). intros Hne. apply Hup.
    rewrite <- Hl. destruct docs; [contradiction | cbn; lia]. }
  destruct (storeBatch_succeeds_when docs w1 Hemb Hup1) as (w2 & Hstore).
  rewrite Hstore. unfold ret. cbn [snd].
  apply storeBatch_run in Hstore as (He' & Hd' & Hl' & Hi' & Hk').
  exists (map docId docs). split; [| rewrite length_map; exact Hl].
  split; [eapply sameEnv_trans; eassumption |].
  split; [rewrite length_map; lia |].
  split; [exact Ht |].
  split; [rewrite Hl', Hlog; reflexivity |].
  split; [rewrite Hi', Hi; reflexivity |].
  intros id Hid. rewrite Hk', Hi; auto.
Qed.

End Reruns.

(** C8. Two runs of [indexProject] on the same tree, the first from an
    empty index, with tokens of 21 characters that do not repeat. Both
    runs find the same scripts, scenes and prefabs, and each upserts one
    record per chunk of a script and one per scene and per prefab, under an
    id that starts with a token of its own. The ids of the two runs are
    all different; after the first run the index holds exactly its
    records, after the second those of both runs, twice as many, with
    every record of the first run still there: when the project holds
    anything to index, the second run changes the index. The same holds
    for a re-index by the watch callback: after the first run, an [add] or
    [change] event for any script of the project upserts one record per
    chunk of that script under ids that differ from all ids of the run,
    keeps every record, and the index grows by the number of chunks. *)
Theorem indexProject_twice_doubles
    (projectPath : string) (w0 w1 w2 : World)
    (r1 r2 : UnityProjectIndexer.IndexResult) :
  index w0 = ∅ ->
  (forall i, String.length (nanoid w0 i) = 21) ->
  (forall i j, i < drawn w2 -> j < drawn w2 -> nanoid w0 i = nanoid w0 j -> i = j) ->
  UnityProjectIndexer.indexProject projectPath w0 = (Ok r1, w1) ->
  UnityProjectIndexer.indexProject projectPath w1 = (Ok r2, w2) ->
  exists scripts scenes prefabs ids1 ids2,
    found projectPath (allowing projectPath w0) scripts scenes prefabs
    /\ found projectPath (allowing projectPath w1) scripts scenes prefabs
    /\ length ids1 = chunkTotal scripts + length scenes + length prefabs
    /\ length ids2 = length ids1
    /\ storedIds (storeLog w1) = storedIds (storeLog w0) ++ ids1
    /\ storedIds (storeLog w2) = storedIds (storeLog w1) ++ ids2
    /\ tokened (nanoid w0) (drawn w0) (ids1 ++ ids2)
    /\ NoDup (ids1 ++ ids2)
    /\ dom (index w1) = (list_to_set ids1 : gset string)
    /\ dom (index w2) = (list_to_set (ids1 ++ ids2) : gset string)
    /\ (forall id v, index w1 !! id = Some v -> index w2 !! id = Some v)
    /\ size (index w1) = length ids1
    /\ size (index w2) = 2 * length ids1
    /\ (0 < chunkTotal scripts + length scenes + length prefabs ->
        index w2 <> index w1)
    /\ (forall script event,
          In script scripts ->
          FilesystemMCPClient.isUnlink event = false ->
          exists ids3,
            storedIds
              (storeLog
                 (snd (UnityProjectIndexer.onFileEvent projectPath None
                         (FilesystemMCPClient.path script) event w1)))
            = storedIds (storeLog w1) ++ ids3
            /\ length ids3
               = length (UnityProjectIndexer.chunkScript
                           (FilesystemMCPClient.content script)
                           UnityProjectIndexer.defaultChunkSize)
            /\ tokened (nanoid w0) (drawn w1) ids3
            /\ NoDup (ids1 ++ ids3)
            /\ (forall id v,
                  index w1 !! id = Some v ->
                  index
                    (snd (UnityProjectIndexer.onFileEvent projectPath None
                            (FilesystemMCPClient.path script) event w1)) !! id
                  = Some v)
            /\ size
                 (index
                    (snd (UnityProjectIndexer.onFileEvent projectPath None
                            (FilesystemMCPClient.path script) event w1)))
               = size (index w1) + length ids3).
Proof.
  intros Hempty Hlen Hfresh Hrun1 Hrun2.
  pose proof Hrun1 as Hready.
  apply indexProject_run in Hrun1
    as (ids1 & scripts & scenes & prefabs & S1 & F1 & L1 & _).
  apply indexProject_run in Hrun2
    as (ids2 & scripts' & scenes' & prefabs' & S2 & F2 & L2 & _).
  destruct (indexProject_ready _ _ _ _ _ Hready (proj1 F1)) as [Hembed Hup].
  pose proof (getUnityScripts_scripts _ _ _ (proj1 F1)) as Hscripts.
  clear Hready.
  destruct (allowing_fields projectPath w0) as (_ & Ed & En & Ei & El & _).
  pose proof S1 as (He1 & Hd1 & Ht1 & Hl1 & Hi1 & Hk1).
  pose proof (allowing_again projectPath w0 w1 He1) as Eagain.
  rewrite Eagain in S2, F2.
  destruct S2 as (He2 & Hd2 & Ht2 & Hl2 & Hi2 & Hk2).
  rewrite Ed in Hd1. rewrite En, Ed in Ht1. rewrite El in Hl1. rewrite Ei, Hempty in Hi1.
  rewrite dom_empty_L, (left_id_L ∅ (∪)) in Hi1.
  assert (En1 : nanoid w1 = nanoid w0).
  { destruct He1 as (_ & _ & _ & E & _). congruence. }
  rewrite En1, Hd1 in Ht2.
  pose proof (found_sameEnv _ _ _ _ _ _ He1 F1) as G.
  assert (Hsame : length ids2 = length ids1).
  { destruct G as (G1 & G2 & G3). destruct F2 as (G1' & G2' & G3'). congruence. }
  assert (Hall : tokened (nanoid w0) (drawn w0) (ids1 ++ ids2))
    by (apply tokened_app; assumption).
  assert (Hinj : forall i j,
             i < drawn w0 + 2 * length ids1 -> j < drawn w0 + 2 * length ids1 ->
             nanoid w0 i = nanoid w0 j -> i = j).
  { intros i j Hi Hj. apply Hfresh; rewrite Hd2, Hd1; lia. }
  assert (Hnd : NoDup (ids1 ++ ids2)).
  { apply (tokened_NoDup (nanoid w0) 21 (drawn w0)); [exact Hlen | | exact Hall].
    intros i j Hi Hj. apply Hinj; rewrite List.length_app in *; lia. }
  pose proof Hnd as Hnd'. apply NoDup_app in Hnd' as (Hnd1 & Hdisj & Hnd2).
  assert (Hs1 : size (index w1) = length ids1).
  { rewrite <- size_dom, Hi1. apply size_list_to_set, Hnd1. }
  assert (Hs2 : size (index w2) = 2 * length ids1).
  { rewrite <- size_dom, Hi2, size_union.
    - rewrite size_dom, Hs1, size_list_to_set by exact Hnd2. lia.
    - rewrite Hi1. set_solver. }
  exists scripts, scenes, prefabs, ids1, ids2.
  split; [exact F1 |]. split; [rewrite Eagain; exact G |].
  split; [exact L1 |]. split; [exact Hsame |].
  split; [exact Hl1 |]. split; [exact Hl2 |]. split; [exact Hall |].
  split; [exact Hnd |]. split; [exact Hi1 |].
  split; [rewrite Hi2, Hi1; set_solver |].
  split.
  { intros id v Hv. rewrite Hk2; [exact Hv |]. apply Hdisj.
    assert (Hin : id ∈ dom (index w1)) by (apply elem_of_dom; eauto).
    rewrite Hi1 in Hin. set_solver. }
  split; [exact Hs1 |]. split; [exact Hs2 |].
  split; [intros Hpos E; rewrite E in Hs2; lia |].
  intros script event Hin Hev.
  rewrite List.Forall_forall in Hscripts, Hembed.
  destruct (Hscripts script Hin) as [Hcs Hread].
  assert (Hread1 : fst (FilesystemMCPClient.readFile (FilesystemMCPClient.path script) w1)
                   = Ok (FilesystemMCPClient.content script)).
  { destruct (reader_readFile (FilesystemMCPClient.path script)
                (allowing projectPath w0)) as [_ E].
    rewrite (E _ He1). exact Hread. }
  assert (Hembed1 : Forall (fun chunk => is_Some (embedContent w1 chunk))
                      (UnityProjectIndexer.chunkScript
                         (FilesystemMCPClient.content script)
                         UnityProjectIndexer.defaultChunkSize)).
  { destruct He1 as (_ & _ & _ & _ & <- & _). exact (Hembed script Hin). }
  pose proof (chunks_le_chunkTotal script scripts Hin) as Hle.
  assert (Hup1 : 0 < length (UnityProjectIndexer.chunkScript
                               (FilesystemMCPClient.content script)
                               UnityProjectIndexer.defaultChunkSize) ->
                 storeUp w1 = true).
  { destruct He1 as (_ & _ & _ & _ & _ & <- & _). intros Hpos. apply Hup. lia. }
  destruct (onFileEvent_reindex_stores_when projectPath _ _ event w1
              Hcs Hev Hread1 Hembed1 Hup1) as (ids3 & S3 & L3).
  pose proof S3 as (_ & Hd3 & Ht3 & Hl3 & _).
  rewrite En1 in Ht3.
  assert (Hall3 : tokened (nanoid w0) (drawn w0) (ids1 ++ ids3)).
  { apply tokened_app; [exact Ht1 | rewrite <- Hd1; exact Ht3]. }
  assert (Hnd3 : NoDup (ids1 ++ ids3)).
  { apply (tokened_NoDup (nanoid w0) 21 (drawn w0)); [exact Hlen | | exact Hall3].
    intros i j Hi Hj. apply Hinj; rewrite List.length_app in *; lia. }
  pose proof Hnd3 as Hnd3'. apply NoDup_app in Hnd3' as (_ & Hdisj3 & Hnd33).
  destruct (stored_fresh_size w1 _ ids3 S3 Hnd33) as [Hsize Hkeep].
  { intros id Hid. apply not_elem_of_dom. rewrite Hi1. intros Hin1.
    apply elem_of_list_to_set in Hin1. exact (Hdisj3 id Hin1 Hid). }
  exists ids3. split; [exact Hl3 |]. split; [exact L3 |].
  split; [exact Ht3 |]. split; [exact Hnd3 |]. split; [exact Hkeep | exact Hsize].
Qed.

(** ** The allow-list *)

Section AllowList.
Import FilesystemMCPClient.

Lemma prefix_empty (s : string) : String.prefix "" s = true.
Proof. destruct s; reflexivity. Qed.

Lemma prefix_app (x a b : string) :
  String.prefix (x +:+ a) (x +:+ b) = String.prefix a b.
Proof.
  induction x as [| c x IH]; [reflexivity |].
  rewrite !app_cons. cbn [String.prefix].
  destruct (ascii_dec c c); [exact IH | contradiction].
Qed.

Lemma prefix_app_r (x b : string) : String.prefix x (x +:+ b) = true.
Proof.
  induction x as [| c x IH]; [apply prefix_empty |].
  rewrite app_cons. cbn [String.prefix].
  destruct (ascii_dec c c); [exact IH | contradiction].
Qed.

Lemma prefix_refl (x : string) : String.prefix x x = true.
Proof.
  induction x as [| c x IH]; [reflexivity |].
  cbn [String.prefix]. destruct (ascii_dec c c); [exact IH | contradiction].
Qed.

(** Joining more segments gives a longer text with the same start. *)
Lemma join_prefix (sep : string) (l k : list string) :
  String.prefix (JS.join sep l) (JS.join sep (l ++ k)) = true.
Proof.
  induction l as [| x l IH]; [apply prefix_empty |].
  destruct l as [| y l].
  - destruct k; cbn; [apply prefix_refl | apply prefix_app_r].
  - change (String.prefix (x +:+ sep +:+ JS.join sep (y :: l))
              (x +:+ sep +:+ JS.join sep ((y :: l) ++ k)) = true).
    rewrite !prefix_app. exact IH.
Qed.

(** The half of the allow-list check that holds: a path in an allowed
    root, or below it, is not denied. *)
Lemma readFile_under_root_not_denied (w : World) (root filePath : string) :
  In root (allowedPaths w) ->
  NodePath.resolve (cwd w) root = root ->
  underRoot w root filePath ->
  forall p, fst (readFile filePath w) <> Err (AccessDenied p).
Proof.
  intros Hin Hres [k Hk] p.
  assert (Ha : pathAllowedIn w filePath = true).
  { unfold pathAllowedIn. apply existsb_exists. exists root. split; [exact Hin |].
    rewrite <- Hres at 1. unfold JS.startsWith, NodePath.resolve.
    rewrite Hk, (prefix_app "/"). apply join_prefix. }
  unfold readFile, bind, isPathAllowed, gets. rewrite Ha. cbn [negb].
  rewrite catch_rethrow. unfold Fs.readFile.
  destruct (Fs.entryAt w filePath) as [[? [?|] ? ? | ? ?] |]; discriminate.
Qed.

End AllowList.

(** ** The transformer *)

(** The naming patterns of the analyser never start the underscore rewrite:
    their labels spell ["Underscore prefix"] with a capital letter, and the
    transformer looks for ["underscore prefix"]. *)
Lemma applyNaming_analyzeNaming (scripts : list string) (code : string) :
  CodeStyleAnalyzer.applyNaming code
    (List.filter CodeStyleAnalyzer.isNaming (CodeStyleAnalyzer.analyzeNaming scripts))
  = code.
Proof.
  unfold CodeStyleAnalyzer.analyzeNaming.
  repeat match goal with
         | |- context [if ?b then _ else _] => destruct b
         end; reflexivity.
Qed.

(** ** The scenarios *)

Section Scenarios.
Import Scenario.

(** C1. On the tree of scenario B, ten readable scripts and one that
    cannot be read, [indexProject] does not return counts: the failed read
    of the eleventh script is the outcome of the whole call. With that
    script readable the call returns eleven files, all indexed. *)
Theorem indexProject_scenarioB_rejects :
  fst (FilesystemMCPClient.findFiles "/home/dev/game/Assets/Scripts"
         (fun file => JS.endsWith file ".cs") (allowing "/home/dev/game" scenarioB))
  = Ok (map (fun name => "/home/dev/game/Assets/Scripts/" +:+ name)
          ["Enemy.cs"; "Player.cs"; "Door.cs"; "Coin.cs"; "Hud.cs"; "Menu.cs";
           "Boss.cs"; "Pet.cs"; "Shop.cs"; "Save.cs"; "Broken.cs"])
  /\ fst (UnityProjectIndexer.indexProject "/home/dev/game" scenarioB)
     = Err (IOError "/home/dev/game/Assets/Scripts/Broken.cs")
  /\ fst (UnityProjectIndexer.indexProject "/home/dev/game" elevenReadable)
     = Ok (UnityProjectIndexer.mkIndexResult 11 11 0).
Proof. repeat split; vm_compute; reflexivity. Qed.

(** C7. The file [/home/dev/game-keys/secret.txt] is not under the only
    allowed root [/home/dev/game], and [readFile] returns its content: the
    check compares the two paths as texts, and the first starts with the
    second. *)
Theorem readFile_serves_sibling_of_root :
  allowedPaths sandbox = ["/home/dev/game"]
  /\ outsideEveryRoot sandbox "/home/dev/game-keys/secret.txt"
  /\ FilesystemMCPClient.readFile "/home/dev/game-keys/secret.txt" sandbox
     = (Ok "api-key", sandbox).
Proof.
  split; [reflexivity |]. split; [| vm_compute; reflexivity].
  constructor; [| constructor]. intros [k Hk]. vm_compute in Hk. discriminate Hk.
Qed.

(** C4. In [newLineCorpus] both braces stand on the line after the
    parenthesis; the two patterns of the analysis match the same two
    placements, the counts are equal and no brace pattern comes out. In
    [mixedCorpus] two placements of three are new-line ones and the
    pattern that comes out is ["Same-line braces"], with frequency 3. *)
Theorem analyzeFormatting_new_line_majority :
  flat_map (JS.matchAll CodeStyleAnalyzer.newLineBrace) newLineCorpus
  = [")" +:+ nl +:+ "{"; ")" +:+ nl +:+ "{"]
  /\ flat_map (JS.matchAll CodeStyleAnalyzer.sameLineBrace) newLineCorpus
     = [")" +:+ nl +:+ "{"; ")" +:+ nl +:+ "{"]
  /\ CodeStyleAnalyzer.analyzeFormatting newLineCorpus = []
  /\ flat_map (JS.matchAll CodeStyleAnalyzer.newLineBrace) mixedCorpus
     = [")" +:+ nl +:+ "{"; ")" +:+ nl +:+ "{"]
  /\ flat_map (JS.matchAll CodeStyleAnalyzer.sameLineBrace) mixedCorpus
     = [")" +:+ nl +:+ "{"; ")" +:+ nl +:+ "{"; ") {"]
  /\ map (fun p => (CodeStyleAnalyzer.pattern p, CodeStyleAnalyzer.frequency p))
       (CodeStyleAnalyzer.analyzeFormatting mixedCorpus)
     = [("Same-line braces", 3)].
Proof. repeat split; vm_compute; reflexivity. Qed.

(** C9. The profile of the script [private int _hp;] holds the pattern
    ["Underscore prefix for private fields"], the text
    [private int health;] is a declaration the rewrite applies to, and
    [applyStyle] returns the text as it was. *)
Theorem applyStyle_leaves_private_field :
  map CodeStyleAnalyzer.pattern (CodeStyleAnalyzer.patterns underscoreProfile)
  = ["Underscore prefix for private fields"]
  /\ JS.replaceAll CodeStyleAnalyzer.privateField "private int health;"
     = "private int _health;"
  /\ CodeStyleAnalyzer.applyStyle "private int health;" underscoreProfile
     = Ok "private int health;".
Proof. repeat split; vm_compute; reflexivity. Qed.

(** The search theorem at work: the sample store answers with matches
    scored 0.9, 0.8, 0.72, 0.5 and one without a score. *)
Lemma search_default_threshold_and_bands_witness :
  (None ≫= PineconeVectorDB.minScore = None
   /\ embedContent sandbox "enemy movement" = Some [14%Q]
   /\ storeUp sandbox = true)
  /\ exists results w',
      PineconeVectorDB.search "enemy movement" None sandbox = (Ok results, w')
      /\ (forall m s,
             In m matches -> matchScore m = Some s -> (s < 0.7)%Q ->
             ~ In (PineconeVectorDB.toResult m) results)
      /\ (forall r, In r results ->
            (0.7 <= PineconeVectorDB.score r)%Q
            /\ ((0.85 < PineconeVectorDB.score r)%Q ->
                PineconeVectorDB.relevance r = PineconeVectorDB.High)
            /\ ((0.75 < PineconeVectorDB.score r)%Q ->
                (PineconeVectorDB.score r <= 0.85)%Q ->
                PineconeVectorDB.relevance r = PineconeVectorDB.Medium)
            /\ ((PineconeVectorDB.score r <= 0.75)%Q ->
                PineconeVectorDB.relevance r = PineconeVectorDB.Low)).
Proof.
  split; [repeat split |].
  apply (search_default_threshold_and_bands sandbox "enemy movement" None [14%Q]);
    reflexivity.
Defined.

(** Re-indentation of a block of three lines with a width of 4. *)
Lemma reindent_indents_by_nesting_depth_witness :
  (0 < 4)%Z
  /\ exists out,
      CodeStyleAnalyzer.reindent ("if (x) {" +:+ nl +:+ "y();" +:+ nl +:+ "  }") 4 = Ok out
      /\ length (JS.splitChar "010" out)
         = length (JS.splitChar "010" ("if (x) {" +:+ nl +:+ "y();" +:+ nl +:+ "  }"))
      /\ forall i line,
           JS.splitChar "010" ("if (x) {" +:+ nl +:+ "y();" +:+ nl +:+ "  }") !! i
           = Some line ->
           exists outLine,
             JS.splitChar "010" out !! i = Some outLine
             /\ (0 <= nestingDepth
                        (take i (JS.splitChar "010"
                                   ("if (x) {" +:+ nl +:+ "y();" +:+ nl +:+ "  }")))
                        line)%Z
             /\ outLine
                = JS.repeat " "
                    (Z.to_nat
                       (nestingDepth
                          (take i (JS.splitChar "010"
                                     ("if (x) {" +:+ nl +:+ "y();" +:+ nl +:+ "  }")))
                          line
                        * 4))
                  +:+ JS.trim line
             /\ JS.trim outLine = JS.trim line.
Proof.
  split; [lia |].
  apply (reindent_indents_by_nesting_depth
           ("if (x) {" +:+ nl +:+ "y();" +:+ nl +:+ "  }") 4).
  lia.
Defined.

(** The depths of the three lines of that block are 0, 1 and 0. *)
Example nestingDepth_block :
  map (fun i =>
         nestingDepth (take i ["if (x) {"; "y();"; "  }"])
           (default "" (["if (x) {"; "y();"; "  }"] !! i)))
    [0; 1; 2]
  = [0; 1; 0]%Z.
Proof. reflexivity. Qed.

(** [reindent] changes more than the white space at the start of a line:
    of the line [ x  ] it returns [x], without the two spaces at the end,
    so what follows the leading white space is not what it was. *)
Lemma reindent_strips_trailing_space :
  CodeStyleAnalyzer.reindent " x  " 4 = Ok "x"
  /\ JS.trimStart "x" <> JS.trimStart " x  ".
Proof. split; [reflexivity | discriminate]. Qed.

(** The sample tokens have 21 characters, and the first eight differ. *)
Lemma token_length (i : nat) : String.length (token i) = 21.
Proof. reflexivity. Qed.

Lemma token_fresh (i j : nat) : i < 8 -> j < 8 -> token i = token j -> i = j.
Proof.
  intros Hi Hj H. unfold token in H. apply (inj (String.app _)) in H.
  injection H as H. apply (f_equal nat_of_ascii) in H.
  rewrite !nat_ascii_embedding in H by lia. lia.
Qed.

(** Two runs on the project with the scripts [Enemy.cs] and [Player.cs]:
    four records after the first run, eight after the second. *)
Lemma indexProject_twice_doubles_witness :
  (index twoScripts = ∅
   /\ (forall i, String.length (nanoid twoScripts i) = 21)
   /\ (forall i j, i < drawn afterSecondRun -> j < drawn afterSecondRun ->
                   nanoid twoScripts i = nanoid twoScripts j -> i = j)
   /\ UnityProjectIndexer.indexProject "/home/dev/game" twoScripts
      = (Ok (UnityProjectIndexer.mkIndexResult 2 2 0), afterFirstRun)
   /\ UnityProjectIndexer.indexProject "/home/dev/game" afterFirstRun
      = (Ok (UnityProjectIndexer.mkIndexResult 2 2 0), afterSecondRun))
  /\
    exists scripts scenes prefabs ids1 ids2,
      found "/home/dev/game" (allowing "/home/dev/game" twoScripts) scripts scenes prefabs
      /\ found "/home/dev/game" (allowing "/home/dev/game" afterFirstRun) scripts scenes prefabs
      /\ length ids1 = chunkTotal scripts + length scenes + length prefabs
      /\ length ids2 = length ids1
      /\ storedIds (storeLog afterFirstRun) = storedIds (storeLog twoScripts) ++ ids1
      /\ storedIds (storeLog afterSecondRun) = storedIds (storeLog afterFirstRun) ++ ids2
      /\ tokened (nanoid twoScripts) (drawn twoScripts) (ids1 ++ ids2)
      /\ NoDup (ids1 ++ ids2)
      /\ dom (index afterFirstRun) = (list_to_set ids1 : gset string)
      /\ dom (index afterSecondRun) = (list_to_set (ids1 ++ ids2) : gset string)
      /\ (forall id v, index afterFirstRun !! id = Some v -> index afterSecondRun !! id = Some v)
      /\ size (index afterFirstRun) = length ids1
      /\ size (index afterSecondRun) = 2 * length ids1
      /\ (0 < chunkTotal scripts + length scenes + length prefabs ->
          index afterSecondRun <> index afterFirstRun)
      /\ (forall script event,
            In script scripts ->
            FilesystemMCPClient.isUnlink event = false ->
            exists ids3,
              storedIds
                (storeLog
                   (snd (UnityProjectIndexer.onFileEvent "/home/dev/game" None
                           (FilesystemMCPClient.path script) event afterFirstRun)))
              = storedIds (storeLog afterFirstRun) ++ ids3
              /\ length ids3
                 = length (UnityProjectIndexer.chunkScript
                             (FilesystemMCPClient.content script)
                             UnityProjectIndexer.defaultChunkSize)
              /\ tokened (nanoid twoScripts) (drawn afterFirstRun) ids3
              /\ NoDup (ids1 ++ ids3)
              /\ (forall id v,
                    index afterFirstRun !! id = Some v ->
                    index
                      (snd (UnityProjectIndexer.onFileEvent "/home/dev/game" None
                              (FilesystemMCPClient.path script) event afterFirstRun)) !! id
                    = Some v)
              /\ size
                   (index
                      (snd (UnityProjectIndexer.onFileEvent "/home/dev/game" None
                              (FilesystemMCPClient.path script) event afterFirstRun)))
                 = size (index afterFirstRun) + length ids3).
Proof.
  assert (H1 : UnityProjectIndexer.indexProject "/home/dev/game" twoScripts
               = (Ok (UnityProjectIndexer.mkIndexResult 2 2 0), afterFirstRun))
    by (vm_compute; reflexivity).
  assert (H2 : UnityProjectIndexer.indexProject "/home/dev/game" afterFirstRun
               = (Ok (UnityProjectIndexer.mkIndexResult 2 2 0), afterSecondRun))
    by (vm_compute; reflexivity).
  assert (Hd : drawn afterSecondRun = 8) by (vm_compute; reflexivity).
  assert (Hf : forall i j, i < drawn afterSecondRun -> j < drawn afterSecondRun ->
                           nanoid twoScripts i = nanoid twoScripts j -> i = j)
    by (rewrite Hd; exact token_fresh).
  split; [split; [reflexivity |]; split; [exact token_length |]; auto |].
  exact (indexProject_twice_doubles "/home/dev/game" twoScripts afterFirstRun
           afterSecondRun _ _ eq_refl token_length Hf H1 H2).
Defined.

(** In that project the two runs store four records each, two per script,
    and a [change] event for [Enemy.cs] after the first run stores two
    more: the index then holds six. *)
Example indexProject_twice_counts :
  length (UnityProjectIndexer.chunkScript (script "Enemy")
            UnityProjectIndexer.defaultChunkSize) = 2
  /\ size (index twoScripts) = 0
  /\ size (index afterFirstRun) = 4
  /\ size (index afterSecondRun) = 8
  /\ size (index (snd (UnityProjectIndexer.onFileEvent "/home/dev/game" None
                         "/home/dev/game/Assets/Scripts/Enemy.cs"
                         FilesystemMCPClient.Change afterFirstRun))) = 6.
Proof. vm_compute. repeat split; reflexivity. Qed.

End Scenarios.

(** * Further properties *)

(** ** The chunker: what becomes of the text *)

Section ChunkerText.
Import UnityProjectIndexer.

Lemma append_assoc (a b c : string) : (a +:+ b) +:+ c = a +:+ b +:+ c.
Proof.
  induction a as [| x a IH]; [reflexivity |].
  rewrite !app_cons, IH. reflexivity.
Qed.

Lemma append_empty_r (a : string) : a +:+ "" = a.
Proof.
  induction a as [| x a IH]; [reflexivity |]. rewrite app_cons, IH. reflexivity.
Qed.

Lemma squeeze_app (a b : string) : squeeze (a +:+ b) = squeeze a +:+ squeeze b.
Proof.
  induction a as [| x a IH]; [reflexivity |].
  rewrite app_cons. cbn [squeeze]. destruct (JS.isSpace x); [exact IH |].
  rewrite app_cons, IH. reflexivity.
Qed.

Lemma squeeze_trimStart (s : string) : squeeze (JS.trimStart s) = squeeze s.
Proof.
  induction s as [| c s IH]; [reflexivity |].
  cbn [JS.trimStart]. destruct (JS.isSpace c) eqn:E; cbn [squeeze]; rewrite E;
    [exact IH | reflexivity].
Qed.

Lemma squeeze_trimEnd (s : string) : squeeze (JS.trimEnd s) = squeeze s.
Proof.
  induction s as [| c s IH]; [reflexivity |].
  cbn [JS.trimEnd squeeze]. rewrite <- IH.
  destruct (JS.trimEnd s) as [| d t]; cbn [squeeze].
  - destruct (JS.isSpace c) eqn:E; cbn [squeeze]; [| rewrite E]; reflexivity.
  - reflexivity.
Qed.

Lemma squeeze_trim (s : string) : squeeze (JS.trim s) = squeeze s.
Proof. unfold JS.trim. rewrite squeeze_trimEnd. apply squeeze_trimStart. Qed.

Lemma glue_cons (x : string) (l : list string) : glue (x :: l) = x +:+ glue l.
Proof. reflexivity. Qed.

Lemma glue_app (a b : list string) : glue (a ++ b) = glue a +:+ glue b.
Proof.
  induction a as [| x a IH]; [reflexivity |].
  cbn [app]. rewrite !glue_cons, IH, append_assoc. reflexivity.
Qed.

Lemma glue_consFirst (c : ascii) (l : list string) :
  glue (JS.consFirst c l) = String c (glue l).
Proof. destruct l; reflexivity. Qed.

(** Cutting a text in front of the places a look-ahead accepts loses
    nothing. *)
Lemma glue_splitAhead (look : string -> bool) (s : string) :
  glue (JS.splitAhead look s) = s.
Proof.
  assert (H : forall t, glue (JS.piecesAhead look t) = t).
  { induction t as [| c t IH]; [reflexivity |].
    cbn [JS.piecesAhead]. destruct (look (String c t)).
    - rewrite glue_cons, app_empty_l, glue_consFirst, IH. reflexivity.
    - rewrite glue_consFirst, IH. reflexivity. }
  destruct s as [| c s]; [reflexivity |].
  cbn [JS.splitAhead]. rewrite glue_consFirst, H. reflexivity.
Qed.

Lemma glue_snoc (chunks : list string) (x : string) :
  glue (chunks ++ [x]) = glue chunks +:+ x.
Proof. rewrite glue_app, glue_cons. cbn [glue foldr]. rewrite append_empty_r. reflexivity. Qed.

Lemma flush_squeeze (currentChunk : string) (chunks : list string) :
  squeeze (glue (if nonEmpty currentChunk
                 then chunks ++ [JS.trim currentChunk] else chunks))
  = squeeze (glue chunks) +:+ squeeze currentChunk.
Proof.
  destruct currentChunk as [| c t].
  - cbn. rewrite append_empty_r. reflexivity.
  - cbn [nonEmpty String.eqb negb]. rewrite glue_snoc, squeeze_app, squeeze_trim.
    reflexivity.
Qed.

Lemma accumulate_squeeze (maxChunkSize : Z) (methodSections : list string) :
  forall currentChunk chunks,
    squeeze (glue (snd (accumulate maxChunkSize methodSections currentChunk chunks)))
    +:+ squeeze (fst (accumulate maxChunkSize methodSections currentChunk chunks))
    = squeeze (glue chunks) +:+ squeeze currentChunk
      +:+ squeeze (glue methodSections).
Proof.
  induction methodSections as [| method rest IH]; intros currentChunk chunks.
  - cbn. rewrite append_empty_r. reflexivity.
  - cbn [accumulate].
    rewrite glue_cons.
    destruct (textLength (currentChunk +:+ method) <=? maxChunkSize)%Z.
    + rewrite IH, !squeeze_app, !append_assoc. reflexivity.
    + rewrite IH, flush_squeeze, !squeeze_app, !append_assoc. reflexivity.
Qed.

Lemma chunkSection_squeeze (maxChunkSize : Z) (chunks : list string) (section : string) :
  squeeze (glue (chunkSection maxChunkSize chunks section))
  = squeeze (glue chunks) +:+ squeeze section.
Proof.
  unfold chunkSection. destruct (textLength section <=? maxChunkSize)%Z.
  - rewrite glue_snoc, squeeze_app, squeeze_trim. reflexivity.
  - pose proof (accumulate_squeeze maxChunkSize
                  (JS.splitAhead methodStart section) "" chunks) as H.
    destruct (accumulate maxChunkSize (JS.splitAhead methodStart section) "" chunks)
      as [currentChunk chunks'].
    cbn [fst snd] in H. rewrite flush_squeeze, H, glue_splitAhead.
    cbn [squeeze]. rewrite app_empty_l. reflexivity.
Qed.

Lemma chunkSections_squeeze (maxChunkSize : Z) (sections : list string) :
  forall chunks,
    squeeze (glue (foldl (chunkSection maxChunkSize) chunks sections))
    = squeeze (glue chunks) +:+ squeeze (glue sections).
Proof.
  induction sections as [| section rest IH]; intros chunks.
  - cbn. rewrite append_empty_r. reflexivity.
  - cbn [foldl]. rewrite IH, chunkSection_squeeze, glue_cons, squeeze_app, append_assoc.
    reflexivity.
Qed.

Lemma glue_filter_nonempty (l : list string) :
  glue (List.filter (fun chunk => (0 <? String.length chunk)%nat) l) = glue l.
Proof.
  induction l as [| x l IH]; [reflexivity |].
  destruct x as [| c t]; [exact IH |].
  change (List.filter (fun chunk => (0 <? String.length chunk)%nat) (String c t :: l))
    with (String c t :: List.filter (fun chunk => (0 <? String.length chunk)%nat) l).
  rewrite !glue_cons, IH. reflexivity.
Qed.

(** What the loops push is trimmed. *)
Lemma accumulate_trimmed (maxChunkSize : Z) (methodSections : list string) :
  forall currentChunk chunks,
    Forall (fun chunk => JS.trim chunk = chunk) chunks ->
    Forall (fun chunk => JS.trim chunk = chunk)
      (snd (accumulate maxChunkSize methodSections currentChunk chunks)).
Proof.
  induction methodSections as [| method rest IH]; intros currentChunk chunks H;
    [exact H |].
  cbn [accumulate].
  destruct (textLength (currentChunk +:+ method) <=? maxChunkSize)%Z;
    apply IH; [exact H |].
  destruct (nonEmpty currentChunk); [| exact H].
  apply Forall_app. split; [exact H |]. constructor; [apply trim_idem | constructor].
Qed.

Lemma chunkSection_trimmed (maxChunkSize : Z) (chunks : list string) (section : string) :
  Forall (fun chunk => JS.trim chunk = chunk) chunks ->
  Forall (fun chunk => JS.trim chunk = chunk) (chunkSection maxChunkSize chunks section).
Proof.
  intros H. unfold chunkSection.
  destruct (textLength section <=? maxChunkSize)%Z.
  - apply Forall_app. split; [exact H |]. constructor; [apply trim_idem | constructor].
  - pose proof (accumulate_trimmed maxChunkSize
                  (JS.splitAhead methodStart section) "" chunks H) as H'.
    destruct (accumulate maxChunkSize (JS.splitAhead methodStart section) "" chunks)
      as [currentChunk chunks'].
    cbn [snd] in H'. destruct (nonEmpty currentChunk); [| exact H'].
    apply Forall_app. split; [exact H' |]. constructor; [apply trim_idem | constructor].
Qed.

End ChunkerText.

(** X1. Every chunk the chunker emits is a text that is not empty and has
    no white space at either end. *)
Theorem chunkScript_chunks_trimmed (content : string) (maxChunkSize : Z) :
  Forall (fun chunk => chunk <> "" /\ JS.trim chunk = chunk)
    (UnityProjectIndexer.chunkScript content maxChunkSize).
Proof.
  unfold UnityProjectIndexer.chunkScript.
  apply List.Forall_forall. intros chunk Hin. apply filter_In in Hin as [Hin Hlen].
  split; [intros ->; discriminate Hlen |]. clear Hlen.
  revert chunk Hin. apply List.Forall_forall.
  generalize (JS.splitAhead UnityProjectIndexer.classStart content).
  intros sections.
  assert (H : Forall (fun chunk => JS.trim chunk = chunk) (@nil string)) by constructor.
  revert H. generalize (@nil string).
  induction sections as [| section rest IH]; intros chunks H; [exact H |].
  cbn [foldl]. apply IH, chunkSection_trimmed, H.
Qed.

(** X2. The chunks, one after the other, are the text given to the chunker
    up to white space: no other character is lost, added or moved. *)
Theorem chunkScript_keeps_text (content : string) (maxChunkSize : Z) :
  squeeze (glue (UnityProjectIndexer.chunkScript content maxChunkSize))
  = squeeze content.
Proof.
  unfold UnityProjectIndexer.chunkScript.
  rewrite glue_filter_nonempty, chunkSections_squeeze, glue_splitAhead.
  reflexivity.
Qed.

(** ** A run of the indexer, and when its first stage fails *)

(** X3. A run of [indexProject] that returns found some scripts, scenes
    and prefabs in the project as allowed; it counts each of them, reports
    each of them as indexed and none as failed, has upserted one record per
    chunk of a script and one per scene and per prefab, and has drawn one
    token per record. *)
Theorem indexProject_accounts (projectPath : string) (w w' : World)
    (r : UnityProjectIndexer.IndexResult) :
  UnityProjectIndexer.indexProject projectPath w = (Ok r, w') ->
  exists scripts scenes prefabs ids,
    found projectPath (allowing projectPath w) scripts scenes prefabs
    /\ UnityProjectIndexer.totalFiles r
       = length scripts + length scenes + length prefabs
    /\ UnityProjectIndexer.indexedFiles r = UnityProjectIndexer.totalFiles r
    /\ UnityProjectIndexer.errorCount r = 0
    /\ storedIds (storeLog w') = storedIds (storeLog w) ++ ids
    /\ length ids = chunkTotal scripts + length scenes + length prefabs
    /\ drawn w' = drawn w + length ids.
Proof.
  intros H.
  destruct (indexProject_run _ _ _ _ H)
    as (ids & scripts & scenes & prefabs & Hst & Hf & Hlen & ->).
  destruct (allowing_fields projectPath w) as (_ & Hd & _ & _ & Hlog & _).
  destruct Hst as (_ & Hdr & _ & Hids & _).
  rewrite Hlog in Hids. rewrite Hd in Hdr.
  exists scripts, scenes, prefabs, ids. cbn. auto 10.
Qed.

(** The run on the project with the scripts [Enemy.cs] and [Player.cs]. *)
Lemma indexProject_accounts_witness :
  UnityProjectIndexer.indexProject "/home/dev/game" Scenario.twoScripts
  = (Ok (UnityProjectIndexer.mkIndexResult 2 2 0), Scenario.afterFirstRun)
  /\ exists scripts scenes prefabs ids,
      found "/home/dev/game" (allowing "/home/dev/game" Scenario.twoScripts)
        scripts scenes prefabs
      /\ 2 = length scripts + length scenes + length prefabs
      /\ 2 = 2
      /\ 0 = 0
      /\ storedIds (storeLog Scenario.afterFirstRun)
         = storedIds (storeLog Scenario.twoScripts) ++ ids
      /\ length ids = chunkTotal scripts + length scenes + length prefabs
      /\ drawn Scenario.afterFirstRun = drawn Scenario.twoScripts + length ids.
Proof.
  assert (H : UnityProjectIndexer.indexProject "/home/dev/game" Scenario.twoScripts
              = (Ok (UnityProjectIndexer.mkIndexResult 2 2 0), Scenario.afterFirstRun))
    by (vm_compute; reflexivity).
  split; [exact H |].
  exact (indexProject_accounts "/home/dev/game" Scenario.twoScripts
           Scenario.afterFirstRun _ H).
Defined.

(** X4. When the scan of the scripts fails, be it the listing or the
    read of one script, [indexProject] fails with the same error and has
    changed nothing but the allow-list: no token is drawn, no call reaches
    the store, the index is as it was. *)
Theorem indexProject_failed_scan_stores_nothing (projectPath : string) (w : World)
    (e : Error) :
  fst (FilesystemMCPClient.getUnityScripts
         (NodePath.join [projectPath; "Assets"; "Scripts"]) (allowing projectPath w))
  = Err e ->
  UnityProjectIndexer.indexProject projectPath w = (Err e, allowing projectPath w)
  /\ drawn (allowing projectPath w) = drawn w
  /\ storeLog (allowing projectPath w) = storeLog w
  /\ index (allowing projectPath w) = index w.
Proof.
  intros H.
  destruct (allowing_fields projectPath w) as (_ & Hd & _ & Hi & Hlog & _).
  split; [| auto].
  unfold UnityProjectIndexer.indexProject.
  unfold bind at 1.
  change (FilesystemMCPClient.addAllowedPath projectPath w)
    with (Ok tt, allowing projectPath w).
  unfold bind at 1.
  destruct (getProjectInfo_runs projectPath (allowing projectPath w)) as [info ->].
  rewrite catch_rethrow. unfold bind at 1.
  unfold UnityProjectIndexer.indexScripts at 1. unfold bind at 1.
  rewrite (reader_run _ _ (reader_getUnityScripts _)), H. reflexivity.
Qed.

(** Scenario B: the eleventh script cannot be read. *)
Lemma indexProject_failed_scan_stores_nothing_witness :
  fst (FilesystemMCPClient.getUnityScripts
         (NodePath.join ["/home/dev/game"; "Assets"; "Scripts"])
         (allowing "/home/dev/game" Scenario.scenarioB))
  = Err (IOError "/home/dev/game/Assets/Scripts/Broken.cs")
  /\ UnityProjectIndexer.indexProject "/home/dev/game" Scenario.scenarioB
     = (Err (IOError "/home/dev/game/Assets/Scripts/Broken.cs"),
        allowing "/home/dev/game" Scenario.scenarioB)
  /\ drawn (allowing "/home/dev/game" Scenario.scenarioB) = drawn Scenario.scenarioB
  /\ storeLog (allowing "/home/dev/game" Scenario.scenarioB)
     = storeLog Scenario.scenarioB
  /\ index (allowing "/home/dev/game" Scenario.scenarioB) = index Scenario.scenarioB.
Proof.
  assert (H : fst (FilesystemMCPClient.getUnityScripts
                     (NodePath.join ["/home/dev/game"; "Assets"; "Scripts"])
                     (allowing "/home/dev/game" Scenario.scenarioB))
              = Err (IOError "/home/dev/game/Assets/Scripts/Broken.cs"))
    by (vm_compute; reflexivity).
  split; [exact H |].
  exact (indexProject_failed_scan_stores_nothing "/home/dev/game" Scenario.scenarioB _ H).
Defined.

Lemma getProjectInfo_result (projectPath : string) (w : World) :
  UnityProjectIndexer.getProjectInfo projectPath w
  = (Ok (UnityProjectIndexer.mkInfo (NodePath.basename projectPath)
           match fst (FilesystemMCPClient.readProjectSettings projectPath w) with
           | Ok version => version
           | Err _ => "unknown"
           end
           projectPath),
     w).
Proof.
  unfold UnityProjectIndexer.getProjectInfo, catch. unfold bind at 1.
  rewrite (reader_run _ w (reader_readProjectSettings projectPath)).
  destruct (fst (FilesystemMCPClient.readProjectSettings projectPath w));
    reflexivity.
Qed.

(** X5. [getProjectInfo] never fails and changes nothing: the name is the
    last segment of the path as given, the path is the path as given, and
    the version is the one [readProjectSettings] returns, or ["unknown"]
    when that call fails, whatever the failure. *)
Theorem getProjectInfo_falls_back (projectPath : string) (w : World) :
  UnityProjectIndexer.getProjectInfo projectPath w
  = (Ok (UnityProjectIndexer.mkInfo (NodePath.basename projectPath)
           match fst (FilesystemMCPClient.readProjectSettings projectPath w) with
           | Ok version => version
           | Err _ => "unknown"
           end
           projectPath),
     w).
Proof.
  unfold UnityProjectIndexer.getProjectInfo, catch. unfold bind at 1.
  destruct (reader_readProjectSettings projectPath w) as [Hsame _].
  destruct (FilesystemMCPClient.readProjectSettings projectPath w) as [[version | e] w'].
  - cbn [snd] in Hsame. subst w'. reflexivity.
  - cbn [snd] in Hsame. subst w'. reflexivity.
Qed.

(** ** Watching a project *)

Section Watching.
Import FilesystemMCPClient.

(** The path [addAllowedPath] was given is allowed afterwards. *)
Lemma allowing_allows (projectPath : string) (w : World) :
  pathAllowedIn (allowing projectPath w) projectPath = true.
Proof.
  destruct (allowing_fields projectPath w) as (Hcwd & _ & _ & _ & _ & Hin).
  unfold pathAllowedIn. rewrite Hcwd.
  apply existsb_exists in Hin as (root & Hroot & Heq).
  apply String.eqb_eq in Heq. subst root.
  apply existsb_exists. eexists. split; [exact Hroot |]. apply prefix_refl.
Qed.

Lemma allowing_watchers (projectPath : string) (w : World) :
  watchers (allowing projectPath w) = watchers w
  /\ clock (allowing projectPath w) = clock w.
Proof.
  unfold allowing, addAllowedPath, modify. cbn [snd].
  destruct (existsb _ _); split; reflexivity.
Qed.

Lemma filter_others_fresh (watcherId : string) (ws : list (string * string)) :
  ~ In watcherId (map fst ws) ->
  List.filter (fun e => negb (String.eqb (fst e) watcherId)) ws = ws.
Proof.
  induction ws as [| e ws IH]; intros H; [reflexivity |].
  cbn [List.filter]. destruct (String.eqb_spec (fst e) watcherId) as [Heq | Hne].
  - exfalso. apply H. left. exact Heq.
  - cbn [negb]. rewrite IH; [reflexivity |]. intros Hin. apply H. right. exact Hin.
Qed.

Lemma filter_others_gone (watcherId : string) (ws : list (string * string)) :
  ~ In watcherId
      (map fst (List.filter (fun e => negb (String.eqb (fst e) watcherId)) ws)).
Proof.
  intros H. apply in_map_iff in H as (e & Heq & Hin).
  apply filter_In in Hin as (_ & Hne).
  rewrite <- Heq, String.eqb_refl in Hne. discriminate Hne.
Qed.

(** What a loop of [stopWatching] leaves of the watchers. *)
Lemma forEach_stopWatching (watcherIds : list string) :
  forall w,
    fst (forEach stopWatching watcherIds w) = Ok tt
    /\ watchers (snd (forEach stopWatching watcherIds w))
       = List.filter (fun e => negb (existsb (String.eqb (fst e)) watcherIds))
           (watchers w)
    /\ allowedPaths (snd (forEach stopWatching watcherIds w)) = allowedPaths w
    /\ storeLog (snd (forEach stopWatching watcherIds w)) = storeLog w
    /\ index (snd (forEach stopWatching watcherIds w)) = index w.
Proof.
  induction watcherIds as [| watcherId rest IH]; intros w.
  - cbn. repeat split; try reflexivity.
    induction (watchers w) as [| e ws IHws]; [reflexivity |].
    cbn. rewrite <- IHws. reflexivity.
  - change (forEach stopWatching (watcherId :: rest) w)
      with (forEach stopWatching rest
              (withWatchers
                 (List.filter (fun e => negb (String.eqb (fst e) watcherId))
                    (watchers w)) w)).
    destruct (IH (withWatchers
                    (List.filter (fun e => negb (String.eqb (fst e) watcherId))
                       (watchers w)) w)) as (H1 & H2 & H3 & H4 & H5).
    rewrite H1, H2, H3, H4, H5. cbn [watchers allowedPaths storeLog index withWatchers].
    repeat split; try reflexivity.
    clear. induction (watchers w) as [| e ws IHws]; [reflexivity |].
    cbn [List.filter existsb].
    destruct (String.eqb (fst e) watcherId); cbn [negb orb List.filter].
    + exact IHws.
    + destruct (existsb (String.eqb (fst e)) rest); cbn [negb]; rewrite IHws;
        reflexivity.
Qed.

End Watching.

(** X6. [watchProject] never fails, whatever the path: the directory is
    allowed by the time it is checked. The call returns the id built from
    the clock, the directory is watched under that id afterwards, and the
    watchers with other ids are still there. *)
Theorem watchProject_registers (projectPath : string) (w : World) :
  let watcherId := "watcher-" +:+ JS.ofNat (Z.to_nat (clock w)) in
  exists w',
    UnityProjectIndexer.watchProject projectPath w = (Ok watcherId, w')
    /\ In (watcherId, projectPath) (watchers w')
    /\ Forall (fun e => fst e = watcherId \/ In e (watchers w')) (watchers w)
    /\ FilesystemMCPClient.pathAllowedIn w' projectPath = true.
Proof.
  intros watcherId.
  unfold UnityProjectIndexer.watchProject. unfold bind at 1.
  change (FilesystemMCPClient.addAllowedPath projectPath w)
    with (Ok tt, allowing projectPath w).
  cbv beta iota.
  unfold FilesystemMCPClient.watchDirectory. unfold bind at 1.
  unfold FilesystemMCPClient.isPathAllowed, gets at 1.
  rewrite allowing_allows. cbn [negb].
  unfold bind, gets, modify, ret.
  destruct (allowing_watchers projectPath w) as [Hw Hc].
  rewrite Hc. fold watcherId.
  eexists. split; [reflexivity |].
  cbn [watchers withWatchers]. rewrite Hw.
  split; [left; reflexivity |]. split.
  - apply List.Forall_forall. intros e He.
    destruct (String.eqb_spec (fst e) watcherId) as [Heq | Hne]; [left; exact Heq |].
    right. right. apply filter_In. split; [exact He |].
    apply String.eqb_neq in Hne. rewrite Hne. reflexivity.
  - exact (allowing_allows projectPath w).
Qed.

(** X7. Stopping the watcher that [watchProject] has just started, when
    its id was not in use before, leaves the watchers as they were before
    the watch; and stopping under an id that is not in use changes none of
    them. *)
Theorem watchProject_then_stopWatching (projectPath : string) (w : World) :
  let watcherId := "watcher-" +:+ JS.ofNat (Z.to_nat (clock w)) in
  ~ In watcherId (map fst (watchers w)) ->
  watchers
    (snd (UnityProjectIndexer.stopWatching watcherId
            (snd (UnityProjectIndexer.watchProject projectPath w))))
  = watchers w
  /\ watchers (snd (UnityProjectIndexer.stopWatching watcherId w)) = watchers w.
Proof.
  intros watcherId Hfresh.
  unfold UnityProjectIndexer.stopWatching, FilesystemMCPClient.stopWatching, modify.
  cbn [snd watchers withWatchers].
  split; [| exact (filter_others_fresh watcherId (watchers w) Hfresh)].
  unfold UnityProjectIndexer.watchProject. unfold bind at 1.
  change (FilesystemMCPClient.addAllowedPath projectPath w)
    with (Ok tt, allowing projectPath w).
  cbv beta iota.
  unfold FilesystemMCPClient.watchDirectory. unfold bind at 1.
  unfold FilesystemMCPClient.isPathAllowed, gets at 1.
  rewrite allowing_allows. cbn [negb].
  unfold bind, gets, modify, ret.
  destruct (allowing_watchers projectPath w) as [Hw Hc].
  rewrite Hc. fold watcherId.
  cbn [snd watchers withWatchers List.filter]. rewrite Hw.
  rewrite String.eqb_refl. cbn [negb].
  rewrite !(filter_others_fresh watcherId (watchers w) Hfresh). reflexivity.
Qed.

(** In the sandbox nothing is watched. *)
Lemma watchProject_then_stopWatching_witness :
  ~ In ("watcher-" +:+ JS.ofNat (Z.to_nat (clock Scenario.sandbox)))
      (map fst (watchers Scenario.sandbox))
  /\ watchers
       (snd (UnityProjectIndexer.stopWatching
               ("watcher-" +:+ JS.ofNat (Z.to_nat (clock Scenario.sandbox)))
               (snd (UnityProjectIndexer.watchProject "/home/dev/game"
                       Scenario.sandbox))))
     = watchers Scenario.sandbox
  /\ watchers
       (snd (UnityProjectIndexer.stopWatching
               ("watcher-" +:+ JS.ofNat (Z.to_nat (clock Scenario.sandbox)))
               Scenario.sandbox))
     = watchers Scenario.sandbox.
Proof.
  assert (H : ~ In ("watcher-" +:+ JS.ofNat (Z.to_nat (clock Scenario.sandbox)))
                (map fst (watchers Scenario.sandbox)))
    by (intros []).
  split; [exact H |].
  exact (watchProject_then_stopWatching "/home/dev/game" Scenario.sandbox H).
Defined.

(** X8. [cleanup] never fails and leaves no watcher; the allow-list, the
    index and the record of the calls to the store are as before. *)
Theorem cleanup_stops_every_watcher (w : World) :
  fst (FilesystemMCPClient.cleanup w) = Ok tt
  /\ watchers (snd (FilesystemMCPClient.cleanup w)) = []
  /\ allowedPaths (snd (FilesystemMCPClient.cleanup w)) = allowedPaths w
  /\ storeLog (snd (FilesystemMCPClient.cleanup w)) = storeLog w
  /\ index (snd (FilesystemMCPClient.cleanup w)) = index w.
Proof.
  unfold FilesystemMCPClient.cleanup, bind, gets.
  destruct (forEach_stopWatching (map fst (watchers w)) w) as (H1 & H2 & H3 & H4 & H5).
  repeat split; try assumption.
  rewrite H2. clear.
  assert (Hall : forall e, In e (watchers w) ->
                   existsb (String.eqb (fst e)) (map fst (watchers w)) = true).
  { intros e He. apply existsb_exists. exists (fst e). split.
    - apply in_map. exact He.
    - apply String.eqb_refl. }
  revert Hall. generalize (map fst (watchers w)). intros ids Hall.
  induction (watchers w) as [| e ws IH]; [reflexivity |].
  cbn [List.filter]. rewrite (Hall e (or_introl eq_refl)). cbn [negb].
  apply IH. intros e' He'. apply Hall. right. exact He'.
Qed.

(** ** The callback of a watch *)

(** The callback returns normally, whatever happens inside. *)
Lemma onFileEvent_returns (projectPath : string) (onChange : option (string -> M unit))
    (filePath : string) (event : FilesystemMCPClient.FileEvent) (w : World) :
  fst (UnityProjectIndexer.onFileEvent projectPath onChange filePath event w) = Ok tt.
Proof.
  unfold UnityProjectIndexer.onFileEvent.
  destruct (JS.endsWith filePath ".cs" && negb (FilesystemMCPClient.isUnlink event)).
  - unfold catch.
    match goal with |- fst (match ?m with _ => _ end) = _ => destruct m as [[[] | e] w'] end;
      reflexivity.
  - destruct (FilesystemMCPClient.isUnlink event); reflexivity.
Qed.

(** X9. An [add] or [change] event for a script that can be read and
    whose chunks can be embedded, with the store answering: the callback
    returns normally, has drawn one token and upserted one record per chunk
    of the file, and every record that was in the index under another id
    is still there; the records of an earlier state of the file are not
    removed. *)
Theorem onFileEvent_reindex_adds_records (projectPath filePath content : string)
    (event : FilesystemMCPClient.FileEvent) (w : World) :
  JS.endsWith filePath ".cs" = true ->
  FilesystemMCPClient.isUnlink event = false ->
  fst (FilesystemMCPClient.readFile filePath w) = Ok content ->
  Forall (fun chunk => is_Some (embedContent w chunk))
    (UnityProjectIndexer.chunkScript content UnityProjectIndexer.defaultChunkSize) ->
  storeUp w = true ->
  fst (UnityProjectIndexer.onFileEvent projectPath None filePath event w) = Ok tt
  /\ exists ids,
      length ids
      = length (UnityProjectIndexer.chunkScript content
                  UnityProjectIndexer.defaultChunkSize)
      /\ storedIds
           (storeLog (snd (UnityProjectIndexer.onFileEvent projectPath None filePath
                             event w)))
         = storedIds (storeLog w) ++ ids
      /\ drawn (snd (UnityProjectIndexer.onFileEvent projectPath None filePath event w))
         = drawn w + length ids
      /\ (forall id v,
            id ∉ ids -> index w !! id = Some v ->
            index (snd (UnityProjectIndexer.onFileEvent projectPath None filePath
                          event w)) !! id = Some v).
Proof.
  intros Hcs Hev Hread Hembed Hup.
  split; [apply onFileEvent_returns |].
  destruct (onFileEvent_reindex_stores projectPath filePath content event w
              Hcs Hev Hread Hembed Hup) as (ids & Hst & Hlen).
  destruct Hst as (_ & Hdr & _ & Hids & _ & Hkeep).
  exists ids. repeat split; try assumption.
  intros id v Hid Hv. rewrite (Hkeep id Hid). exact Hv.
Qed.

(** A change of [Enemy.cs] in the sandbox. *)
Lemma onFileEvent_reindex_adds_records_witness :
  (JS.endsWith "/home/dev/game/Assets/Scripts/Enemy.cs" ".cs" = true
   /\ FilesystemMCPClient.isUnlink FilesystemMCPClient.Change = false
   /\ fst (FilesystemMCPClient.readFile "/home/dev/game/Assets/Scripts/Enemy.cs"
             Scenario.sandbox)
      = Ok (Scenario.script "Enemy")
   /\ Forall (fun chunk => is_Some (embedContent Scenario.sandbox chunk))
        (UnityProjectIndexer.chunkScript (Scenario.script "Enemy")
           UnityProjectIndexer.defaultChunkSize)
   /\ storeUp Scenario.sandbox = true)
  /\ fst (UnityProjectIndexer.onFileEvent "/home/dev/game" None
            "/home/dev/game/Assets/Scripts/Enemy.cs" FilesystemMCPClient.Change
            Scenario.sandbox) = Ok tt
  /\ exists ids,
      length ids
      = length (UnityProjectIndexer.chunkScript (Scenario.script "Enemy")
                  UnityProjectIndexer.defaultChunkSize)
      /\ storedIds
           (storeLog (snd (UnityProjectIndexer.onFileEvent "/home/dev/game" None
                             "/home/dev/game/Assets/Scripts/Enemy.cs"
                             FilesystemMCPClient.Change Scenario.sandbox)))
         = storedIds (storeLog Scenario.sandbox) ++ ids
      /\ drawn (snd (UnityProjectIndexer.onFileEvent "/home/dev/game" None
                       "/home/dev/game/Assets/Scripts/Enemy.cs"
                       FilesystemMCPClient.Change Scenario.sandbox))
         = drawn Scenario.sandbox + length ids
      /\ (forall id v,
            id ∉ ids -> index Scenario.sandbox !! id = Some v ->
            index (snd (UnityProjectIndexer.onFileEvent "/home/dev/game" None
                          "/home/dev/game/Assets/Scripts/Enemy.cs"
                          FilesystemMCPClient.Change Scenario.sandbox)) !! id
            = Some v).
Proof.
  assert (Hread : fst (FilesystemMCPClient.readFile
                         "/home/dev/game/Assets/Scripts/Enemy.cs" Scenario.sandbox)
                  = Ok (Scenario.script "Enemy")) by (vm_compute; reflexivity).
  assert (Hembed : Forall (fun chunk => is_Some (embedContent Scenario.sandbox chunk))
                     (UnityProjectIndexer.chunkScript (Scenario.script "Enemy")
                        UnityProjectIndexer.defaultChunkSize))
    by (apply List.Forall_forall; intros chunk _; eexists; reflexivity).
  split.
  - split; [reflexivity |]. split; [reflexivity |]. split; [exact Hread |].
    split; [exact Hembed | reflexivity].
  - exact (onFileEvent_reindex_adds_records "/home/dev/game"
             "/home/dev/game/Assets/Scripts/Enemy.cs" (Scenario.script "Enemy")
             FilesystemMCPClient.Change Scenario.sandbox
             eq_refl eq_refl Hread Hembed eq_refl).
Defined.

(** X10. The callback contains every failure: it returns normally for
    every file, event and notification callback, whatever the state of the
    disk, of the embedding provider and of the store. For a file that is
    no script, for an [unlink] event, and for a script that cannot be read
    or is not allowed, it also leaves everything as it was. *)
Theorem onFileEvent_contains_failures (projectPath : string)
    (onChange : option (string -> M unit)) (filePath : string)
    (event : FilesystemMCPClient.FileEvent) (w : World) :
  fst (UnityProjectIndexer.onFileEvent projectPath onChange filePath event w) = Ok tt
  /\ (JS.endsWith filePath ".cs" = false
      \/ FilesystemMCPClient.isUnlink event = true
      \/ (exists e, fst (FilesystemMCPClient.readFile filePath w) = Err e) ->
      snd (UnityProjectIndexer.onFileEvent projectPath onChange filePath event w) = w).
Proof.
  split; [apply onFileEvent_returns |].
  unfold UnityProjectIndexer.onFileEvent.
  intros [Hcs | [Hev | [e He]]].
  - rewrite Hcs. cbn [andb]. destruct (FilesystemMCPClient.isUnlink event); reflexivity.
  - rewrite Hev. cbn [negb]. rewrite andb_false_r. reflexivity.
  - destruct (JS.endsWith filePath ".cs" && negb (FilesystemMCPClient.isUnlink event)).
    + unfold catch. unfold bind at 1.
      rewrite (reader_run _ w (reader_readFile filePath)), He. reflexivity.
    + destruct (FilesystemMCPClient.isUnlink event); reflexivity.
Qed.

(** ** The indexing route *)

(** X11. [POST] always answers: every failure of the indexer becomes a
    response. Without a project path it answers that the project path is
    required and does nothing, whatever the action: also for a
    [stop-watch] request that names its watcher, which stays as it is. *)
Theorem POST_requires_projectPath (body : Route.Body) (w : World) :
  (exists response, fst (Route.POST body w) = Ok response)
  /\ (Route.given (Route.projectPath body) = None ->
      Route.POST body w = (Ok (Route.Failed Route.ProjectPathRequired), w)).
Proof.
  split.
  - unfold Route.POST, catch.
    match goal with
    | |- exists _, fst (match ?m with _ => _ end) = _ =>
        destruct m as [[response | e] w']
    end; eexists; reflexivity.
  - intros H. unfold Route.POST, catch. cbv zeta. rewrite H. reflexivity.
Qed.

(** The request [{ watcherId, action: "stop-watch" }]. *)
Lemma POST_requires_projectPath_witness :
  (exists response,
      fst (Route.POST
             (Route.mkBody None (Some "stop-watch") (Some "watcher-1700000000000"))
             Scenario.sandbox) = Ok response)
  /\ (Route.given
        (Route.projectPath
           (Route.mkBody None (Some "stop-watch") (Some "watcher-1700000000000")))
      = None ->
      Route.POST (Route.mkBody None (Some "stop-watch") (Some "watcher-1700000000000"))
        Scenario.sandbox
      = (Ok (Route.Failed Route.ProjectPathRequired), Scenario.sandbox)).
Proof.
  exact (POST_requires_projectPath
           (Route.mkBody None (Some "stop-watch") (Some "watcher-1700000000000"))
           Scenario.sandbox).
Defined.

(** X12. A response of [POST] that carries counts reports no error and
    every file as indexed, and belongs to a request with a project path
    and the action [index], given or by default. *)
Theorem POST_reports_every_file_indexed (body : Route.Body) (w : World)
    (totalFiles indexed errors : nat) (projectPath : string) :
  fst (Route.POST body w) = Ok (Route.Indexed totalFiles indexed errors projectPath) ->
  errors = 0 /\ indexed = totalFiles
  /\ Route.given (Route.projectPath body) = Some projectPath
  /\ default "index" (Route.action body) = "index".
Proof.
  unfold Route.POST, catch. cbv zeta.
  destruct (Route.given (Route.projectPath body)) as [p |]; [| cbn; discriminate].
  destruct (String.eqb_spec (default "index" (Route.action body)) "index") as [Ha | _].
  - unfold bind.
    destruct (UnityProjectIndexer.indexProject p w) as [[r | err] w1] eqn:Hrun;
      cbn; [| discriminate].
    intros [= <- <- <- <-].
    destruct (indexProject_reports_no_error _ _ _ _ Hrun) as [He Hi]. auto.
  - destruct (String.eqb (default "index" (Route.action body)) "watch").
    + unfold bind.
      destruct (UnityProjectIndexer.watchProject p w) as [[id | err] w1];
        cbn; discriminate.
    + destruct (String.eqb (default "index" (Route.action body)) "stop-watch");
        [| cbn; discriminate].
      destruct (Route.given (Route.watcherId body)) as [id |]; [| cbn; discriminate].
      unfold bind.
      destruct (UnityProjectIndexer.stopWatching id w) as [[[] | err] w1];
        cbn; discriminate.
Qed.

(** The request [{ projectPath: "/home/dev/game" }] for the project with
    two scripts. *)
Lemma POST_reports_every_file_indexed_witness :
  fst (Route.POST (Route.mkBody (Some "/home/dev/game") None None) Scenario.twoScripts)
  = Ok (Route.Indexed 2 2 0 "/home/dev/game")
  /\ 0 = 0 /\ 2 = 2
  /\ Route.given (Route.projectPath (Route.mkBody (Some "/home/dev/game") None None))
     = Some "/home/dev/game"
  /\ default "index" (Route.action (Route.mkBody (Some "/home/dev/game") None None))
     = "index".
Proof.
  assert (H : fst (Route.POST (Route.mkBody (Some "/home/dev/game") None None)
                     Scenario.twoScripts)
              = Ok (Route.Indexed 2 2 0 "/home/dev/game")) by (vm_compute; reflexivity).
  split; [exact H |].
  exact (POST_reports_every_file_indexed _ _ _ _ _ _ H).
Defined.

(** ** Storing documents *)

Section Batches.
Import PineconeVectorDB.

Lemma slices_bounds {A} (fuel : nat) :
  forall vectors : list A,
    Forall (fun batch => 0 < length batch <= batchSize) (slices fuel vectors).
Proof.
  induction fuel as [| f IH]; intros vectors; [constructor |].
  destruct vectors as [| v rest]; [constructor |].
  cbn [slices]. constructor; [| apply IH].
  rewrite length_take. unfold batchSize. cbn [length]. split.
  - apply Nat.min_glb_lt; lia.
  - apply Nat.le_min_l.
Qed.

Lemma slices_length {A} (fuel : nat) :
  forall vectors : list A,
    length vectors <= fuel ->
    length (slices fuel vectors) = (length vectors + 99) / 100.
Proof.
  induction fuel as [| f IH]; intros vectors Hlen.
  - destruct vectors; [reflexivity | cbn in Hlen; lia].
  - destruct vectors as [| v rest]; [reflexivity |].
    cbn [slices length]. rewrite IH
      by (rewrite length_drop; unfold batchSize; cbn [length] in *; lia).
    rewrite length_drop. unfold batchSize. cbn [length].
    destruct (le_lt_dec 100 (S (length rest))) as [Hge | Hlt].
    + replace (S (length rest) + 99) with (S (length rest) - 100 + 99 + 1 * 100) by lia.
      rewrite Nat.div_add by lia. lia.
    + replace (S (length rest) - 100 + 99) with 99 by lia.
      change (99 / 100) with 0.
      apply (Nat.div_unique _ _ 1 (length rest)); lia.
Qed.

Lemma embedAll_records (documents : list Document) :
  forall (w w1 : World) (vectors : list VectorRecord),
    all (fun doc =>
           embedding <- generateEmbedding (docContent doc) ;;
           ret (mkVector (docId doc) embedding (docContent doc) (docMetadata doc)))
      documents w = (Ok vectors, w1) ->
    Forall2 (recordOf w) documents vectors.
Proof.
  induction documents as [| doc rest IH]; intros w w1 vectors H.
  - cbn in H. injection H as <- _. constructor.
  - cbn [all] in H. unfold bind at 1 in H. unfold bind at 1 in H.
    unfold generateEmbedding at 1 in H.
    destruct (embedContent w (docContent doc)) as [embedding |] eqn:He;
      [| discriminate H].
    cbn in H. unfold bind at 1 in H.
    match type of H with
    | context [all ?f rest w] => destruct (all f rest w) as [[vs | e] w2] eqn:Hrest
    end; [| discriminate H].
    cbn in H. injection H as <- _.
    constructor; [| exact (IH _ _ _ Hrest)].
    repeat split; try reflexivity. exact He.
Qed.

Lemma embedAll_fails (documents : list Document) (w : World) :
  Exists (fun doc => embedContent w (docContent doc) = None) documents ->
  all (fun doc =>
         embedding <- generateEmbedding (docContent doc) ;;
         ret (mkVector (docId doc) embedding (docContent doc) (docMetadata doc)))
    documents w = (Err EmbeddingFailed, w).
Proof.
  induction documents as [| doc rest IH]; intros H; [inversion H |].
  cbn [all]. unfold bind at 1. unfold bind at 1. unfold generateEmbedding at 1.
  destruct (embedContent w (docContent doc)) as [embedding |] eqn:He; [| reflexivity].
  cbn. unfold bind at 1. rewrite IH; [reflexivity |].
  inversion H as [? ? Hd | ? ? Hr]; subst; [congruence | exact Hr].
Qed.

End Batches.

(** X13. A call of [storeBatch] that returns has made one upsert per
    batch and nothing else at the store; the batches hold between 1 and
    100 records, there are as many of them as 100 goes into the number of
    documents, rounded up, and their records, in the order of the calls,
    are the documents in their order, each with the embedding of its
    content. *)
Theorem storeBatch_batches (documents : list Document) (w w' : World) :
  PineconeVectorDB.storeBatch documents w = (Ok tt, w') ->
  exists batches,
    storeLog w' = storeLog w ++ map Upsert batches
    /\ Forall (fun batch => 0 < length batch <= 100) batches
    /\ length batches = (length documents + 99) / 100
    /\ Forall2 (recordOf w) documents (concat batches).
Proof.
  intros H. unfold PineconeVectorDB.storeBatch in H. rewrite catch_rethrow in H.
  apply bind_Ok in H as (vectors & w1 & Hembed & Hupsert).
  pose proof (embedAll_records _ _ _ _ Hembed) as Hrec.
  destruct (embedAll_run _ _ _ _ Hembed) as [-> _].
  destruct (upsertAll_run _ _ _ Hupsert) as (_ & _ & Hlog & _).
  exists (PineconeVectorDB.slices (length vectors) vectors).
  split; [exact Hlog |]. split; [apply slices_bounds |]. split.
  - rewrite slices_length by lia. rewrite (Forall2_length _ _ _ Hrec). reflexivity.
  - rewrite concat_slices by lia. exact Hrec.
Qed.

(** 250 documents go to the store in three batches. *)
Lemma storeBatch_batches_witness :
  PineconeVectorDB.storeBatch (Samples.documents 250) Scenario.sandbox
  = (Ok tt, snd (PineconeVectorDB.storeBatch (Samples.documents 250) Scenario.sandbox))
  /\ exists batches,
      storeLog (snd (PineconeVectorDB.storeBatch (Samples.documents 250)
                       Scenario.sandbox))
      = storeLog Scenario.sandbox ++ map Upsert batches
      /\ Forall (fun batch => 0 < length batch <= 100) batches
      /\ length batches = (length (Samples.documents 250) + 99) / 100
      /\ Forall2 (recordOf Scenario.sandbox) (Samples.documents 250) (concat batches).
Proof.
  assert (H : PineconeVectorDB.storeBatch (Samples.documents 250) Scenario.sandbox
              = (Ok tt,
                 snd (PineconeVectorDB.storeBatch (Samples.documents 250)
                        Scenario.sandbox))).
  { destruct (storeBatch_succeeds (Samples.documents 250) Scenario.sandbox) as [w' Hw'].
    - apply List.Forall_forall. intros doc _. eexists. reflexivity.
    - reflexivity.
    - rewrite Hw'. reflexivity. }
  split; [exact H |].
  exact (storeBatch_batches (Samples.documents 250) Scenario.sandbox _ H).
Defined.

(** X14. When the embedding of one document of a batch fails,
    [storeBatch] fails before any call to the store: no record of the
    batch is stored, also none of the documents that could be embedded. *)
Theorem storeBatch_embedding_failure (documents : list Document) (w : World) :
  Exists (fun doc => embedContent w (docContent doc) = None) documents ->
  PineconeVectorDB.storeBatch documents w = (Err EmbeddingFailed, w).
Proof.
  intros H. unfold PineconeVectorDB.storeBatch. rewrite catch_rethrow.
  unfold bind at 1. rewrite (embedAll_fails documents w H). reflexivity.
Qed.

(** Two documents, the second with an empty content, which the provider
    of [Samples.strict] rejects. *)
Lemma storeBatch_embedding_failure_witness :
  Exists (fun doc => embedContent Samples.strict (docContent doc) = None)
    [Samples.document 0; mkDocument "doc-1" "" Samples.metadata]
  /\ PineconeVectorDB.storeBatch
       [Samples.document 0; mkDocument "doc-1" "" Samples.metadata] Samples.strict
     = (Err EmbeddingFailed, Samples.strict).
Proof.
  assert (H : Exists (fun doc => embedContent Samples.strict (docContent doc) = None)
                [Samples.document 0; mkDocument "doc-1" "" Samples.metadata])
    by (right; left; reflexivity).
  split; [exact H |].
  exact (storeBatch_embedding_failure _ Samples.strict H).
Defined.

(** X15. Storing one document with [storeDocument] is storing the batch
    of that one document: the same outcome and the same world, whether the
    embedding or the store fails or not. *)
Theorem storeDocument_is_storeBatch_of_one (document : Document) (w : World) :
  PineconeVectorDB.storeDocument document w = PineconeVectorDB.storeBatch [document] w.
Proof.
  unfold PineconeVectorDB.storeDocument, PineconeVectorDB.storeBatch.
  rewrite !catch_rethrow.
  cbv [all bind ret PineconeVectorDB.generateEmbedding].
  destruct (embedContent w (docContent document)) as [embedding |]; [| reflexivity].
  set (v := mkVector (docId document) embedding (docContent document)
              (docMetadata document)).
  change (PineconeVectorDB.slices (length [v]) [v]) with [[v]].
  cbv [forEach bind ret PineconeVectorDB.upsert].
  destruct (storeUp w); reflexivity.
Qed.

(** ** Searching *)

Section Retrieval.
Import PineconeVectorDB.

Lemma readsIndex_bind {A B} (m : M A) (k : A -> M B) :
  readsIndex m -> (forall a w, snd (k a w) = w) -> readsIndex (bind m k).
Proof.
  intros Hm Hk w. unfold bind. specialize (Hm w).
  destruct (m w) as [[a | e] w']; cbn [snd] in *; [rewrite Hk |]; exact Hm.
Qed.

Lemma readsIndex_ret {A} (a : A) : readsIndex (ret a).
Proof.
  intros w. cbn. split; [| auto using sameEnv_refl].
  exists []. rewrite app_nil_r. split; [reflexivity |].
  split; [cbn; lia | constructor].
Qed.

Lemma search_reads (queryText : string) (options : option SearchOptions) :
  readsIndex (search queryText options).
Proof.
  intros w. unfold search. rewrite catch_rethrow.
  unfold bind, generateEmbedding, query, ret.
  destruct (embedContent w queryText) as [vector |].
  - assert (H : forall (r : Result (list SemanticSearchResult)) k f,
               snd (r, withStore (index w) (storeLog w ++ [Query vector k f]) w)
               = withStore (index w) (storeLog w ++ [Query vector k f]) w)
      by reflexivity.
    destruct (storeUp w); cbn [snd storeLog index drawn withStore];
      (split; [eexists; split; [reflexivity |]; split; [cbn; lia |];
               constructor; [exact I | constructor]
              | split; [reflexivity |]; split; [reflexivity |];
                apply sameEnv_withStore]).
  - apply (readsIndex_ret (@nil SemanticSearchResult) w).
Qed.

Lemma searchInProject_reads (queryText projectId : string) (topK : option nat)
    (fileType : option string) :
  readsIndex (searchInProject queryText projectId topK fileType).
Proof. apply search_reads. Qed.

Lemma retrieveRelevantDocs_reads (query : string) (projectContext : option UnityProject.t)
    (topK : option nat) (fileType : option string) :
  readsIndex (RAGEngine.retrieveRelevantDocs query projectContext topK fileType).
Proof.
  unfold RAGEngine.retrieveRelevantDocs.
  destruct projectContext; [apply searchInProject_reads | apply search_reads].
Qed.

End Retrieval.

(** X16. With a threshold [minScore] given, a search that is answered
    returns only results scored at least the threshold, except that a
    threshold of 0 counts as not given and 0.7 applies; and it returns no
    result scored 0, whatever the threshold. *)
Theorem search_threshold (w : World) (queryText : string)
    (options : option PineconeVectorDB.SearchOptions) (vector : list Q) (t : Q) :
  options ≫= PineconeVectorDB.minScore = Some t ->
  embedContent w queryText = Some vector ->
  storeUp w = true ->
  exists results w',
    PineconeVectorDB.search queryText options w = (Ok results, w')
    /\ (forall r, In r results ->
          ~ (PineconeVectorDB.score r == 0)%Q
          /\ (if Qeq_bool t 0 then 0.7 <= PineconeVectorDB.score r
              else t <= PineconeVectorDB.score r)%Q).
Proof.
  intros Hopt He Hs.
  eexists _, _. split; [apply (search_runs w queryText options vector He Hs) |].
  rewrite Hopt. intros r Hin.
  apply in_map_iff in Hin as (m & <- & Hin).
  apply filter_In in Hin as [_ Hk].
  apply keeps_score in Hk as (_ & Hnz & Hle).
  split; [apply Qeq_bool_neq; exact Hnz |].
  unfold PineconeVectorDB.orElse in Hle. destruct (Qeq_bool t 0); exact Hle.
Qed.

(** A search with [minScore: 0] among matches scored 0.9, 0.8, 0.72 and
    0.5. *)
Lemma search_threshold_witness :
  (Some (PineconeVectorDB.mkOptions None None (Some 0%Q)) ≫= PineconeVectorDB.minScore
   = Some 0%Q
   /\ embedContent Scenario.sandbox "enemy movement" = Some [14%Q]
   /\ storeUp Scenario.sandbox = true)
  /\ exists results w',
      PineconeVectorDB.search "enemy movement"
        (Some (PineconeVectorDB.mkOptions None None (Some 0%Q))) Scenario.sandbox
      = (Ok results, w')
      /\ (forall r, In r results ->
            ~ (PineconeVectorDB.score r == 0)%Q
            /\ (if Qeq_bool 0 0 then 0.7 <= PineconeVectorDB.score r
                else 0 <= PineconeVectorDB.score r)%Q).
Proof.
  split; [repeat split |].
  exact (search_threshold Scenario.sandbox "enemy movement"
           (Some (PineconeVectorDB.mkOptions None None (Some 0%Q))) [14%Q] 0%Q
           eq_refl eq_refl eq_refl).
Defined.

(** ** The retrieval engine *)

(** X17. The query [findSimilarCode] sends to the store, when the text it
    builds can be embedded: the embedding of ["Find similar code: "]
    followed by the snippet, for 3 neighbours when no number is given, for
    5 when 0 is given and for the number given otherwise, among the
    scripts, and among those of the project when there is one. *)
Theorem findSimilarCode_query (codeSnippet : string)
    (projectContext : option UnityProject.t) (topK : option nat) (w : World)
    (vector : list Q) :
  embedContent w ("Find similar code: " +:+ codeSnippet) = Some vector ->
  storeLog (snd (RAGEngine.findSimilarCode codeSnippet projectContext topK w))
  = storeLog w
    ++ [Query vector
          match topK with
          | None => 3
          | Some 0 => 5
          | Some k => k
          end
          (Some match projectContext with
                | Some project =>
                    [("projectId", UnityProject.id project); ("fileType", "script")]
                | None => [("fileType", "script")]
                end)].
Proof.
  intros He.
  unfold RAGEngine.findSimilarCode, RAGEngine.retrieveRelevantDocs,
    PineconeVectorDB.searchInProject, PineconeVectorDB.search.
  destruct projectContext as [project |]; rewrite catch_rethrow;
    unfold bind, PineconeVectorDB.generateEmbedding, PineconeVectorDB.query, ret;
    rewrite He; destruct topK as [[| k] |]; destruct (storeUp w); reflexivity.
Qed.

(** A request for 0 neighbours in the sample project. *)
Lemma findSimilarCode_query_witness :
  embedContent Scenario.sandbox ("Find similar code: " +:+ "void Tick()") = Some [30%Q]
  /\ storeLog (snd (RAGEngine.findSimilarCode "void Tick()" (Some Samples.project)
                      (Some 0) Scenario.sandbox))
     = storeLog Scenario.sandbox
       ++ [Query [30%Q] 5
             (Some [("projectId", UnityProject.id Samples.project);
                    ("fileType", "script")])].
Proof.
  split; [reflexivity |].
  exact (findSimilarCode_query "void Tick()" (Some Samples.project) (Some 0)
           Scenario.sandbox [30%Q] eq_refl).
Defined.

(** X18. No search and no method of the retrieval engine writes: each
    reads the index at most once and changes nothing, whether it fails or
    not. The store gets at most one call, a query, and the records, the
    tokens, the disk, the allow-list and the watchers are as before. *)
Theorem retrieval_reads_index :
  (forall queryText options, readsIndex (PineconeVectorDB.search queryText options))
  /\ (forall queryText projectId topK fileType,
         readsIndex (PineconeVectorDB.searchInProject queryText projectId topK fileType))
  /\ (forall codeSnippet projectContext topK,
         readsIndex (RAGEngine.findSimilarCode codeSnippet projectContext topK))
  /\ (forall apiName, readsIndex (RAGEngine.getUnityAPIDocumentation apiName))
  /\ (forall errorMessage userProfile,
         readsIndex (RAGEngine.findErrorSolution errorMessage userProfile))
  /\ (forall (Message : Type) stringify stringifyNaming showNumber query
        (conversationHistory : option (list Message)) projectContext userProfile topK,
         readsIndex
           (RAGEngine.enhance Message stringify stringifyNaming showNumber query
              conversationHistory projectContext userProfile topK)).
Proof.
  split; [| split; [| split; [| split; [| split]]]].
  - intros. apply search_reads.
  - intros. apply searchInProject_reads.
  - intros. apply retrieveRelevantDocs_reads.
  - intros. apply search_reads.
  - intros errorMessage userProfile. unfold RAGEngine.findErrorSolution.
    destruct userProfile as [profile |]; [| apply search_reads].
    destruct (find _ _); [apply readsIndex_ret | apply search_reads].
  - intros. unfold RAGEngine.enhance.
    apply readsIndex_bind; [apply retrieveRelevantDocs_reads | reflexivity].
Qed.

(** ** Solutions from the error history *)

Section History.
Import RAGEngine.

Lemma find_app_none {A} (f : A -> bool) (l : list A) (x : A) :
  Forall (fun y => f y = false) l ->
  find f (l ++ [x]) = if f x then Some x else None.
Proof.
  induction l as [| y l IH]; intros H; [reflexivity |].
  inversion H as [| ? ? Hy Hl]; subst. cbn [app find]. rewrite Hy. exact (IH Hl).
Qed.

Lemma find_app_some {A} (f : A -> bool) (l k : list A) (y : A) :
  In y l -> f y = true ->
  exists first, find f l = Some first /\ find f (l ++ k) = Some first.
Proof.
  induction l as [| z l IH]; intros Hin Hy; [destruct Hin |].
  cbn [app find]. destruct (f z) eqn:Hz.
  - exists z. auto.
  - destruct Hin as [-> | Hin]; [congruence |]. exact (IH Hin Hy).
Qed.

Lemma find_some_split {A} (f : A -> bool) (l : list A) (x : A) :
  find f l = Some x ->
  exists before after,
    l = before ++ x :: after /\ Forall (fun y => f y = false) before /\ f x = true.
Proof.
  induction l as [| z l IH]; intros H; [discriminate H |].
  cbn [find] in H. destruct (f z) eqn:Hz.
  - injection H as ->. exists [], l. auto.
  - destruct (IH H) as (before & after & -> & Hb & Hx).
    exists (z :: before), after. auto.
Qed.

End History.

(** X19. A solution recorded with [addErrorSolution] is what
    [findErrorSolution] returns for a message that contains the recorded
    error text, in any case of letters, when no older entry of the history
    answers the message: one result with the solution as content, score 1
    and relevance high, dated with the time of the recording. The result
    is the same in every world, whatever the embedding provider and the
    store answer there, and the world is left as it was: no query reaches
    the store. *)
Theorem findErrorSolution_recorded_solution
    (errorMessage error solution context : string) (now : Z)
    (profile : UserProfile.t) :
  JS.includes (JS.toLowerCase errorMessage) (JS.toLowerCase error) = true ->
  Forall (fun old => RAGEngine.similarTo errorMessage old = false)
    (UserProfile.errorHistory (UserProfile.codeStyle profile)) ->
  exists result,
    (forall w : World,
       RAGEngine.findErrorSolution errorMessage
         (Some (UserProfileStore.addErrorSolution error solution context now profile)) w
       = (Ok [result], w))
    /\ PineconeVectorDB.content (PineconeVectorDB.document result) = solution
    /\ PineconeVectorDB.score result = 1%Q
    /\ PineconeVectorDB.relevance result = PineconeVectorDB.High
    /\ createdAt (PineconeVectorDB.metadata (PineconeVectorDB.document result)) = now
    /\ fileType (PineconeVectorDB.metadata (PineconeVectorDB.document result))
       = Documentation.
Proof.
  intros Hin Hold. unfold RAGEngine.findErrorSolution.
  unfold UserProfileStore.addErrorSolution, UserProfileStore.withCodeStyle.
  cbn [UserProfile.codeStyle UserProfile.errorHistory].
  rewrite (find_app_none _ _ _ Hold).
  unfold RAGEngine.similarTo at 1. cbn [UserProfile.error]. rewrite Hin.
  eexists. split; [intros w; reflexivity |]. cbn. auto.
Qed.

(** A first solution for a missing reference, recorded in a profile with
    an empty history. *)
Lemma findErrorSolution_recorded_solution_witness :
  (JS.includes (JS.toLowerCase "MissingReferenceException: The object was destroyed")
     (JS.toLowerCase "missingreferenceexception") = true
   /\ Forall (fun old =>
                RAGEngine.similarTo
                  "MissingReferenceException: The object was destroyed" old = false)
        (UserProfile.errorHistory (UserProfile.codeStyle Samples.newcomer)))
  /\ exists result,
      (forall w : World,
         RAGEngine.findErrorSolution
           "MissingReferenceException: The object was destroyed"
           (Some (UserProfileStore.addErrorSolution "missingreferenceexception"
                    "Check for null before use." "Door.cs" 1700000000000
                    Samples.newcomer))
           w
         = (Ok [result], w))
      /\ PineconeVectorDB.content (PineconeVectorDB.document result)
         = "Check for null before use."
      /\ PineconeVectorDB.score result = 1%Q
      /\ PineconeVectorDB.relevance result = PineconeVectorDB.High
      /\ createdAt (PineconeVectorDB.metadata (PineconeVectorDB.document result))
         = 1700000000000%Z
      /\ fileType (PineconeVectorDB.metadata (PineconeVectorDB.document result))
         = Documentation.
Proof.
  split; [split; [reflexivity | constructor] |].
  exact (findErrorSolution_recorded_solution
           "MissingReferenceException: The object was destroyed"
           "missingreferenceexception" "Check for null before use." "Door.cs"
           1700000000000 Samples.newcomer eq_refl (List.Forall_nil _)).
Defined.

(** With the provider and the store both down, a search fails, and the
    recorded solution is returned all the same. *)
Example findErrorSolution_offline :
  let offline :=
    mkWorld "/home/dev" [] 1700000000000 Scenario.token 0 (fun _ => None) false
      (fun _ _ _ => []) ∅ [] [] [] in
  (exists e,
     fst (RAGEngine.findErrorSolution
            "MissingReferenceException: The object was destroyed"
            (Some Samples.newcomer) offline) = Err e)
  /\ exists result,
       RAGEngine.findErrorSolution
         "MissingReferenceException: The object was destroyed"
         (Some (UserProfileStore.addErrorSolution "missingreferenceexception"
                  "Check for null before use." "Door.cs" 1700000000000
                  Samples.newcomer))
         offline
       = (Ok [result], offline).
Proof. split; eexists; reflexivity. Qed.

(** X20. The history is searched oldest first: when an entry of the
    history answers a message, [findErrorSolution] returns the solution of
    the oldest entry that does, without a call to the store, and a
    solution recorded later with [addErrorSolution] does not change what
    is returned. *)
Theorem findErrorSolution_oldest_entry_wins
    (errorMessage error solution context : string) (now : Z)
    (profile : UserProfile.t) (old : UserProfile.ErrorSolution) (w : World) :
  In old (UserProfile.errorHistory (UserProfile.codeStyle profile)) ->
  RAGEngine.similarTo errorMessage old = true ->
  exists before first after result,
    UserProfile.errorHistory (UserProfile.codeStyle profile) = before ++ first :: after
    /\ Forall (fun entry => RAGEngine.similarTo errorMessage entry = false) before
    /\ RAGEngine.similarTo errorMessage first = true
    /\ PineconeVectorDB.content (PineconeVectorDB.document result)
       = UserProfile.solution first
    /\ RAGEngine.findErrorSolution errorMessage (Some profile) w = (Ok [result], w)
    /\ RAGEngine.findErrorSolution errorMessage
         (Some (UserProfileStore.addErrorSolution error solution context now profile)) w
       = (Ok [result], w).
Proof.
  intros Hin Hold.
  destruct (find_app_some (RAGEngine.similarTo errorMessage)
              (UserProfile.errorHistory (UserProfile.codeStyle profile))
              [UserProfile.mkErrorSolution error solution now context] old Hin Hold)
    as (first & H3 & H4).
  destruct (find_some_split _ _ _ H3) as (before & after & Hsplit & Hbefore & Hfirst).
  exists before, first, after.
  exists (PineconeVectorDB.mkResult
            (PineconeVectorDB.mkIndexed "user-error-history"
               (UserProfile.solution first) []
               (mkMetadata "user-profile" "Error History" Documentation
                  "error-history" "text" (UserProfile.unityVersion profile)
                  None None [] []
                  (UserProfile.timestamp first) (UserProfile.timestamp first)))
            1 PineconeVectorDB.High).
  split; [exact Hsplit |]. split; [exact Hbefore |]. split; [exact Hfirst |].
  unfold RAGEngine.findErrorSolution.
  unfold UserProfileStore.addErrorSolution, UserProfileStore.withCodeStyle.
  cbn [UserProfile.codeStyle UserProfile.errorHistory UserProfile.unityVersion].
  rewrite H3, H4. split; [| split]; reflexivity.
Qed.

(** Both entries of the sample history answer the message; the solution
    returned is that of the first. *)
Lemma findErrorSolution_oldest_entry_wins_witness :
  (In (UserProfile.mkErrorSolution "nullreference" "Check the inspector."
         1695000000000 "Player.cs")
      (UserProfile.errorHistory (UserProfile.codeStyle Samples.profile))
   /\ RAGEngine.similarTo "NullReferenceException: Object reference not set"
        (UserProfile.mkErrorSolution "nullreference" "Check the inspector."
           1695000000000 "Player.cs") = true)
  /\ exists before first after result,
      UserProfile.errorHistory (UserProfile.codeStyle Samples.profile)
      = before ++ first :: after
      /\ Forall (fun entry =>
                   RAGEngine.similarTo
                     "NullReferenceException: Object reference not set" entry = false)
           before
      /\ RAGEngine.similarTo "NullReferenceException: Object reference not set" first
         = true
      /\ PineconeVectorDB.content (PineconeVectorDB.document result)
         = UserProfile.solution first
      /\ RAGEngine.findErrorSolution "NullReferenceException: Object reference not set"
           (Some Samples.profile) Scenario.sandbox
         = (Ok [result], Scenario.sandbox)
      /\ RAGEngine.findErrorSolution "NullReferenceException: Object reference not set"
           (Some (UserProfileStore.addErrorSolution "NullReferenceException"
                    "Use TryGetComponent." "Hud.cs" 1700000000000 Samples.profile))
           Scenario.sandbox
         = (Ok [result], Scenario.sandbox).
Proof.
  split; [split; [right; left; reflexivity | reflexivity] |].
  exact (findErrorSolution_oldest_entry_wins
           "NullReferenceException: Object reference not set"
           "NullReferenceException" "Use TryGetComponent." "Hud.cs" 1700000000000
           Samples.profile
           (UserProfile.mkErrorSolution "nullreference" "Check the inspector."
              1695000000000 "Player.cs")
           Scenario.sandbox (or_intror (or_introl eq_refl)) eq_refl).
Defined.

(** ** The prompt *)

Section PromptText.
Import RAGEngine.

Lemma prefix_app_l (x a b : string) :
  String.prefix x a = true -> String.prefix x (a +:+ b) = true.
Proof.
  revert a. induction x as [| c x IH]; intros a H; [apply prefix_empty |].
  destruct a as [| d a]; [discriminate H |].
  rewrite app_cons. cbn [String.prefix] in *.
  destruct (ascii_dec c d); [exact (IH a H) | discriminate H].
Qed.

Lemma includes_self (x : string) : JS.includes x x = true.
Proof. destruct x; cbn [JS.includes]; rewrite prefix_refl; reflexivity. Qed.

Lemma includes_app_l (a b x : string) :
  JS.includes a x = true -> JS.includes (a +:+ b) x = true.
Proof.
  induction a as [| c a IH]; intros H.
  - cbn [JS.includes] in H. rewrite orb_false_r in H.
    destruct x; [| discriminate H].
    destruct ("" +:+ b); cbn [JS.includes]; rewrite prefix_empty; reflexivity.
  - rewrite app_cons. cbn [JS.includes] in *.
    apply orb_true_iff in H as [H | H]; apply orb_true_iff.
    + left. rewrite <- app_cons. apply prefix_app_l. exact H.
    + right. exact (IH H).
Qed.

Lemma includes_app_r (a b x : string) :
  JS.includes b x = true -> JS.includes (a +:+ b) x = true.
Proof.
  intros H. induction a as [| c a IH]; [rewrite app_empty_l; exact H |].
  rewrite app_cons. cbn [JS.includes]. rewrite IH. apply orb_true_r.
Qed.

Lemma retrievedCode_includes
    (retrievedDocs : list PineconeVectorDB.SemanticSearchResult) :
  forall (index : nat) (result : PineconeVectorDB.SemanticSearchResult),
    In result retrievedDocs ->
    JS.includes (retrievedCode index retrievedDocs)
      (PineconeVectorDB.content (PineconeVectorDB.document result)) = true.
Proof.
  induction retrievedDocs as [| first rest IH]; intros index result Hin;
    [destruct Hin |].
  cbn [retrievedCode]. destruct Hin as [-> | Hin].
  - do 8 apply includes_app_r. apply includes_app_l, includes_self.
  - do 14 apply includes_app_r. exact (IH (S index) result Hin).
Qed.

Lemma buildEnhancedContext_includes (stringify : list string -> string)
    (showNumber : Q -> string) (query : string)
    (retrievedDocs : list PineconeVectorDB.SemanticSearchResult)
    (projectContext : option UnityProject.t) (userProfile : option UserProfile.t)
    (result : PineconeVectorDB.SemanticSearchResult) :
  In result retrievedDocs ->
  JS.includes
    (buildEnhancedContext stringify showNumber query retrievedDocs projectContext
       userProfile)
    (PineconeVectorDB.content (PineconeVectorDB.document result)) = true.
Proof.
  intros Hin. unfold buildEnhancedContext. cbv zeta.
  destruct retrievedDocs as [| first rest]; [destruct Hin |].
  change (0 <? length (first :: rest))%nat with true. cbv iota.
  do 4 apply includes_app_r. apply retrievedCode_includes. exact Hin.
Qed.

End PromptText.

(** X21. [enhance] fails exactly when the retrieval fails, with its
    error. When it returns, the documents of the context are those the
    retrieval returned for the query, with the number of neighbours asked
    for or 5 and no restriction on the kind of file; the prompt contains
    the query under the heading ["USER QUERY:"], and it contains the
    content of every retrieved document. *)
Theorem enhance_prompt (Message : Type) (stringify : list string -> string)
    (stringifyNaming : UserProfile.NamingConventions -> string)
    (showNumber : Q -> string) (query : string)
    (conversationHistory : option (list Message))
    (projectContext : option UnityProject.t) (userProfile : option UserProfile.t)
    (topK : option nat) (w : World) :
  match
    RAGEngine.enhance Message stringify stringifyNaming showNumber query
      conversationHistory projectContext userProfile topK w
  with
  | (Ok context, w') =>
      RAGEngine.retrieveRelevantDocs query projectContext
        (Some (PineconeVectorDB.orElseNat topK 5)) None w
      = (Ok (RAGEngine.retrievedDocuments context), w')
      /\ RAGEngine.query context = query
      /\ JS.includes (RAGEngine.enhancedPrompt context)
           ("USER QUERY:" +:+ RAGEngine.nl +:+ query +:+ RAGEngine.nl +:+ RAGEngine.nl)
         = true
      /\ Forall (fun result =>
                   JS.includes (RAGEngine.enhancedPrompt context)
                     (PineconeVectorDB.content (PineconeVectorDB.document result))
                   = true)
           (RAGEngine.retrievedDocuments context)
  | (Err e, w') =>
      RAGEngine.retrieveRelevantDocs query projectContext
        (Some (PineconeVectorDB.orElseNat topK 5)) None w
      = (Err e, w')
  end.
Proof.
  unfold RAGEngine.enhance. unfold bind at 1.
  destruct (RAGEngine.retrieveRelevantDocs query projectContext
              (Some (PineconeVectorDB.orElseNat topK 5)) None w)
    as [[retrievedDocs | e] w']; [| reflexivity].
  unfold ret. cbv zeta.
  cbn [RAGEngine.retrievedDocuments RAGEngine.query RAGEngine.enhancedPrompt].
  split; [reflexivity |]. split; [reflexivity |].
  set (enhancedContext :=
         RAGEngine.buildEnhancedContext stringify showNumber query retrievedDocs
           projectContext userProfile).
  split.
  - destruct userProfile as [u |];
      [destruct (RAGEngine.isCodeGeneration _); [apply includes_app_l |] |];
      apply includes_app_r, includes_self.
  - apply List.Forall_forall. intros result Hin.
    assert (H : JS.includes enhancedContext
                  (PineconeVectorDB.content (PineconeVectorDB.document result)) = true)
      by (apply buildEnhancedContext_includes; exact Hin).
    clearbody enhancedContext.
    destruct userProfile as [u |];
      [destruct (RAGEngine.isCodeGeneration _) |];
      destruct (RAGEngine.unitySpecific _);
      repeat apply includes_app_l; exact H.
Qed.

(** ** Keywords of a query *)

Section Keywords.
Import RAGEngine.

Lemma every_consFirst (P : ascii -> bool) (c : ascii) (pieces : list string) :
  P c = true ->
  Forall (fun piece => every P piece = true) pieces ->
  Forall (fun piece => every P piece = true) (JS.consFirst c pieces).
Proof.
  intros Hc H. destruct pieces as [| piece rest]; cbn [JS.consFirst].
  - constructor; [cbn; rewrite Hc; reflexivity | constructor].
  - inversion H as [| ? ? Hp Hr]; subst.
    constructor; [cbn [every]; rewrite Hc; exact Hp | exact Hr].
Qed.

Lemma splitSpacesFrom_solid (s : string) :
  forall inRun,
    Forall (fun piece => every (fun c => negb (JS.isSpace c)) piece = true)
      (JS.splitSpacesFrom inRun s).
Proof.
  induction s as [| c s IH]; intros inRun; cbn [JS.splitSpacesFrom].
  - constructor; [reflexivity | constructor].
  - destruct (JS.isSpace c) eqn:Hc.
    + destruct inRun; [apply IH |]. constructor; [reflexivity | apply IH].
    + apply every_consFirst; [rewrite Hc; reflexivity | apply IH].
Qed.

Lemma splitSpaces_first (s : string) :
  exists first rest,
    JS.splitSpacesFrom false s = first :: rest /\ String.prefix first s = true.
Proof.
  induction s as [| c s (first & rest & Heq & Hpre)]; cbn [JS.splitSpacesFrom].
  - exists "", []. split; reflexivity.
  - destruct (JS.isSpace c).
    + eexists "", _. split; reflexivity.
    + rewrite Heq. cbn [JS.consFirst]. exists (String c first), rest.
      split; [reflexivity |]. cbn [String.prefix].
      destruct (ascii_dec c c); [exact Hpre | contradiction].
Qed.

Lemma splitSpacesFrom_includes (s : string) :
  forall inRun piece,
    In piece (JS.splitSpacesFrom inRun s) -> JS.includes s piece = true.
Proof.
  induction s as [| c s IH]; intros inRun piece Hin; cbn [JS.splitSpacesFrom] in Hin.
  - destruct Hin as [<- | []]. reflexivity.
  - cbn [JS.includes]. apply orb_true_iff. destruct (JS.isSpace c).
    + destruct inRun; [right; exact (IH _ _ Hin) |].
      destruct Hin as [<- | Hin]; [left; reflexivity | right; exact (IH _ _ Hin)].
    + destruct (splitSpaces_first s) as (first & rest & Heq & Hpre).
      rewrite Heq in Hin. cbn [JS.consFirst] in Hin. destruct Hin as [<- | Hin].
      * left. cbn [String.prefix].
        destruct (ascii_dec c c); [exact Hpre | contradiction].
      * right. apply (IH false). rewrite Heq. right. exact Hin.
Qed.

End Keywords.

(** X22. Every keyword of a query is a piece of the query without white
    space, longer than two characters, and is, in lower case, none of the
    thirteen stop words. *)
Theorem analyzeQueryIntent_keywords (query : string) :
  Forall (fun keyword =>
            every (fun c => negb (JS.isSpace c)) keyword = true
            /\ 2 < String.length keyword
            /\ ~ In (JS.toLowerCase keyword) RAGEngine.stopWords
            /\ JS.includes query keyword = true)
    (RAGEngine.keywords (RAGEngine.analyzeQueryIntent query)).
Proof.
  unfold RAGEngine.analyzeQueryIntent. cbn [RAGEngine.keywords].
  apply List.Forall_forall. intros keyword Hin.
  apply filter_In in Hin as [Hin Hkeep].
  apply andb_true_iff in Hkeep as [Hstop Hlen].
  split; [| split; [| split]].
  - pose proof (splitSpacesFrom_solid query false) as H.
    rewrite List.Forall_forall in H. exact (H keyword Hin).
  - apply Nat.ltb_lt in Hlen. exact Hlen.
  - intros Hs. apply negb_true_iff in Hstop.
    assert (RAGEngine.has RAGEngine.stopWords (JS.toLowerCase keyword) = true);
      [| congruence].
    apply existsb_exists. exists (JS.toLowerCase keyword).
    split; [exact Hs | apply String.eqb_refl].
  - exact (splitSpacesFrom_includes query false keyword Hin).
Qed.

(** ** The style analyser *)

Section MostCommon.
Import CodeStyleAnalyzer.

Lemma foldl_invariant {S A} (step : S -> A -> S) (P : S -> list A -> Prop) (init : S) :
  P init [] ->
  (forall st pre v, P st pre -> P (step st v) (pre ++ [v])) ->
  forall l, P (foldl step init l) l.
Proof.
  intros H0 Hstep l.
  assert (G : forall l pre st, P st pre -> P (foldl step st l) (pre ++ l)).
  { clear l. induction l as [| a l IH]; intros pre st H; cbn [foldl].
    - rewrite app_nil_r. exact H.
    - replace (pre ++ a :: l) with ((pre ++ [a]) ++ l)
        by (rewrite <- List.app_assoc; reflexivity).
      apply IH, Hstep, H. }
  exact (G l [] init H0).
Qed.

Lemma count_snoc (value : nat) (pre : list nat) (x : nat) :
  count (Nat.eqb value) (pre ++ [x])
  = count (Nat.eqb value) pre + (if (value =? x)%nat then 1 else 0).
Proof.
  unfold count. rewrite List.filter_app, List.length_app. cbn [List.filter].
  destruct (value =? x)%nat; reflexivity.
Qed.

Lemma count_le_length {A} (P : A -> bool) (l : list A) : count P l <= length l.
Proof.
  unfold count. induction l as [| x l IH]; [reflexivity |].
  cbn [List.filter]. destruct (P x); cbn [length]; lia.
Qed.

Lemma count_pos_In (value : nat) (l : list nat) :
  0 < count (Nat.eqb value) l <-> In value l.
Proof.
  unfold count. induction l as [| x l IH]; [cbn; split; [lia | intros []] |].
  cbn [List.filter In]. destruct (Nat.eqb_spec value x) as [-> | Hne].
  - cbn [length]. split; [auto | lia].
  - rewrite IH. split; [auto | intros [Heq | H]; [congruence | exact H]].
Qed.

Lemma findMostCommon_spec (arr : list nat) :
  (forall value,
      CodeStyleAnalyzer.count (Nat.eqb value) arr
      <= CodeStyleAnalyzer.count (Nat.eqb (CodeStyleAnalyzer.findMostCommon arr)) arr)
  /\ (arr = [] /\ CodeStyleAnalyzer.findMostCommon arr = 0
      \/ In (CodeStyleAnalyzer.findMostCommon arr) arr).
Proof.
  unfold CodeStyleAnalyzer.findMostCommon.
  pose (P := fun (st : gmap nat nat * nat * nat) (pre : list nat) =>
               (forall value,
                   default 0 (fst (fst st) !! value)
                   = CodeStyleAnalyzer.count (Nat.eqb value) pre)
               /\ snd (fst st) = CodeStyleAnalyzer.count (Nat.eqb (snd st)) pre
               /\ (forall value,
                      CodeStyleAnalyzer.count (Nat.eqb value) pre <= snd (fst st))).
  match goal with
  | |- context [foldl ?step ?init arr] =>
      set (f := step); pose proof (foldl_invariant f P init) as Hinv
  end.
  assert (H0 : P (∅, 0, 0) []).
  { split; [| split]; cbn; intros; rewrite ?lookup_empty; cbn; lia. }
  assert (Hstep : forall st pre v, P st pre -> P (f st v) (pre ++ [v])); cycle 1.
  { destruct (Hinv H0 Hstep arr) as (Hfreq & Hmax & Hall). clear Hinv H0 Hstep.
    split.
    + intros value. rewrite <- Hmax. apply Hall.
    + destruct arr as [| x rest]; [left; split; reflexivity | right].
      apply count_pos_In. rewrite <- Hmax.
      specialize (Hall x). unfold CodeStyleAnalyzer.count in Hall at 1.
      cbn [List.filter] in Hall. rewrite Nat.eqb_refl in Hall. cbn [length] in Hall.
      lia. }
  clear Hinv H0. unfold P, f. clear P f.
  intros [[frequency maxFreq] mostCommon] pre x. cbn [fst snd].
  intros (Hfreq & Hmax & Hall).
    assert (Hnew : default 0 (frequency !! x) + 1
                   = CodeStyleAnalyzer.count (Nat.eqb x) (pre ++ [x]))
      by (rewrite count_snoc, Nat.eqb_refl, Hfreq; reflexivity).
    assert (Hlook : forall value,
               default 0 (<[x := default 0 (frequency !! x) + 1]> frequency !! value)
               = CodeStyleAnalyzer.count (Nat.eqb value) (pre ++ [x])).
    { intros value. destruct (decide (value = x)) as [-> | Hne].
      - rewrite lookup_insert_eq. exact Hnew.
      - rewrite lookup_insert_ne by congruence.
        rewrite count_snoc, Hfreq. apply Nat.eqb_neq in Hne. rewrite Hne. lia. }
    destruct (maxFreq <? default 0 (frequency !! x) + 1)%nat eqn:Hlt; cbn [fst snd].
    + apply Nat.ltb_lt in Hlt. split; [exact Hlook |]. split; [exact Hnew |].
      intros value. rewrite count_snoc.
      destruct (Nat.eqb_spec value x) as [-> | Hne].
      * rewrite <- Hfreq. lia.
      * specialize (Hall value). lia.
    + apply Nat.ltb_ge in Hlt. split; [exact Hlook |].
      assert (Hne : mostCommon <> x).
      { intros ->. rewrite Hfreq, <- Hmax in Hlt. lia. }
      apply Nat.eqb_neq in Hne. split.
      * rewrite count_snoc, Hne. lia.
      * intros value. rewrite count_snoc.
        destruct (Nat.eqb_spec value x) as [-> | Hne'].
        -- rewrite <- Hfreq. lia.
        -- specialize (Hall value). lia.
Qed.

End MostCommon.

(** X23. [findMostCommon] returns a value that occurs in the list at least
    as often as every other value; it returns 0 for the empty list, and a
    member of the list otherwise. *)
Theorem findMostCommon_most_frequent (arr : list nat) :
  (forall value,
      CodeStyleAnalyzer.count (Nat.eqb value) arr
      <= CodeStyleAnalyzer.count (Nat.eqb (CodeStyleAnalyzer.findMostCommon arr)) arr)
  /\ (arr = [] /\ CodeStyleAnalyzer.findMostCommon arr = 0
      \/ In (CodeStyleAnalyzer.findMostCommon arr) arr).
Proof. exact (findMostCommon_spec arr). Qed.

Section Confidence.
Import CodeStyleAnalyzer.

Lemma inject_nat_le (a b : nat) :
  a <= b -> (inject_Z (Z.of_nat a) <= inject_Z (Z.of_nat b))%Q.
Proof. intros H. rewrite <- Zle_Qle. lia. Qed.

Lemma inject_nat_succ (n : nat) :
  (inject_Z (Z.of_nat (S n)) == inject_Z (Z.of_nat n) + 1)%Q.
Proof. rewrite Nat2Z.inj_succ. unfold Z.succ. rewrite inject_Z_plus. reflexivity. Qed.

Lemma ratio_bounds (a b : nat) : a <= b -> (0 <= ratio a b <= 1)%Q.
Proof.
  intros H. unfold ratio. destruct b as [| b].
  - replace a with 0 by lia. split; discriminate.
  - assert (Hb : (0 < inject_Z (Z.of_nat (S b)))%Q)
      by (change 0%Q with (inject_Z 0); rewrite <- Zlt_Qlt; lia).
    pose proof (inject_nat_le a (S b) H) as Hle.
    pose proof (inject_nat_le 0 a ltac:(lia)) as Hge. change (inject_Z (Z.of_nat 0)) with 0%Q in Hge.
    split.
    + apply Qle_shift_div_l; [exact Hb |]. rewrite Qmult_0_l. exact Hge.
    + apply Qle_shift_div_r; [exact Hb |]. rewrite Qmult_1_l. exact Hle.
Qed.

Lemma ratio_positive (a b : nat) : (0 < ratio a b)%Q -> 0 < a.
Proof.
  intros H. destruct a as [| a]; [| lia].
  exfalso. unfold ratio in H. change (inject_Z (Z.of_nat 0)) with 0%Q in H.
  unfold Qdiv in H. rewrite Qmult_0_l in H. exact (Qlt_irrefl 0 H).
Qed.

(** The sum of confidences between 0 and 1. *)
Lemma totalConfidence_bounds (patterns : list CodePattern) :
  Forall (fun p => (0 <= confidence p <= 1)%Q) patterns ->
  forall acc,
    (acc <= fold_left (fun sum p => sum + confidence p) patterns acc)%Q
    /\ (fold_left (fun sum p => sum + confidence p) patterns acc
        <= acc + inject_Z (Z.of_nat (length patterns)))%Q.
Proof.
  induction 1 as [| p rest [Hlo Hhi] _ IH]; intros acc.
  - cbn [fold_left length]. change (inject_Z (Z.of_nat 0)) with 0%Q. split; lra.
  - cbn [fold_left length]. destruct (IH (acc + confidence p)%Q) as [H1 H2].
    rewrite inject_nat_succ. split; lra.
Qed.

Lemma fileCountFactor_spec (fileCount : nat) :
  (0 <= minQ (ratio fileCount 10) 1 <= 1)%Q
  /\ (10 <= fileCount -> (minQ (ratio fileCount 10) 1 == 1)%Q)
  /\ (forall more, fileCount <= more ->
        (minQ (ratio fileCount 10) 1 <= minQ (ratio more 10) 1)%Q).
Proof.
  assert (Hr : forall n, (ratio n 10 == inject_Z (Z.of_nat n) * (1 # 10))%Q)
    by (intros n; reflexivity).
  assert (Hmin : forall a, (0 <= a)%Q ->
             (0 <= minQ a 1 <= 1)%Q /\ (minQ a 1 <= a)%Q
             /\ ((1 <= a)%Q -> (minQ a 1 == 1)%Q) /\ ((a <= 1)%Q -> (minQ a 1 == a)%Q)).
  { intros a Ha. unfold minQ. destruct (Qle_bool a 1) eqn:E.
    - apply Qle_bool_iff in E. repeat split; try lra; intros; lra.
    - assert (1 < a)%Q.
      { apply Qnot_le_lt. intros L. apply Qle_bool_iff in L. congruence. }
      repeat split; try lra; intros; lra. }
  assert (Hpos : forall n, (0 <= ratio n 10)%Q).
  { intros n. rewrite Hr. pose proof (inject_nat_le 0 n ltac:(lia)) as H.
    change (inject_Z (Z.of_nat 0)) with 0%Q in H. lra. }
  destruct (Hmin _ (Hpos fileCount)) as (Hb & Hle & Hsat & Hid).
  split; [exact Hb |]. split.
  - intros H. apply Hsat. rewrite Hr.
    pose proof (inject_nat_le 10 fileCount H) as H'.
    change (inject_Z (Z.of_nat 10)) with 10%Q in H'. lra.
  - intros more H. destruct (Hmin _ (Hpos more)) as (Hb' & Hle' & Hsat' & Hid').
    pose proof (inject_nat_le fileCount more H) as H'.
    assert (Hrr : (ratio fileCount 10 <= ratio more 10)%Q) by (rewrite !Hr; lra).
    destruct (Qlt_le_dec 1 (ratio more 10)) as [Hgt | Hsmall].
    + rewrite (Hsat' ltac:(lra)). apply Hb.
    + rewrite (Hid' Hsmall). lra.
Qed.

End Confidence.

(** X24. For patterns with confidences between 0 and 1, the confidence
    [calculateConfidence] gives a profile is between 0 and 1; it does not
    fall when the number of files grows, and from ten files on it is the
    average of the confidences and no longer depends on the number. *)
Theorem calculateConfidence_bounds (patterns : list CodeStyleAnalyzer.CodePattern)
    (fileCount more : nat) :
  Forall (fun p => (0 <= CodeStyleAnalyzer.confidence p <= 1)%Q) patterns ->
  (0 <= CodeStyleAnalyzer.calculateConfidence patterns fileCount <= 1)%Q
  /\ (fileCount <= more ->
      (CodeStyleAnalyzer.calculateConfidence patterns fileCount
       <= CodeStyleAnalyzer.calculateConfidence patterns more)%Q)
  /\ (10 <= fileCount ->
      (CodeStyleAnalyzer.calculateConfidence patterns fileCount
       == CodeStyleAnalyzer.calculateConfidence patterns 10)%Q).
Proof.
  intros Hall. unfold CodeStyleAnalyzer.calculateConfidence.
  destruct patterns as [| p rest]; [cbn; repeat split; intros; lra |].
  change (length (p :: rest) =? 0)%nat with false. cbv iota zeta.
  set (total := fold_left _ (p :: rest) 0%Q).
  set (n := inject_Z (Z.of_nat (length (p :: rest)))).
  destruct (totalConfidence_bounds _ Hall 0%Q) as [Hlo Hhi].
  fold total n in Hlo, Hhi.
  assert (Hn : (0 < n)%Q).
  { unfold n. cbn [length]. rewrite inject_nat_succ.
    pose proof (inject_nat_le 0 (length rest) ltac:(lia)) as H.
    change (inject_Z (Z.of_nat 0)) with 0%Q in H. lra. }
  assert (Havg : (0 <= total / n <= 1)%Q).
  { split.
    - apply Qle_shift_div_l; [exact Hn | lra].
    - apply Qle_shift_div_r; [exact Hn | lra]. }
  clearbody total n.
  destruct (fileCountFactor_spec fileCount) as (Hf & Hsat & Hmono).
  destruct (fileCountFactor_spec 10) as (_ & Hsat10 & _).
  split; [| split].
  - split.
    + apply Qmult_le_0_compat; lra.
    + apply Qle_trans with (1 * 1)%Q; [| lra].
      apply Qmult_le_compat_nonneg; split; lra.
  - intros H. rewrite !(Qmult_comm (total / n)).
    apply Qmult_le_compat_r; [exact (Hmono more H) | lra].
  - intros H. rewrite (Hsat H), (Hsat10 ltac:(lia)). reflexivity.
Qed.

Section Patterns.
Import CodeStyleAnalyzer.

Lemma inject_nat_positive (n : nat) : (0 < inject_Z (Z.of_nat n))%Q -> 0 < n.
Proof.
  intros H. destruct n as [| n]; [| lia]. exfalso. exact (Qlt_irrefl 0 H).
Qed.

Lemma length_take3 {A} (l : list A) : length (take 3 l) <= 3.
Proof. rewrite length_take. lia. Qed.

Ltac case_if E :=
  match goal with
  | |- context [if ?c then _ else _] => destruct c eqn:E
  end.

Lemma analyzeNaming_sound (scripts : list string) :
  Forall soundPattern (analyzeNaming scripts).
Proof.
  unfold analyzeNaming. cbv zeta.
  repeat apply Forall_app_2.
  - case_if E0; [| constructor]. case_if E; [| constructor].
    constructor; [| constructor]. apply Qltb_true in E.
    match type of E with
    | (_ < ratio ?a ?b * _)%Q =>
        pose proof (ratio_bounds a b (count_le_length _ _)) as [Hlo Hhi];
        pose proof (ratio_positive a b) as Hpos
    end.
    split; [apply Hpos; lra |]. split; [| apply length_take3].
    cbn [confidence]. rewrite Qdiv_mult_l by discriminate. split; assumption.
  - case_if E0; [| constructor].
    case_if E1; [| case_if E2; [| constructor]];
      (constructor; [| constructor]);
      (split; [cbn [frequency]; apply Nat.ltb_lt in E1 || apply Nat.ltb_lt in E2; lia |]);
      (split; [apply ratio_bounds, count_le_length | apply length_take3]).
  - case_if E0; [| constructor]. case_if E; [| constructor].
    constructor; [| constructor]. apply Qltb_true in E.
    split; [| split; [apply ratio_bounds, count_le_length | apply length_take3]].
    cbn [frequency]. apply inject_nat_positive.
    match type of E with
    | (inject_Z (Z.of_nat ?c) * _ < _)%Q =>
        pose proof (inject_nat_le 0 c ltac:(lia)) as H;
        change (inject_Z (Z.of_nat 0)) with 0%Q in H
    end.
    lra.
Qed.

Lemma analyzeFormatting_sound (scripts : list string) :
  Forall soundPattern (analyzeFormatting scripts).
Proof.
  unfold analyzeFormatting. cbv zeta.
  apply Forall_app_2.
  - case_if E1; [| case_if E2; [| constructor]];
      (constructor; [| constructor]);
      (split; [cbn [frequency]; apply Nat.ltb_lt in E1 || apply Nat.ltb_lt in E2; lia |]);
      (split; [apply ratio_bounds; lia | cbn; lia]).
  - case_if E; [| constructor].
    constructor; [| constructor].
    split; [| split; [split; discriminate | cbn; lia]].
    cbn [frequency]. apply count_pos_In.
    match goal with |- In (findMostCommon ?arr) _ =>
      destruct (findMostCommon_spec arr) as [_ [[Hnil _] | Hin]]; [| exact Hin];
      rewrite Hnil in E; discriminate E
    end.
Qed.

End Patterns.

(** X25. Every pattern of the naming analysis and of the formatting
    analysis was seen at least once, has a confidence between 0 and 1 and
    carries at most three examples. *)
Theorem analysis_patterns_sound (scripts : list string) :
  Forall soundPattern
    (CodeStyleAnalyzer.analyzeNaming scripts
     ++ CodeStyleAnalyzer.analyzeFormatting scripts).
Proof.
  apply Forall_app_2; [apply analyzeNaming_sound | apply analyzeFormatting_sound].
Qed.

(** The patterns of the analysis of three methods, for 3 and for 12
    files. *)
Lemma calculateConfidence_bounds_witness :
  Forall (fun p => (0 <= CodeStyleAnalyzer.confidence p <= 1)%Q)
    (CodeStyleAnalyzer.analyzeFormatting Scenario.mixedCorpus)
  /\ (0 <= CodeStyleAnalyzer.calculateConfidence
             (CodeStyleAnalyzer.analyzeFormatting Scenario.mixedCorpus) 3 <= 1)%Q
  /\ (3 <= 12 ->
      (CodeStyleAnalyzer.calculateConfidence
         (CodeStyleAnalyzer.analyzeFormatting Scenario.mixedCorpus) 3
       <= CodeStyleAnalyzer.calculateConfidence
            (CodeStyleAnalyzer.analyzeFormatting Scenario.mixedCorpus) 12)%Q)
  /\ (10 <= 3 ->
      (CodeStyleAnalyzer.calculateConfidence
         (CodeStyleAnalyzer.analyzeFormatting Scenario.mixedCorpus) 3
       == CodeStyleAnalyzer.calculateConfidence
            (CodeStyleAnalyzer.analyzeFormatting Scenario.mixedCorpus) 10)%Q).
Proof.
  assert (H : Forall (fun p => (0 <= CodeStyleAnalyzer.confidence p <= 1)%Q)
                (CodeStyleAnalyzer.analyzeFormatting Scenario.mixedCorpus)).
  { eapply List.Forall_impl; [| apply analyzeFormatting_sound].
    intros p (_ & Hc & _). exact Hc. }
  split; [exact H |].
  exact (calculateConfidence_bounds
           (CodeStyleAnalyzer.analyzeFormatting Scenario.mixedCorpus) 3 12 H).
Defined.

(** ** The transformer on a profile of the analyser *)

Section Decimal.

Lemma to_uint_not_Nil (n : nat) : Nat.to_uint n <> Decimal.Nil.
Proof.
  pose proof (Unsigned.to_of (Nat.to_uint n)) as H.
  rewrite Unsigned.of_to in H. intros E. rewrite E in H. discriminate H.
Qed.

Lemma ofNat_string_of_uint (n : nat) :
  JS.ofNat n = NilEmpty.string_of_uint (Nat.to_uint n).
Proof.
  unfold JS.ofNat, NilZero.string_of_uint.
  pose proof (to_uint_not_Nil n) as H.
  destruct (Nat.to_uint n); [contradiction | reflexivity ..].
Qed.

Lemma string_of_uint_digits (d : Decimal.uint) :
  every JS.isDigit (NilEmpty.string_of_uint d) = true.
Proof. induction d; cbn [NilEmpty.string_of_uint every]; [reflexivity | exact IHd ..]. Qed.

Lemma ofNat_digits (n : nat) :
  every JS.isDigit (JS.ofNat n) = true /\ JS.ofNat n <> "".
Proof.
  rewrite ofNat_string_of_uint. split; [apply string_of_uint_digits |].
  pose proof (to_uint_not_Nil n) as H.
  destruct (Nat.to_uint n); [contradiction | discriminate ..].
Qed.

Lemma parseInt_string_of_uint (d : Decimal.uint) :
  forall acc : nat,
    foldl (fun n c => (10 * n + Z.of_N (JS.code c - 48))%Z) (Z.of_nat acc)
      (list_ascii_of_string (NilEmpty.string_of_uint d))
    = Z.of_nat (Nat.of_uint_acc d acc).
Proof.
  induction d; intros acc;
    cbn [NilEmpty.string_of_uint list_ascii_of_string foldl Nat.of_uint_acc];
    [reflexivity | rewrite <- IHd; f_equal; rewrite Nat.tail_mul_spec ..];
    match goal with
    | |- context [Z.of_N (JS.code ?c - 48)] =>
        let v := eval vm_compute in (Z.of_N (JS.code c - 48)) in
        change (Z.of_N (JS.code c - 48)) with v
    end; lia.
Qed.

Lemma parseInt_ofNat (n : nat) : CodeStyleAnalyzer.parseInt (JS.ofNat n) = Z.of_nat n.
Proof.
  unfold CodeStyleAnalyzer.parseInt. rewrite ofNat_string_of_uint.
  pose proof (parseInt_string_of_uint (Nat.to_uint n) 0) as H.
  change (Z.of_nat 0) with 0%Z in H. rewrite H.
  change (Nat.of_uint_acc (Nat.to_uint n) 0) with (Nat.of_uint (Nat.to_uint n)).
  rewrite Unsigned.of_to. reflexivity.
Qed.

Lemma span_app (P : ascii -> bool) (d rest : string) :
  every P d = true ->
  match rest with
  | EmptyString => True
  | String c _ => P c = false
  end ->
  JS.span P (d +:+ rest) = (d, rest).
Proof.
  intros Hd Hrest. induction d as [| c d IH].
  - rewrite app_empty_l. destruct rest as [| c r]; [reflexivity |].
    cbn [JS.span]. rewrite Hrest. reflexivity.
  - rewrite app_cons. cbn [every] in Hd. apply andb_true_iff in Hd as [Hc Hd].
    cbn [JS.span]. rewrite Hc, (IH Hd). reflexivity.
Qed.

Lemma includes_behind_digits (d rest : string) (x0 : ascii) (x : string) :
  every JS.isDigit d = true ->
  JS.isDigit x0 = false ->
  JS.includes (d +:+ rest) (String x0 x) = JS.includes rest (String x0 x).
Proof.
  intros Hd Hx. induction d as [| c d IH]; [rewrite app_empty_l; reflexivity |].
  rewrite app_cons. cbn [every] in Hd. apply andb_true_iff in Hd as [Hc Hd].
  cbn [JS.includes String.prefix].
  destruct (ascii_dec x0 c) as [-> | _]; [congruence |].
  cbn [orb]. exact (IH Hd).
Qed.

(** What the transformer reads off the label of an indentation pattern. *)
Lemma indentation_label (n : nat) :
  let label := JS.ofNat n +:+ "-space indentation" in
  JS.includes label "new-line braces" = false
  /\ JS.includes label "same-line braces" = false
  /\ JS.includes label "indentation" = true
  /\ CodeStyleAnalyzer.parseInt
       (default "4" (head (JS.matchAll CodeStyleAnalyzer.digits label)))
     = Z.of_nat n.
Proof.
  intros label. unfold label. destruct (ofNat_digits n) as [Hd Hne].
  split; [| split; [| split]].
  - rewrite (includes_behind_digits (JS.ofNat n) "-space indentation" "n"%char
               "ew-line braces" Hd eq_refl).
    reflexivity.
  - rewrite (includes_behind_digits (JS.ofNat n) "-space indentation" "s"%char
               "ame-line braces" Hd eq_refl).
    reflexivity.
  - apply includes_app_r. reflexivity.
  - rewrite <- (parseInt_ofNat n). f_equal.
    destruct (JS.ofNat n) as [| c d] eqn:E; [contradiction |].
    rewrite app_cons. unfold JS.matchAll. cbn [JS.matchAllFrom].
    rewrite <- app_cons. unfold CodeStyleAnalyzer.digits, JS.many1.
    rewrite (span_app JS.isDigit (String c d) "-space indentation" Hd eq_refl).
    reflexivity.
Qed.

End Decimal.

Section Transformer.
Import CodeStyleAnalyzer.

Lemma filter_others (keep : CodePattern -> bool) (other : list CodePattern) :
  Forall (fun p => keep p = false) other -> List.filter keep other = [].
Proof.
  induction 1 as [| p rest Hp _ IH]; [reflexivity |].
  cbn [List.filter]. rewrite Hp. exact IH.
Qed.

Lemma analyzeNaming_types (scripts : list string) :
  List.filter isNaming (analyzeNaming scripts) = analyzeNaming scripts
  /\ List.filter isFormatting (analyzeNaming scripts) = [].
Proof.
  unfold analyzeNaming. cbv zeta.
  repeat match goal with
         | |- context [if ?b then _ else _] => destruct b
         end; split; reflexivity.
Qed.

Lemma analyzeFormatting_types (scripts : list string) :
  List.filter isNaming (analyzeFormatting scripts) = []
  /\ List.filter isFormatting (analyzeFormatting scripts) = analyzeFormatting scripts.
Proof.
  unfold analyzeFormatting. cbv zeta.
  repeat match goal with
         | |- context [if ?b then _ else _] => destruct b
         end; split; reflexivity.
Qed.

Lemma applyFormatting_analyzeFormatting (scripts : list string) (code : string) :
  applyFormatting code (analyzeFormatting scripts)
  = if (0 <? length (indentationSizes scripts))%nat
    then reindent code (Z.of_nat (findMostCommon (indentationSizes scripts)))
    else Ok code.
Proof.
  unfold analyzeFormatting. cbv zeta. fold (indentationSizes scripts).
  assert (Hbrace : forall l,
             applyFormatting code
               ((if (length (flat_map (JS.matchAll newLineBrace) scripts)
                     <? length (flat_map (JS.matchAll sameLineBrace) scripts))%nat
                 then [mkPattern Formatting "Same-line braces"
                         (length (flat_map (JS.matchAll sameLineBrace) scripts))
                         (ratio (length (flat_map (JS.matchAll sameLineBrace) scripts))
                            (length (flat_map (JS.matchAll sameLineBrace) scripts)
                             + length (flat_map (JS.matchAll newLineBrace) scripts)))
                         ["method() {"; "if (condition) {"]]
                 else if (length (flat_map (JS.matchAll sameLineBrace) scripts)
                          <? length (flat_map (JS.matchAll newLineBrace) scripts))%nat
                 then [mkPattern Formatting "New-line braces"
                         (length (flat_map (JS.matchAll newLineBrace) scripts))
                         (ratio (length (flat_map (JS.matchAll newLineBrace) scripts))
                            (length (flat_map (JS.matchAll sameLineBrace) scripts)
                             + length (flat_map (JS.matchAll newLineBrace) scripts)))
                         ["method()\n{"; "if (condition)\n{"]]
                 else []) ++ l)
             = applyFormatting code l).
  { intros l. destruct (_ <? _)%nat; [reflexivity |].
    destruct (_ <? _)%nat; reflexivity. }
  rewrite Hbrace.
  destruct (0 <? length (indentationSizes scripts))%nat; [| reflexivity].
  cbn [applyFormatting pattern].
  destruct (indentation_label (findMostCommon (indentationSizes scripts)))
    as (H1 & H2 & H3 & H4).
  rewrite H1, H2, H3, H4.
  destruct (reindent code _); reflexivity.
Qed.

End Transformer.

(** X26. Applied with a profile of the analyser, made of its naming and
    formatting patterns and of patterns of other kinds, [applyStyle] does
    one thing: when a line of the analysed scripts starts with white space
    it re-indents the text with the most common width of such starts, and
    otherwise it returns the text as it is. No name and no brace is
    rewritten, whatever the analysed scripts look like. *)
Theorem applyStyle_of_analysis (scripts : list string)
    (other : list CodeStyleAnalyzer.CodePattern) (code : string)
    (lastAnalyzed : Z) (fileCount : nat) (confidence : Q) :
  Forall (fun p => CodeStyleAnalyzer.isNaming p = false) other ->
  Forall (fun p => CodeStyleAnalyzer.isFormatting p = false) other ->
  CodeStyleAnalyzer.applyStyle code
    (CodeStyleAnalyzer.mkProfile
       (CodeStyleAnalyzer.analyzeNaming scripts
        ++ CodeStyleAnalyzer.analyzeFormatting scripts ++ other)
       lastAnalyzed fileCount confidence)
  = if (0 <? length (indentationSizes scripts))%nat
    then CodeStyleAnalyzer.reindent code
           (Z.of_nat (CodeStyleAnalyzer.findMostCommon (indentationSizes scripts)))
    else Ok code.
Proof.
  intros Hn Hf. unfold CodeStyleAnalyzer.applyStyle. cbv zeta.
  cbn [CodeStyleAnalyzer.patterns].
  rewrite !List.filter_app.
  destruct (analyzeNaming_types scripts) as [-> ->].
  destruct (analyzeFormatting_types scripts) as [-> ->].
  rewrite (filter_others _ _ Hn), (filter_others _ _ Hf).
  cbn [app]. rewrite !app_nil_r.
  pose proof (applyNaming_analyzeNaming scripts code) as H.
  destruct (analyzeNaming_types scripts) as [E _]. rewrite E in H. rewrite H.
  apply applyFormatting_analyzeFormatting.
Qed.

(** The profile of one script and of a pattern of another kind, applied to
    a block of three lines. *)
Lemma applyStyle_of_analysis_witness :
  (Forall (fun p => CodeStyleAnalyzer.isNaming p = false)
     [CodeStyleAnalyzer.mkPattern CodeStyleAnalyzer.Architecture "Singleton" 1 1
        ["private static Game instance"]]
   /\ Forall (fun p => CodeStyleAnalyzer.isFormatting p = false)
        [CodeStyleAnalyzer.mkPattern CodeStyleAnalyzer.Architecture "Singleton" 1 1
           ["private static Game instance"]])
  /\ CodeStyleAnalyzer.applyStyle
       ("if (x) {" +:+ Scenario.nl +:+ "y();" +:+ Scenario.nl +:+ "}")
       (CodeStyleAnalyzer.mkProfile
          (CodeStyleAnalyzer.analyzeNaming [Scenario.script "Enemy"]
           ++ CodeStyleAnalyzer.analyzeFormatting [Scenario.script "Enemy"]
           ++ [CodeStyleAnalyzer.mkPattern CodeStyleAnalyzer.Architecture "Singleton"
                 1 1 ["private static Game instance"]])
          1700000000000 1 0.1)
     = if (0 <? length (indentationSizes [Scenario.script "Enemy"]))%nat
       then CodeStyleAnalyzer.reindent
              ("if (x) {" +:+ Scenario.nl +:+ "y();" +:+ Scenario.nl +:+ "}")
              (Z.of_nat (CodeStyleAnalyzer.findMostCommon
                           (indentationSizes [Scenario.script "Enemy"])))
       else Ok ("if (x) {" +:+ Scenario.nl +:+ "y();" +:+ Scenario.nl +:+ "}").
Proof.
  assert (Hn : Forall (fun p => CodeStyleAnalyzer.isNaming p = false)
                 [CodeStyleAnalyzer.mkPattern CodeStyleAnalyzer.Architecture
                    "Singleton" 1 1 ["private static Game instance"]])
    by (constructor; [reflexivity | constructor]).
  assert (Hf : Forall (fun p => CodeStyleAnalyzer.isFormatting p = false)
                 [CodeStyleAnalyzer.mkPattern CodeStyleAnalyzer.Architecture
                    "Singleton" 1 1 ["private static Game instance"]])
    by (constructor; [reflexivity | constructor]).
  split; [split; assumption |].
  exact (applyStyle_of_analysis [Scenario.script "Enemy"] _
           ("if (x) {" +:+ Scenario.nl +:+ "y();" +:+ Scenario.nl +:+ "}")
           1700000000000 1 0.1 Hn Hf).
Defined.

(** ** The allow-list grows *)

(** X27. [addAllowedPath] revokes nothing and is idempotent: a path that
    was allowed is allowed afterwards, and reading it gives what it gave
    before; the path added is allowed; adding it a second time changes
    nothing. *)
Theorem addAllowedPath_keeps_access (dirPath filePath : string) (w : World) :
  FilesystemMCPClient.pathAllowedIn w filePath = true ->
  FilesystemMCPClient.pathAllowedIn (allowing dirPath w) filePath = true
  /\ fst (FilesystemMCPClient.readFile filePath (allowing dirPath w))
     = fst (FilesystemMCPClient.readFile filePath w)
  /\ FilesystemMCPClient.pathAllowedIn (allowing dirPath w) dirPath = true
  /\ allowing dirPath (allowing dirPath w) = allowing dirPath w.
Proof.
  intros H.
  assert (Hkeep : FilesystemMCPClient.pathAllowedIn (allowing dirPath w) filePath = true).
  { unfold allowing, FilesystemMCPClient.addAllowedPath, modify. cbn [snd].
    destruct (existsb _ (allowedPaths w)); [exact H |].
    unfold FilesystemMCPClient.pathAllowedIn in *.
    cbn [cwd allowedPaths withAllowedPaths].
    rewrite existsb_app, H. reflexivity. }
  split; [exact Hkeep |]. split; [| split].
  - unfold FilesystemMCPClient.readFile, bind, FilesystemMCPClient.isPathAllowed, gets.
    rewrite Hkeep, H. cbn [negb]. rewrite !catch_rethrow.
    unfold Fs.readFile, Fs.entryAt.
    destruct (allowing_fields dirPath w) as (Hcwd & _).
    assert (Hdisk : disk (allowing dirPath w) = disk w).
    { unfold allowing, FilesystemMCPClient.addAllowedPath, modify. cbn [snd].
      destruct (existsb _ _); reflexivity. }
    rewrite Hcwd, Hdisk.
    destruct (Fs.lookup _ _) as [[? [?|] ? ? | ? ?] |]; reflexivity.
  - apply allowing_allows.
  - exact (allowing_again dirPath w _ (sameEnv_refl _)).
Qed.

(** The project root of the sandbox stays readable when a second root is
    added. *)
Lemma addAllowedPath_keeps_access_witness :
  FilesystemMCPClient.pathAllowedIn Scenario.sandbox
    "/home/dev/game/Assets/Scripts/Enemy.cs" = true
  /\ FilesystemMCPClient.pathAllowedIn (allowing "/home/dev/other" Scenario.sandbox)
       "/home/dev/game/Assets/Scripts/Enemy.cs" = true
  /\ fst (FilesystemMCPClient.readFile "/home/dev/game/Assets/Scripts/Enemy.cs"
            (allowing "/home/dev/other" Scenario.sandbox))
     = fst (FilesystemMCPClient.readFile "/home/dev/game/Assets/Scripts/Enemy.cs"
              Scenario.sandbox)
  /\ FilesystemMCPClient.pathAllowedIn (allowing "/home/dev/other" Scenario.sandbox)
       "/home/dev/other" = true
  /\ allowing "/home/dev/other" (allowing "/home/dev/other" Scenario.sandbox)
     = allowing "/home/dev/other" Scenario.sandbox.
Proof.
  split; [reflexivity |].
  exact (addAllowedPath_keeps_access "/home/dev/other"
           "/home/dev/game/Assets/Scripts/Enemy.cs" Scenario.sandbox eq_refl).
Defined.

(** ** The store of the user profile *)

(** X28. Removing a project that was just added under an id no other
    project has gives the profile back as it was; and adding a project
    changes the active project only when there was none. *)
Theorem addProject_then_removeProject (project : UnityProject.t)
    (state : UserProfile.t) :
  ~ In (UnityProject.id project) (map UnityProject.id (UserProfile.projects state)) ->
  UserProfileStore.removeProject (UnityProject.id project)
    (UserProfileStore.addProject project state)
  = state
  /\ UserProfileStore.getActiveProject (UserProfileStore.addProject project state)
     = match UserProfileStore.getActiveProject state with
       | Some active => Some active
       | None => Some project
       end.
Proof.
  intros Hfresh. destruct state as [name experience version hardware style ps stats].
  unfold UserProfileStore.removeProject, UserProfileStore.addProject,
    UserProfileStore.withProjects, UserProfileStore.getActiveProject.
  cbn [UserProfile.projects UserProfile.name UserProfile.experience
         UserProfile.unityVersion UserProfile.hardware UserProfile.codeStyle
         UserProfile.stats] in *.
  split; [| destruct ps; reflexivity].
  f_equal. rewrite List.filter_app. cbn [List.filter].
  rewrite String.eqb_refl. cbn [negb]. rewrite app_nil_r.
  induction ps as [| p ps IH]; [reflexivity |].
  cbn [List.filter map In] in *.
  destruct (String.eqb_spec (UnityProject.id p) (UnityProject.id project)) as [E | _].
  - exfalso. apply Hfresh. left. exact E.
  - cbn [negb]. f_equal. apply IH. intros H. apply Hfresh. right. exact H.
Qed.

(** A second project for the sample user. *)
Lemma addProject_then_removeProject_witness :
  ~ In (UnityProject.id
          (UnityProject.mk "game-2" "arena" "/home/dev/arena" "multiplayer"
             "6000.0.23f1" "URP" [] []))
      (map UnityProject.id (UserProfile.projects Samples.profile))
  /\ UserProfileStore.removeProject
       (UnityProject.id
          (UnityProject.mk "game-2" "arena" "/home/dev/arena" "multiplayer"
             "6000.0.23f1" "URP" [] []))
       (UserProfileStore.addProject
          (UnityProject.mk "game-2" "arena" "/home/dev/arena" "multiplayer"
             "6000.0.23f1" "URP" [] [])
          Samples.profile)
     = Samples.profile
  /\ UserProfileStore.getActiveProject
       (UserProfileStore.addProject
          (UnityProject.mk "game-2" "arena" "/home/dev/arena" "multiplayer"
             "6000.0.23f1" "URP" [] [])
          Samples.profile)
     = match UserProfileStore.getActiveProject Samples.profile with
       | Some active => Some active
       | None => Some (UnityProject.mk "game-2" "arena" "/home/dev/arena" "multiplayer"
                         "6000.0.23f1" "URP" [] [])
       end.
Proof.
  assert (H : ~ In (UnityProject.id
                      (UnityProject.mk "game-2" "arena" "/home/dev/arena" "multiplayer"
                         "6000.0.23f1" "URP" [] []))
                (map UnityProject.id (UserProfile.projects Samples.profile)))
    by (intros [E | []]; discriminate E).
  split; [exact H |].
  exact (addProject_then_removeProject
           (UnityProject.mk "game-2" "arena" "/home/dev/arena" "multiplayer"
              "6000.0.23f1" "URP" [] [])
           Samples.profile H).
Defined.

(** ** How the records name their project *)

Section Tags.
Import FilesystemMCPClient UnityProjectIndexer.

Lemma storedRecords_app (a b : list StoreOp) :
  storedRecords (a ++ b) = storedRecords a ++ storedRecords b.
Proof. unfold storedRecords. apply flat_map_app. Qed.

Lemma storedRecords_upserts (batches : list (list VectorRecord)) :
  storedRecords (map Upsert batches) = concat batches.
Proof.
  induction batches as [| batch rest IH]; [reflexivity |].
  cbn [map concat]. change (storedRecords (Upsert batch :: map Upsert rest))
    with (batch ++ storedRecords (map Upsert rest)).
  rewrite IH. reflexivity.
Qed.

Lemma chunkDocuments_tagged (projectInfo : ProjectInfo) (baseName scriptPath : string)
    (metadata : ScriptMetadata) (updated : option Z) (chunks : list string) :
  forall (i : nat) (w w' : World) (docs : list Document),
    chunkDocuments projectInfo baseName scriptPath metadata updated i chunks w
    = (Ok docs, w') ->
    Forall (fun doc => taggedWith projectInfo (docMetadata doc)) docs.
Proof.
  induction chunks as [| chunk rest IH]; intros i w w' docs H; cbn [chunkDocuments] in H.
  - injection H as <- _. constructor.
  - apply bind_Ok in H as (token & w1 & _ & H).
    apply bind_Ok in H as (now & w2 & _ & H).
    apply bind_Ok in H as (docs' & w3 & Hrest & H).
    injection H as <- _.
    constructor; [repeat split | exact (IH _ _ _ _ Hrest)].
Qed.

Lemma scriptLoop_tagged (projectInfo : ProjectInfo) (scripts : list ScriptFile) :
  forall (documents : list Document) (indexed errors : nat) (w w' : World)
         (state : list Document * nat * nat),
    scriptLoop projectInfo scripts documents indexed errors w = (Ok state, w') ->
    Forall (fun doc => taggedWith projectInfo (docMetadata doc)) documents ->
    Forall (fun doc => taggedWith projectInfo (docMetadata doc)) (fst (fst state)).
Proof.
  induction scripts as [| script rest IH];
    intros documents indexed errors w w' state H Hdocs; cbn [scriptLoop] in H.
  - injection H as <- _. exact Hdocs.
  - destruct (chunkDocuments_run projectInfo (NodePath.basename (name script))
                (path script) (parseScript (content script) (path script))
                (Some (modified script))
                (chunkScript (content script) defaultChunkSize) 0 w)
      as (docs & w1 & Hrun & _).
    unfold bind at 1 in H. unfold catch at 1 in H. unfold bind at 1 in H.
    rewrite Hrun in H. unfold ret at 1 in H.
    apply (IH _ _ _ _ _ _ H).
    apply Forall_app_2; [exact Hdocs |].
    exact (chunkDocuments_tagged _ _ _ _ _ _ _ _ _ _ Hrun).
Qed.

Lemma assetDocuments_tagged (projectInfo : ProjectInfo) (kind : FileType)
    (label : string) (assets : list string) :
  forall (w w' : World) (docs : list Document),
    all (assetDocument projectInfo kind label) assets w = (Ok docs, w') ->
    Forall (fun doc => taggedWith projectInfo (docMetadata doc)) docs.
Proof.
  induction assets as [| asset rest IH]; intros w w' docs H; cbn [all] in H.
  - injection H as <- _. constructor.
  - apply bind_Ok in H as (doc & w1 & Hdoc & H).
    apply bind_Ok in H as (docs' & w2 & Hrest & H).
    injection H as <- _.
    constructor; [| exact (IH _ _ _ Hrest)].
    unfold assetDocument in Hdoc.
    apply bind_Ok in Hdoc as (token & w3 & _ & Hdoc).
    apply bind_Ok in Hdoc as (now & w4 & _ & Hdoc).
    injection Hdoc as <- _. repeat split.
Qed.

(** Storing tagged documents adds tagged records. *)
Lemma store_tagged (projectInfo : ProjectInfo) (documents : list Document)
    (w w' : World) :
  Forall (fun doc => taggedWith projectInfo (docMetadata doc)) documents ->
  (if (0 <? length documents)%nat then PineconeVectorDB.storeBatch documents
   else ret tt) w = (Ok tt, w') ->
  exists records,
    storedRecords (storeLog w') = storedRecords (storeLog w) ++ records
    /\ Forall (fun v => taggedWith projectInfo (vecMetadata v)) records.
Proof.
  intros Hdocs H. destruct documents as [| doc rest].
  - cbn in H. injection H as <-. exists []. rewrite app_nil_r. split; [reflexivity |].
    constructor.
  - cbn [length Nat.ltb Nat.leb] in H.
    unfold PineconeVectorDB.storeBatch in H. rewrite catch_rethrow in H.
    apply bind_Ok in H as (vectors & w1 & Hembed & Hupsert).
    pose proof (embedAll_records _ _ _ _ Hembed) as Hrec.
    destruct (embedAll_run _ _ _ _ Hembed) as [-> _].
    destruct (upsertAll_run _ _ _ Hupsert) as (_ & _ & Hlog & _).
    exists vectors. rewrite Hlog, storedRecords_app, storedRecords_upserts.
    rewrite concat_slices by lia. split; [reflexivity |].
    clear - Hdocs Hrec. induction Hrec as [| d v ds vs (_ & _ & Hm & _) _ IH];
      [constructor |].
    inversion Hdocs as [| ? ? Hd Hds]; subst.
    constructor; [rewrite Hm; exact Hd | exact (IH Hds)].
Qed.

Lemma drew_storeLog (w w' : World) (n : nat) : drew w w' n -> storeLog w' = storeLog w.
Proof. intros (_ & _ & _ & H). exact H. Qed.

Lemma indexScripts_tagged (projectPath : string) (projectInfo : ProjectInfo)
    (w w' : World) (c : Counts) :
  indexScripts projectPath projectInfo w = (Ok c, w') ->
  exists records,
    storedRecords (storeLog w') = storedRecords (storeLog w) ++ records
    /\ Forall (fun v => taggedWith projectInfo (vecMetadata v)) records.
Proof.
  unfold indexScripts. intros H.
  apply bind_Ok in H as (scripts & w1 & Hs & H).
  rewrite (reader_run _ w (reader_getUnityScripts _)) in Hs.
  injection Hs as Hs <-.
  destruct (scriptLoop_run projectInfo scripts [] 0 0 w)
    as (new & w2 & Hloop & Hd & _).
  pose proof (scriptLoop_tagged _ _ _ _ _ _ _ _ Hloop (List.Forall_nil _)) as Htag.
  cbn [fst app] in Htag.
  unfold bind at 1 in H. rewrite Hloop in H. cbn [app] in H.
  apply bind_Ok in H as ([] & w3 & Hstore & H). injection H as _ <-.
  destruct (store_tagged _ _ _ _ Htag Hstore) as (records & Hlog & Hrec).
  exists records. rewrite <- (drew_storeLog _ _ _ Hd). auto.
Qed.

Lemma indexAssets_tagged (projectInfo : ProjectInfo) (kind : FileType) (label : string)
    (find : M (list string)) (w w' : World) (c : Counts) :
  reader find ->
  (assets <- find ;;
   documents <- all (assetDocument projectInfo kind label) assets ;;
   (if (0 <? length documents)%nat then PineconeVectorDB.storeBatch documents
    else ret tt) ;;;
   ret (mkCounts (length assets) (length assets) 0)) w = (Ok c, w') ->
  exists records,
    storedRecords (storeLog w') = storedRecords (storeLog w) ++ records
    /\ Forall (fun v => taggedWith projectInfo (vecMetadata v)) records.
Proof.
  intros Hfind H.
  apply bind_Ok in H as (assets & w1 & Hs & H).
  rewrite (reader_run _ w Hfind) in Hs. injection Hs as Hs <-.
  destruct (assetDocuments_run projectInfo kind label assets w)
    as (docs & w2 & Hall & Hd & _).
  pose proof (assetDocuments_tagged _ _ _ _ _ _ _ Hall) as Htag.
  unfold bind at 1 in H. rewrite Hall in H.
  apply bind_Ok in H as ([] & w3 & Hstore & H). injection H as _ <-.
  destruct (store_tagged _ _ _ _ Htag Hstore) as (records & Hlog & Hrec).
  exists records. rewrite <- (drew_storeLog _ _ _ Hd). auto.
Qed.

End Tags.

(** X30. Every record a run of [indexProject] stores names its project by
    the project path as it was given to the call, not resolved, and by the
    last segment of that path. *)
Theorem indexProject_tags_records (projectPath : string) (w w' : World)
    (r : UnityProjectIndexer.IndexResult) :
  UnityProjectIndexer.indexProject projectPath w = (Ok r, w') ->
  exists records,
    storedRecords (storeLog w') = storedRecords (storeLog w) ++ records
    /\ Forall (fun v =>
                 projectId (vecMetadata v) = projectPath
                 /\ projectName (vecMetadata v) = NodePath.basename projectPath)
         records.
Proof.
  unfold UnityProjectIndexer.indexProject. intros H.
  apply bind_Ok in H as ([] & wa & Ha & H).
  assert (Ewa : wa = allowing projectPath w) by (unfold allowing; rewrite Ha; reflexivity).
  apply bind_Ok in H as (projectInfo & w0 & Hinfo & H).
  rewrite getProjectInfo_result in Hinfo. injection Hinfo as <- <-.
  rewrite catch_rethrow in H.
  apply bind_Ok in H as (c1 & w1 & H1 & H).
  apply bind_Ok in H as (c2 & w2 & H2 & H).
  apply bind_Ok in H as (c3 & w3 & H3 & H).
  injection H as _ <-.
  apply indexScripts_tagged in H1 as (r1 & L1 & T1).
  apply (indexAssets_tagged _ _ _ _ _ _ _ (reader_getUnityScenes projectPath)) in H2
    as (r2 & L2 & T2).
  apply (indexAssets_tagged _ _ _ _ _ _ _ (reader_getUnityPrefabs projectPath)) in H3
    as (r3 & L3 & T3).
  exists (r1 ++ r2 ++ r3). split.
  - rewrite L3, L2, L1, Ewa.
    destruct (allowing_fields projectPath w) as (_ & _ & _ & _ & -> & _).
    rewrite <- !List.app_assoc. reflexivity.
  - repeat apply Forall_app_2;
      (eapply List.Forall_impl; [| eassumption]);
      intros v (Hp & Hn & _); cbn in Hp, Hn; auto.
Qed.

(** The run on the project with the scripts [Enemy.cs] and [Player.cs]. *)
Lemma indexProject_tags_records_witness :
  UnityProjectIndexer.indexProject "/home/dev/game" Scenario.twoScripts
  = (Ok (UnityProjectIndexer.mkIndexResult 2 2 0), Scenario.afterFirstRun)
  /\ exists records,
      storedRecords (storeLog Scenario.afterFirstRun)
      = storedRecords (storeLog Scenario.twoScripts) ++ records
      /\ Forall (fun v =>
                   projectId (vecMetadata v) = "/home/dev/game"
                   /\ projectName (vecMetadata v) = NodePath.basename "/home/dev/game")
           records.
Proof.
  assert (H : UnityProjectIndexer.indexProject "/home/dev/game" Scenario.twoScripts
              = (Ok (UnityProjectIndexer.mkIndexResult 2 2 0), Scenario.afterFirstRun))
    by (vm_compute; reflexivity).
  split; [exact H |].
  exact (indexProject_tags_records "/home/dev/game" Scenario.twoScripts
           Scenario.afterFirstRun _ H).
Defined.
